(** * XJTLU academic MCP: dispatch and planning engine

    A shallow embedding of the course index ([CourseService]), the planning
    engine ([PlanningService]), the text-generation service ([AIService]),
    the dispatcher ([AcademicDispatcher]) with all its handlers, the request
    endpoint and the planning agent, followed by the properties proved about
    them.

    Conventions of the embedding:
    - Python [str] is [string] (a list of 8-bit characters); [lower], [upper]
      and [strip] act on the ASCII range, which is where every keyword of the
      program lives.
    - Python [int] is [Z]; Python [float] is the kernel's binary64 [float], so
      that every score is computed with the rounding the interpreter applies.
    - a [dict] whose iteration order matters is an association list; the
      keyword index, only ever looked up by key, is a [gmap].
    - a field read with [d.get(k, default)] is an [option] together with the
      default at the point of use.
    - code that can raise returns a [result]; [try ... except Exception] is
      [try_except]. *)

From Stdlib Require Import ZArith List String Ascii Floats Lia Bool DecimalString.
From stdpp Require Import base option list strings gmap sorting.

#[local] Set Warnings "-inexact-float".
#[local] Open Scope string_scope.
#[local] Open Scope list_scope.

(** ** Python built-ins on strings *)

Module PyStr.

Definition is_upper (c : ascii) : bool :=
  let n := N_of_ascii c in (65 <=? n)%N && (n <=? 90)%N.

Definition is_lower (c : ascii) : bool :=
  let n := N_of_ascii c in (97 <=? n)%N && (n <=? 122)%N.

Definition lower_char (c : ascii) : ascii :=
  if is_upper c then ascii_of_N (N_of_ascii c + 32) else c.

Definition upper_char (c : ascii) : ascii :=
  if is_lower c then ascii_of_N (N_of_ascii c - 32) else c.

(** [s.lower()] *)
Fixpoint lower (s : string) : string :=
  match s with
  | EmptyString => EmptyString
  | String c s' => String (lower_char c) (lower s')
  end.

(** [s.upper()] *)
Fixpoint upper (s : string) : string :=
  match s with
  | EmptyString => EmptyString
  | String c s' => String (upper_char c) (upper s')
  end.

(** [needle in hay] on two strings: substring containment. *)
Fixpoint contains (needle hay : string) : bool :=
  String.prefix needle hay ||
  match hay with
  | EmptyString => false
  | String _ hay' => contains needle hay'
  end.

(** [x in l] on a list of strings. *)
Definition mem (x : string) (l : list string) : bool :=
  existsb (String.eqb x) l.

(** [s.split(sep)[0]] for a one-character separator. *)
Fixpoint before (sep : ascii) (s : string) : string :=
  match s with
  | EmptyString => EmptyString
  | String c s' => if Ascii.eqb c sep then EmptyString else String c (before sep s')
  end.

(** [s[-1]]; [None] stands for the [IndexError] on the empty string. *)
Fixpoint last (s : string) : option ascii :=
  match s with
  | EmptyString => None
  | String c EmptyString => Some c
  | String _ s' => last s'
  end.

(** [sep.join(l)] *)
Fixpoint join (sep : string) (l : list string) : string :=
  match l with
  | [] => EmptyString
  | [x] => x
  | x :: l' => x +:+ sep +:+ join sep l'
  end.

Definition is_space (c : ascii) : bool :=
  let n := N_of_ascii c in
  ((9 <=? n)%N && (n <=? 13)%N) || ((28 <=? n)%N && (n <=? 32)%N).

Fixpoint lstrip (s : string) : string :=
  match s with
  | EmptyString => EmptyString
  | String c s' => if is_space c then lstrip s' else s
  end.

(** [rstrip] drops a character when it is a space and everything after it
    has been dropped. *)
Fixpoint rstrip (s : string) : string :=
  match s with
  | EmptyString => EmptyString
  | String c s' =>
      match rstrip s' with
      | EmptyString => if is_space c then EmptyString else String c EmptyString
      | r => String c r
      end
  end.

(** [s.strip()] *)
Definition strip (s : string) : string := rstrip (lstrip s).

(** [str(z)], as an f-string formats an [int]. *)
Definition of_Z (z : Z) : string := NilZero.string_of_int (Z.to_int z).

(** The double-quote character, for templates that quote their input. *)
Definition dquote : string := String (ascii_of_N 34) EmptyString.

(** [chr(10)] *)
Definition newline : string := String (ascii_of_N 10) EmptyString.

End PyStr.

(** ** Exceptions *)

Inductive exn_class : Type :=
| IndexError
| KeyError
| ValueError
| Timeout
| ConnectionError
| HTTPError
| ZeroDivisionError
| OverflowError.

(** An exception: its class and [str(e)]. *)
Record exn : Type := mkExn { exn_class_of : exn_class; exn_str : string }.

Inductive result (A : Type) : Type :=
| Ok (a : A)
| Raise (e : exn).

Arguments Ok {A} a.
Arguments Raise {A} e.

Definition bind {A B : Type} (c : result A) (k : A -> result B) : result B :=
  match c with
  | Ok a => k a
  | Raise e => Raise e
  end.

Notation "'let*' x := c 'in' k" := (bind c (fun x => k))
  (at level 10, x name, c at level 100, k at level 200).

(** [try: body  except Exception as e: handler(e)] *)
Definition try_except {A : Type} (body : result A) (handler : exn -> A) : A :=
  match body with
  | Ok a => a
  | Raise e => handler e
  end.

(** ** Floats *)

(** Python's integers are unbounded, and both [float(z)] and the true
    division [a / b] of two integers round the exact value to the nearest
    binary64 number, the one with an even mantissa on a tie.  The rounding is
    computed on integers. *)
Module Binary64.

#[local] Open Scope Z_scope.

(** The integer nearest to [a / b], the even one on a tie ([0 <= a], [0 < b]). *)
Definition nearest_Z (a b : Z) : Z :=
  let q := a / b in
  let r := a mod b in
  if 2 * r <? b then q
  else if b <? 2 * r then q + 1
  else if Z.even q then q else q + 1.

(** [2^e <= a / b], for positive [a] and [b]. *)
Definition pow2_le (e a b : Z) : bool :=
  if 0 <=? e then b * 2 ^ e <=? a else b <=? a * 2 ^ (- e).

(** The quotient [a / b] of two positive integers, rounded to binary64: the
    pair [(m, e)] stands for [m * 2^e], where [e] is the exponent of the
    last bit of a float of the size of the quotient (never below -1074, the
    exponent of the subnormal numbers) and [m], at most [2^53], is the
    integer nearest to [a / (b * 2^e)], the even one on a tie. *)
Definition rounded (a b : Z) : Z * Z :=
  let d := Z.log2 a - Z.log2 b in
  let e0 := if pow2_le d a b then d else d - 1 in
  let e := Z.max e0 (-1022) - 52 in
  let m := if 0 <=? e then nearest_Z a (b * 2 ^ e) else nearest_Z (a * 2 ^ (- e)) b in
  (m, e).

(** The rounded quotient is beyond the largest float, [2^1024 - 2^971]. *)
Definition too_large (a b : Z) : bool :=
  let '(m, e) := rounded a b in (0 <=? e) && (2 ^ 1024 <=? m * 2 ^ e).

Definition to_float (a b : Z) : float :=
  let '(m, e) := rounded a b in Z.ldexp (PrimFloat.of_uint63 (Uint63.of_Z m)) e.

End Binary64.

(** [float(z)] where the program converts an integer that is the length of
    a list or a small constant.  Python raises [OverflowError] for an
    integer whose rounding is beyond the largest float; no length gets
    there, and the conversion is written as an infinity at such a value. *)
Definition float_of_Z (z : Z) : float :=
  match z with
  | Z0 => 0%float
  | Zpos p =>
      if Binary64.too_large (Zpos p) 1 then infinity else Binary64.to_float (Zpos p) 1
  | Zneg p =>
      if Binary64.too_large (Zpos p) 1 then neg_infinity
      else (- Binary64.to_float (Zpos p) 1)%float
  end.

(** [a / b] on two integers: the correctly rounded quotient, with the sign
    of the quotient also on a zero; [ZeroDivisionError] for a zero divisor
    and [OverflowError] when the rounded quotient is too large for a
    float. *)
Definition truediv (a b : Z) : result float :=
  if (b =? 0)%Z then Raise (mkExn ZeroDivisionError "division by zero")
  else
    let negate := xorb (a <? 0)%Z (b <? 0)%Z in
    if (a =? 0)%Z then Ok (if negate then (-0)%float else 0%float)
    else if Binary64.too_large (Z.abs a) (Z.abs b)
    then Raise (mkExn OverflowError "integer division result too large for a float")
    else
      let x := Binary64.to_float (Z.abs a) (Z.abs b) in
      Ok (if negate then (- x)%float else x).

(** [max(a, b)] and [min(a, b)] as the built-ins compare: the first argument
    is kept unless the second one is strictly better. *)
Definition py_max (a b : float) : float := if PrimFloat.ltb a b then b else a.
Definition py_min (a b : float) : float := if PrimFloat.ltb b a then b else a.

(** ** Data model *)

Module Course.
Record t : Type := mk {
  code : string;
  name : string;
  credits : option Z;
  tags : option (list string);
  prerequisites : option (list string);
  description : option string;
  semester : option Z;
  difficulty_level : option Z;
  career_paths : option (list string)
}.

(** [course.get("credits", 5)] *)
Definition get_credits (c : t) : Z := default 5%Z (credits c).
(** [course.get("tags", [])] *)
Definition get_tags (c : t) : list string := default [] (tags c).
(** [course.get("description", "")] *)
Definition get_description (c : t) : string := default EmptyString (description c).
(** [course.get("semester", 0)] *)
Definition get_semester (c : t) : Z := default 0%Z (semester c).
(** [course.get("difficulty_level", 3)] *)
Definition get_difficulty_level (c : t) : Z := default 3%Z (difficulty_level c).
End Course.

Module Ctx.
(** The [user_context] dictionary; every read goes through [.get] with a
    default. *)
Record t : Type := mk {
  academic_year : option string;
  current_semester : option string;
  major : option string;
  target_program : option string;
  completed_courses : option (list string);
  available_credits : option Z
}.

Definition get_academic_year (u : t) : string := default "2025-2026" (academic_year u).
Definition get_current_semester (u : t) : string := default "Fall" (current_semester u).
Definition get_major (u : t) : string := default "Economics" (major u).
Definition get_completed_courses (u : t) : list string := default [] (completed_courses u).
Definition get_available_credits (u : t) : Z := default 20%Z (available_credits u).
End Ctx.

(** [sorted(l, key=..., reverse=True)]: stable, descending.  [gt a b] says
    that the key of [a] is strictly greater than the key of [b]; elements
    with equal keys keep their order. *)
Fixpoint insert_desc {A : Type} (gt : A -> A -> bool) (x : A) (l : list A) : list A :=
  match l with
  | [] => [x]
  | y :: l' => if gt y x then y :: insert_desc gt x l' else x :: y :: l'
  end.

Definition sort_desc {A : Type} (gt : A -> A -> bool) (l : list A) : list A :=
  foldr (insert_desc gt) [] l.

(** [False < True] on booleans used as sort keys. *)
Definition bool_gt (a b : bool) : bool := a && negb b.

(** ** CourseService *)

Module CourseService.

(** [self.subject_keywords] *)
Definition subject_keywords : list (string * list string) :=
  [ ("eco", ["eco"; "economics"; "micro"; "macro"; "economic"; "econ"]);
    ("stat", ["stat"; "econometrics"; "data"; "statistics"; "quantitative"; "metrics"]);
    ("fin", ["fin"; "finance"; "monetary"; "financial"; "banking"; "investment"]);
    ("sustain", ["sustain"; "esg"; "climate"; "environmental"; "development"]);
    ("math", ["math"; "maths"; "calculus"; "mathematical"; "linear"; "algebra"]) ].

(** [any(tag in keywords for tag in tags)] *)
Definition tagged (keywords : list string) (course : Course.t) : bool :=
  existsb (fun tag => PyStr.mem tag keywords) (Course.get_tags course).

(** The body of the inner loop of [_build_keyword_index]. *)
Definition index_course (course : Course.t)
    (keyword_index : gmap string (list Course.t)) (entry : string * list string)
    : gmap string (list Course.t) :=
  let '(subject, keywords) := entry in
  if tagged keywords course
  then <[subject := default [] (keyword_index !! subject) ++ [course]]> keyword_index
  else keyword_index.

Section Catalog.

(** [self.courses]: the catalog as [_load_mock_courses] returned it (the
    empty list when loading failed). *)
Variable courses : list Course.t.

Definition _build_keyword_index : gmap string (list Course.t) :=
  fold_left
    (fun keyword_index course => fold_left (index_course course) subject_keywords keyword_index)
    courses ∅.

(** The test of the fuzzy tier of [search_by_keyword]. *)
Definition fuzzy_match (keyword : string) (course : Course.t) : bool :=
  PyStr.contains keyword (PyStr.lower (Course.name course))
  || PyStr.contains keyword (PyStr.lower (Course.get_description course))
  || existsb (fun tag => PyStr.contains keyword tag) (Course.get_tags course).

(** The sort key of the fuzzy tier, compared as a tuple of booleans. *)
Definition relevance_gt (keyword : string) (x y : Course.t) : bool :=
  let kx1 := PyStr.contains keyword (PyStr.lower (Course.name x)) in
  let kx2 := PyStr.contains keyword (PyStr.lower (Course.get_description x)) in
  let ky1 := PyStr.contains keyword (PyStr.lower (Course.name y)) in
  let ky2 := PyStr.contains keyword (PyStr.lower (Course.get_description y)) in
  bool_gt kx1 ky1 || (Bool.eqb kx1 ky1 && bool_gt kx2 ky2).

Definition search_by_keyword (keyword : string) : list Course.t :=
  let keyword := PyStr.lower keyword in
  match _build_keyword_index !! keyword with
  | Some bucket => bucket
  | None =>
      let results := List.filter (fuzzy_match keyword) courses in
      take 10 (sort_desc (relevance_gt keyword) results)
  end.

Definition get_course_by_code (code : string) : option Course.t :=
  let code := PyStr.upper code in
  List.find (fun course => String.eqb (PyStr.upper (Course.code course)) code) courses.

Definition get_prerequisites (course_code : string) : list string :=
  match get_course_by_code course_code with
  | Some course =>
      match Course.prerequisites course with
      | Some prereqs => prereqs
      | None => []
      end
  | None => []
  end.

Definition check_prerequisites_met (course_code : string)
    (completed_courses : list string) : bool :=
  let prerequisites := get_prerequisites course_code in
  forallb (fun prereq => PyStr.mem prereq completed_courses) prerequisites.

End Catalog.

End CourseService.

(** ** PlanningService *)

(** [d.get(k)] on a dictionary kept as an association list. *)
Fixpoint assoc {A : Type} (k : string) (d : list (string * A)) : option A :=
  match d with
  | [] => None
  | (k', v) :: d' => if String.eqb k k' then Some v else assoc k d'
  end.

(** [sum(1 for x in l if f(x))] *)
Definition count_if {A : Type} (f : A -> bool) (l : list A) : Z :=
  Z.of_nat (length (List.filter f l)).

(** [sum(l)] on integers. *)
Definition sum_Z (l : list Z) : Z := foldr Z.add 0%Z l.

Module Plan.
(** The dictionary [generate_semester_plan] returns.  [calendar_dates] is
    a key of the generated plan only, [note] of the default plan only. *)
Record t : Type := mk {
  academic_year : string;
  semester : string;
  specialization : string;
  courses : list Course.t;
  total_credits : Z;
  workload_level : string;
  career_alignment_score : float;
  gap_analysis : list string;
  credit_limit : Z;
  calendar_dates : option (list (string * string));
  note : option string
}.
End Plan.

Module PlanningService.

#[local] Open Scope Z_scope.

Definition CREDIT_LIMITS : list (string * Z) :=
  [ ("year_1", 15); ("year_2", 20); ("year_3", 20); ("year_4", 15) ].

Record SpecializationPath : Type := mkPath {
  core_sequence : list string;
  recommended_electives : list string;
  career_paths : list string
}.

Definition SPECIALIZATION_PATHS : list (string * SpecializationPath) :=
  [ ("quantitative_finance",
      mkPath ["ECO205"; "ECO214"; "ECO302"; "FIN301"; "ECO305"]
             ["ECO309"; "ECO227"; "MTH212"]
             ["Quantitative Analyst"; "Risk Management"; "Asset Allocation"]);
    ("policy_analysis",
      mkPath ["ECO213"; "ECO216"; "ECO225"; "ECO305"; "ECO321"]
             ["ECO207"; "ECO212"; "POL201"]
             ["Central Banking"; "Policy Advisor"; "International Organizations"]);
    ("sustainable_finance",
      mkPath ["ECO307"; "ECO311"; "ECO305"; "FIN301"; "ECO225"]
             ["ECO306"; "ECO228"; "ENV301"]
             ["ESG Investment"; "Sustainable Finance"; "Impact Investing"]) ].

(** [SPECIALIZATION_PATHS.get(specialization, {}).get("core_sequence", [])] *)
Definition core_sequence_of (specialization : string) : list string :=
  match assoc specialization SPECIALIZATION_PATHS with
  | Some path => core_sequence path
  | None => []
  end.

(** [SPECIALIZATION_PATHS.get(specialization, {}).get("recommended_electives", [])] *)
Definition electives_of (specialization : string) : list string :=
  match assoc specialization SPECIALIZATION_PATHS with
  | Some path => recommended_electives path
  | None => []
  end.

Definition _determine_specialization (target_program : string)
    (completed_courses : list string) : string :=
  let target_program := PyStr.lower target_program in
  if PyStr.contains "hkU mfwm" target_program || PyStr.contains "family wealth" target_program
  then "quantitative_finance"
  else if PyStr.contains "policy" target_program || PyStr.contains "central bank" target_program
  then "policy_analysis"
  else if PyStr.contains "sustain" target_program || PyStr.contains "esg" target_program
  then "sustainable_finance"
  else
    let quantitative_courses := ["ECO205"; "ECO214"; "ECO302"; "MTH212"] in
    let policy_courses := ["ECO213"; "ECO216"; "ECO225"; "POL201"] in
    let quantitative_count :=
      count_if (fun c => PyStr.mem c quantitative_courses) completed_courses in
    let policy_count :=
      count_if (fun c => PyStr.mem c policy_courses) completed_courses in
    if quantitative_count >? policy_count then "quantitative_finance"
    else if policy_count >? 0 then "policy_analysis"
    else "quantitative_finance".

(** One step of the first loop of [_filter_courses]; the state is
    [(selected_courses, remaining_credits)]. *)
Definition first_pass (completed_courses : list string)
    (st : list Course.t * Z) (course : Course.t) : list Course.t * Z :=
  let '(selected_courses, remaining_credits) := st in
  if negb (PyStr.mem (Course.code course) completed_courses)
     && negb (PyStr.mem (Course.code course) (map Course.code selected_courses))
  then
    let course_credits := Course.get_credits course in
    if course_credits <=? remaining_credits
    then (selected_courses ++ [course], remaining_credits - course_credits)
    else st
  else st.

(** The second loop of [_filter_courses], which [break]s as soon as fewer
    than 5 credits remain after a selection. *)
Fixpoint second_pass (completed_courses : list string)
    (recommended_courses : list Course.t) (st : list Course.t * Z)
    : list Course.t * Z :=
  match recommended_courses with
  | [] => st
  | course :: rest =>
      let '(selected_courses, remaining_credits) := st in
      if negb (PyStr.mem (Course.code course) completed_courses)
         && negb (PyStr.mem (Course.code course) (map Course.code selected_courses))
         && (Course.get_credits course <=? remaining_credits)
      then
        let remaining_credits' := remaining_credits - Course.get_credits course in
        if remaining_credits' <? 5
        then (selected_courses ++ [course], remaining_credits')
        else second_pass completed_courses rest
               (selected_courses ++ [course], remaining_credits')
      else second_pass completed_courses rest st
  end.

Definition _filter_courses (recommended_courses : list Course.t)
    (completed_courses : list string) (available_credits : Z) : list Course.t :=
  let st :=
    fold_left (first_pass completed_courses) recommended_courses ([], available_credits) in
  let st :=
    if snd st >=? 5 then second_pass completed_courses recommended_courses st else st in
  fst st.

(** [academic_year.split("-")[0][-1]] *)
Definition year_key (academic_year : string) : result ascii :=
  match PyStr.last (PyStr.before "-"%char academic_year) with
  | Some c => Ok c
  | None => Raise (mkExn IndexError "string index out of range")
  end.

Definition _assess_workload (courses : list Course.t) (user_context : Ctx.t)
    : result string :=
  let total_credits := sum_Z (map Course.get_credits courses) in
  let course_count := Z.of_nat (length courses) in
  let academic_year := Ctx.get_academic_year user_context in
  let* year_key := year_key academic_year in
  let credit_limit :=
    default 20 (assoc ("year_" +:+ String year_key EmptyString) CREDIT_LIMITS) in
  let* credit_ratio := truediv total_credits credit_limit in
  let* course_difficulty :=
    truediv (sum_Z (map Course.get_difficulty_level courses)) (Z.max course_count 1) in
  let workload_score :=
    (credit_ratio * 0.6 + (course_difficulty / 5) * 0.4)%float in
  if (workload_score <? 0.6)%float then Ok "light"
  else if (workload_score <? 0.8)%float then Ok "moderate"
  else Ok "heavy".

(** [sum(1 for c in courses if c["code"] in core_courses) / max(len(core_courses), 1)] *)
Definition core_coverage (courses : list Course.t) (specialization : string)
    : result float :=
  let core_courses := core_sequence_of specialization in
  truediv (count_if (fun c => PyStr.mem (Course.code c) core_courses) courses)
          (Z.max (Z.of_nat (length core_courses)) 1).

Definition _calculate_career_alignment (courses : list Course.t)
    (specialization target_program : string) : result float :=
  match courses with
  | [] => Ok 0%float
  | _ =>
      let* core_coverage := core_coverage courses specialization in
      let* alignment :=
        if PyStr.contains "HKU MFWM" target_program
        then
          let quant_count :=
            count_if (fun c => existsb (fun tag => PyStr.mem tag ["fin"; "stat"; "math"])
                                       (Course.get_tags c)) courses in
          let* quant_share := truediv quant_count (Z.max (Z.of_nat (length courses)) 1) in
          Ok (0.6 * core_coverage + 0.4 * quant_share)%float
        else Ok core_coverage in
      Ok (py_min (py_max alignment 0%float) 1%float)
  end.

Definition _identify_gaps (selected_courses : list Course.t) (specialization : string)
    (completed_courses : list string) : list string :=
  let core_sequence := core_sequence_of specialization in
  let selected_codes := map Course.code selected_courses in
  let missing_cores :=
    List.filter (fun c => negb (PyStr.mem c completed_courses)
                          && negb (PyStr.mem c selected_codes)) core_sequence in
  let gaps :=
    match missing_cores with
    | [] => []
    | _ => [ "Missing core courses: " +:+ PyStr.join ", " (take 2 missing_cores)
             +:+ (if (2 <? length missing_cores)%nat then " and others" else EmptyString) ]
    end in
  let has_quantitative :=
    existsb (fun c => existsb (fun tag => PyStr.mem tag ["stat"; "math"]) (Course.get_tags c))
            selected_courses in
  let has_finance :=
    existsb (fun c => PyStr.mem "fin" (Course.get_tags c)) selected_courses in
  let gaps :=
    if String.eqb specialization "quantitative_finance" && negb has_quantitative
    then gaps ++ ["Limited quantitative training - consider adding econometrics or mathematics courses"]
    else gaps in
  let gaps :=
    if String.eqb specialization "quantitative_finance" && negb has_finance
    then gaps ++ ["Limited finance exposure - consider adding monetary economics or business finance courses"]
    else gaps in
  gaps.

Definition _get_default_plan (user_context : Ctx.t) : Plan.t :=
  {| Plan.academic_year := Ctx.get_academic_year user_context;
     Plan.semester := Ctx.get_current_semester user_context;
     Plan.specialization := "general_economics";
     Plan.courses :=
       [ Course.mk "ECO213" "Macroeconomics I" (Some 5) None None
                   (Some "Core macroeconomics principles") None None None;
         Course.mk "ECO217" "Microeconomics I" (Some 5) None None
                   (Some "Core microeconomics principles") None None None ];
     Plan.total_credits := 10;
     Plan.workload_level := "light";
     Plan.career_alignment_score := 0.6%float;
     Plan.gap_analysis := ["Default plan used due to system constraints"];
     Plan.credit_limit := Ctx.get_available_credits user_context;
     Plan.calendar_dates := None;
     Plan.note := Some "This is a default plan. For personalized recommendations, please ensure your academic profile is complete." |}.

Section Service.

(** [self.course_service.courses] and [self.academic_calendar], both
    loaded once when the service is built. *)
Variable courses : list Course.t.
Variable academic_calendar : list (string * list (string * list (string * string))).

(** The sort key of [_get_recommended_courses], compared as a tuple:
    [(x["code"] in core_sequence, -x.get("credits", 5))]. *)
Definition priority_gt (core_sequence : list string) (x y : Course.t) : bool :=
  let kx := PyStr.mem (Course.code x) core_sequence in
  let ky := PyStr.mem (Course.code y) core_sequence in
  bool_gt kx ky
  || (Bool.eqb kx ky && (- Course.get_credits x >? - Course.get_credits y)).

Definition _get_recommended_courses (specialization academic_year semester : string)
    (completed_courses : list string) : list Course.t :=
  let core_sequence := core_sequence_of specialization in
  let electives := electives_of specialization in
  let all_courses :=
    omap (CourseService.get_course_by_code courses) (core_sequence ++ electives) in
  let target_semester := if String.eqb (PyStr.lower semester) "fall" then 1 else 2 in
  let semester_courses :=
    List.filter
      (fun course =>
         let course_semester := Course.get_semester course in
         ((course_semester =? 0) || (course_semester =? target_semester))
         && CourseService.check_prerequisites_met courses (Course.code course)
              completed_courses)
      all_courses in
  sort_desc (priority_gt core_sequence) semester_courses.

(** The [try] block of [generate_semester_plan]. *)
Definition generate_semester_plan_try (user_context : Ctx.t) : result Plan.t :=
  let academic_year := Ctx.get_academic_year user_context in
  let current_semester := Ctx.get_current_semester user_context in
  let target_program := default EmptyString (Ctx.target_program user_context) in
  let completed_courses := Ctx.get_completed_courses user_context in
  let available_credits := Ctx.get_available_credits user_context in
  let specialization := _determine_specialization target_program completed_courses in
  let recommended_courses :=
    _get_recommended_courses specialization academic_year current_semester
      completed_courses in
  let filtered_courses :=
    _filter_courses recommended_courses completed_courses available_credits in
  let* workload_level := _assess_workload filtered_courses user_context in
  let* career_alignment :=
    _calculate_career_alignment filtered_courses specialization target_program in
  let gap_analysis := _identify_gaps filtered_courses specialization completed_courses in
  Ok {| Plan.academic_year := academic_year;
        Plan.semester := current_semester;
        Plan.specialization := specialization;
        Plan.courses := filtered_courses;
        Plan.total_credits := sum_Z (map Course.get_credits filtered_courses);
        Plan.workload_level := workload_level;
        Plan.career_alignment_score := career_alignment;
        Plan.gap_analysis := gap_analysis;
        Plan.credit_limit := available_credits;
        Plan.calendar_dates :=
          Some (default [] (assoc current_semester
                              (default [] (assoc academic_year academic_calendar))));
        Plan.note := None |}.

Definition generate_semester_plan (user_context : Ctx.t) : Plan.t :=
  try_except (generate_semester_plan_try user_context)
             (fun _ => _get_default_plan user_context).

End Service.

End PlanningService.

(** ** AIService *)

Module Settings.
(** The fields of [app.core.config.settings] the services read. *)
Record t : Type := mk {
  APP_ENV : string;
  USE_MOCK_AI : bool;
  DEEPSEEK_API_KEY : string
}.
End Settings.

Module AIService.

Section Service.

Variable settings : Settings.t.

(** The HTTP exchange inside [_call_deepseek_api]: [requests.post] with
    its 30 second timeout, [raise_for_status], the check that the reply
    has choices, and the stripped content of the first one.  The text
    generator is an external collaborator: all the service knows is that
    the exchange yields a text or raises. *)
Variable post : string -> result string.

(** [self.use_mock] after [__init__]: mock mode is forced when no API key
    is configured. *)
Definition use_mock : bool :=
  Settings.USE_MOCK_AI settings
  || String.eqb (Settings.DEEPSEEK_API_KEY settings) EmptyString.

Definition _call_deepseek_api (prompt : string) : result string :=
  if String.eqb (Settings.DEEPSEEK_API_KEY settings) EmptyString
  then Raise (mkExn ValueError "DeepSeek API key not configured")
  else post prompt.

Definition _build_planning_prompt (plan : Plan.t) (user_profile : Ctx.t)
    (original_query : string) : string :=
  let course_list :=
    map (fun course =>
           "- " +:+ Course.code course +:+ ": " +:+ Course.name course +:+ " ("
           +:+ PyStr.of_Z (default 0%Z (Course.credits course)) +:+ " credits)")
        (Plan.courses plan) in
  PyStr.join PyStr.newline
    [ EmptyString;
      "        You are an academic planning specialist at XJTLU Economics department.";
      EmptyString;
      "        STUDENT PROFILE:";
      "        - Major: " +:+ Ctx.get_major user_profile;
      "        - Academic year: " +:+ Ctx.get_academic_year user_profile;
      "        - Target program: "
        +:+ default "graduate studies" (Ctx.target_program user_profile);
      "        - Completed courses: "
        +:+ PyStr.join ", " (Ctx.get_completed_courses user_profile);
      EmptyString;
      "        PROPOSED SEMESTER PLAN:";
      "        Total credits: " +:+ PyStr.of_Z (Plan.total_credits plan);
      "        Workload level: " +:+ Plan.workload_level plan;
      "        Courses:";
      "        " +:+ PyStr.join PyStr.newline course_list;
      EmptyString;
      "        USER QUERY: " +:+ PyStr.dquote +:+ original_query +:+ PyStr.dquote;
      EmptyString;
      "        INSTRUCTIONS:";
      "        1. Provide strategic advice (100-120 words) on this semester plan's alignment with career goals";
      "        2. Highlight 1-2 key strengths and 1 potential concern (if any)";
      "        3. For HKU MFWM preparation, emphasize quantitative course sequences and practical applications";
      "        4. Suggest one concrete next step (e.g., " +:+ PyStr.dquote
        +:+ "Consider adding a project-based course" +:+ PyStr.dquote +:+ " or "
        +:+ PyStr.dquote +:+ "Connect with Career Hub for internship opportunities"
        +:+ PyStr.dquote +:+ ")";
      "        5. Maintain professional, encouraging tone";
      "        6. Do not use bullet points or markdown formatting";
      EmptyString;
      "        RESPONSE:";
      "        " ].

Definition _mock_planning_advice (plan : Plan.t) (user_profile : Ctx.t)
    (original_query : string) : string :=
  let target := default "graduate studies" (Ctx.target_program user_profile) in
  let total_credits := PyStr.of_Z (Plan.total_credits plan) in
  let course_count := PyStr.of_Z (Z.of_nat (length (Plan.courses plan))) in
  if PyStr.contains "HKU MFWM" target
  then
    "This semester plan provides strong preparation for HKU's Family Wealth Management program. "
    +:+ "The combination of quantitative courses (econometrics, mathematical finance) and applied finance modules "
    +:+ "builds the analytical foundation required for systematic wealth management. With "
    +:+ total_credits +:+ " credits across " +:+ course_count +:+ " courses, "
    +:+ "the workload is well-balanced for sustained academic performance. Consider connecting with XJTLU's Career Hub to explore "
    +:+ "summer internships at private banks or family offices to complement this academic preparation."
  else
    "This balanced semester plan effectively combines theoretical foundations with practical applications. "
    +:+ "The " +:+ total_credits +:+ " credit load across " +:+ course_count
    +:+ " courses provides comprehensive coverage while maintaining manageable workload. "
    +:+ "Focus on developing strong relationships with course instructors, as their mentorship and recommendation letters will be valuable for your future applications. "
    +:+ "Consider joining the XJTLU Economics Society to connect with peers sharing similar career aspirations.".

Definition generate_planning_advice (plan : Plan.t) (user_profile : Ctx.t)
    (original_query : string) : string :=
  if use_mock then _mock_planning_advice plan user_profile original_query
  else
    try_except
      (let prompt := _build_planning_prompt plan user_profile original_query in
       _call_deepseek_api prompt)
      (fun _ => _mock_planning_advice plan user_profile original_query).

End Service.

End AIService.

(** ** AcademicDispatcher *)

(** The values a response dictionary holds. *)
#[local] Set Warnings "-register-all".
Inductive value : Type :=
| VNone
| VBool (b : bool)
| VInt (z : Z)
| VFloat (f : float)
| VStr (s : string)
| VCourse (c : Course.t)
| VList (l : list value)
| VDict (d : list (string * value)).

(** A response: a dictionary, in the order its keys were written. *)
Definition response : Type := list (string * value).

Definition VStrs (l : list string) : value := VList (map VStr l).
Definition VCourses (l : list Course.t) : value := VList (map VCourse l).

Module AcademicDispatcher.

Definition INTENT_KEYWORDS : list (string * list string) :=
  [ ("course_explanation",
      ["explain"; "what is"; "about"; "describe"; "introduction"; "tell me"; "overview"]);
    ("semester_planning",
      ["plan"; "recommend"; "suggest"; "build"; "design"; "roadmap"; "schedule"; "timetable"]);
    ("career_alignment",
      ["career"; "job"; "future"; "hku"; "kcl"; "target"; "path"; "direction"]);
    ("prerequisite_check",
      ["prerequisite"; "before"; "need to take"; "require"; "must take"; "pre-req"]);
    ("workload_assessment",
      ["workload"; "difficult"; "hard"; "time"; "balance"; "manage"; "hours"; "effort"]) ].

Definition SUBJECT_KEYWORDS : list (string * list string) :=
  [ ("eco", ["eco"; "economics"; "micro"; "macro"; "economic"; "econ"]);
    ("stat", ["stat"; "econometrics"; "data"; "statistics"; "quantitative"; "regression"; "metrics"]);
    ("fin", ["fin"; "finance"; "monetary"; "financial"; "banking"; "investment"; "wealth"]);
    ("sustain", ["sustain"; "esg"; "climate"; "environmental"; "development"; "green"; "social"]);
    ("math", ["math"; "maths"; "calculus"; "mathematical"; "linear"; "algebra"; "probability"]) ].

(** [any(keyword in query for keyword in keywords)] *)
Definition triggered (keywords : list string) (query : string) : bool :=
  existsb (fun keyword => PyStr.contains keyword query) keywords.

(** The loop of [_detect_intent] over the items of a keyword table. *)
Fixpoint first_triggered (table : list (string * list string)) (query : string) : string :=
  match table with
  | [] => "general_query"
  | (intent, keywords) :: table' =>
      if triggered keywords query then intent else first_triggered table' query
  end.

Definition _detect_intent (query : string) : string :=
  first_triggered INTENT_KEYWORDS query.

Definition _extract_subject_keywords (query : string) : list string :=
  map fst (List.filter (fun entry => triggered (snd entry) query) SUBJECT_KEYWORDS).

Section Dispatcher.

Variable settings : Settings.t.
Variable post : string -> result string.
(** The catalog file, which every service loads when it is built. *)
Variable courses : list Course.t.
Variable academic_calendar : list (string * list (string * list (string * string))).

(** The two handlers that format prose ([round], string slices) or parse
    the generator's JSON.  No routing decision depends on what they
    compute, so the dispatcher is stated for any such handler. *)
Variable _handle_course_explanation : list string -> Ctx.t -> string -> result response.
Variable _handle_career_alignment : list string -> Ctx.t -> string -> result response.

Definition _handle_semester_planning (user_context : Ctx.t) (original_query : string)
    : response :=
  try_except
    (let plan :=
       PlanningService.generate_semester_plan courses academic_calendar user_context in
     let advice :=
       AIService.generate_planning_advice settings post plan user_context original_query in
     Ok [ ("type", VStr "semester_plan");
          ("recommended_courses", VCourses (Plan.courses plan));
          ("total_credits", VInt (Plan.total_credits plan));
          ("workload_assessment", VStr (Plan.workload_level plan));
          ("strategic_advice", VStr advice);
          ("gap_analysis", VStrs (Plan.gap_analysis plan));
          ("career_alignment", VFloat (Plan.career_alignment_score plan));
          ("academic_year", VStr (Ctx.get_academic_year user_context));
          ("semester", VStr (Ctx.get_current_semester user_context)) ])
    (fun _ =>
       [ ("type", VStr "error");
         ("message", VStr "Could not generate semester plan due to system constraints.");
         ("suggestion", VStr "Try asking about specific subject areas instead.") ]).

(** The [try] blocks of the next two handlers guard reads that cannot
    fail on a typed context, so only their bodies are kept. *)
Definition _handle_prerequisite_check (subjects : list string) (user_context : Ctx.t)
    : response :=
  let completed_courses := Ctx.get_completed_courses user_context in
  let relevant_courses :=
    concat (map (fun subject => take 2 (CourseService.search_by_keyword courses subject))
                subjects) in
  let missing_prerequisites :=
    omap (fun course =>
            let prereqs := default [] (Course.prerequisites course) in
            let missing :=
              List.filter (fun p => negb (PyStr.mem p completed_courses)) prereqs in
            match missing with
            | [] => None
            | _ => Some (VDict [ ("course", VStr (Course.code course));
                                 ("missing_prerequisites", VStrs missing) ])
            end)
         relevant_courses in
  let all_prereqs_satisfied :=
    match missing_prerequisites with [] => true | _ => false end in
  [ ("type", VStr "prerequisite_check");
    ("subjects", VStrs subjects);
    ("all_prereqs_satisfied", VBool all_prereqs_satisfied);
    ("missing_prerequisites", VList missing_prerequisites);
    ("completed_courses", VStrs completed_courses) ].

Definition _handle_workload_assessment (user_context : Ctx.t) : response :=
  let completed_courses := Ctx.get_completed_courses user_context in
  let total_credits := (5 * Z.of_nat (length completed_courses))%Z in
  let '(workload_level, assessment) :=
    if (total_credits <? 60)%Z
    then ("beginner",
          "You're building your foundation. Current workload is manageable for most students.")
    else if (total_credits <? 120)%Z
    then ("intermediate",
          "You have substantial coursework experience. Consider balancing technical and theoretical courses.")
    else ("advanced",
          "You have significant academic experience. Focus on specialization courses that align with career goals.") in
  [ ("type", VStr "workload_assessment");
    ("workload_level", VStr workload_level);
    ("assessment", VStr assessment);
    ("total_completed_credits", VInt total_credits);
    ("recommendation",
      VStr "For optimal learning, maintain 15-20 credits per semester with balanced difficulty levels.") ].

Definition _handle_general_query (query : string) (user_context : Ctx.t) : response :=
  [ ("type", VStr "general_response");
    ("message",
      VStr "I specialize in academic planning for XJTLU Economics students. Try asking about specific subject areas like:");
    ("suggestions",
      VStrs [ "Explain courses related to 'fin' for HKU MFWM preparation";
              "Plan my semester with 'eco' and 'stat' courses";
              "How do 'sustain' courses align with family wealth management careers?";
              "Check prerequisites for advanced econometrics courses";
              "Assess my current academic workload" ]);
    ("available_subjects", VStrs (map fst SUBJECT_KEYWORDS));
    ("academic_year", VStr (Ctx.get_academic_year user_context)) ].

Definition is_nil {A : Type} (l : list A) : bool :=
  match l with [] => true | _ => false end.

Definition dispatch (query : string) (user_context : Ctx.t) : response :=
  try_except
    (let normalized_query := PyStr.strip (PyStr.lower query) in
     let intent := _detect_intent normalized_query in
     let subject_keywords := _extract_subject_keywords normalized_query in
     if String.eqb intent "course_explanation" && negb (is_nil subject_keywords)
     then _handle_course_explanation subject_keywords user_context normalized_query
     else if String.eqb intent "semester_planning"
     then Ok (_handle_semester_planning user_context normalized_query)
     else if String.eqb intent "career_alignment"
     then _handle_career_alignment subject_keywords user_context normalized_query
     else if String.eqb intent "prerequisite_check" && negb (is_nil subject_keywords)
     then Ok (_handle_prerequisite_check subject_keywords user_context)
     else if String.eqb intent "workload_assessment"
     then Ok (_handle_workload_assessment user_context)
     else Ok (_handle_general_query normalized_query user_context))
    (fun e =>
       [ ("type", VStr "error");
         ("message",
           VStr "I encountered an error processing your request. Please try rephrasing your question.");
         ("original_query", VStr query);
         ("error_details",
           if String.eqb (Settings.APP_ENV settings) "development"
           then VStr (exn_str e) else VNone) ]).

End Dispatcher.

End AcademicDispatcher.

(* ===================================================================== *)
(** * The remaining handlers and the request endpoint *)
(* ===================================================================== *)

(** ** Slices and rounding *)

Module Py.

(** [s[:n]] *)
Fixpoint slice_to (n : nat) (s : string) : string :=
  match n, s with
  | S n', String c s' => String c (slice_to n' s')
  | _, _ => EmptyString
  end.

#[local] Open Scope Z_scope.

(** The integer nearest to [a / b], the even one on a tie ([0 <= a], [0 < b]). *)
Definition div_half_even (a b : Z) : Z :=
  let q := a / b in
  let r := a mod b in
  if 2 * r <? b then q
  else if b <? 2 * r then q + 1
  else if Z.even q then q else q + 1.

(** [a / (b * 2^sh)] as a fraction of integers. *)
Definition scaled (a b sh : Z) : Z * Z :=
  if 0 <=? sh then (a, b * 2 ^ sh) else (a * 2 ^ (- sh), b).

(** The binary64 number nearest to [a / b], the one with an even mantissa on
    a tie, for [0 <= a], [0 < b] and a quotient that is zero or in the normal
    range: the quotient is scaled to a 53-bit integer mantissa, which is
    rounded. *)
Definition nearest_float (a b : Z) : float :=
  if a =? 0 then 0%float
  else
    let d := Z.log2 a - Z.log2 b in
    let '(n, m) := scaled a b d in
    let sh := if m <=? n then d - 52 else d - 53 in
    let '(n, m) := scaled a b sh in
    Z.ldexp (PrimFloat.of_uint63 (Uint63.of_Z (div_half_even n m))) sh.

(** [round(x, 2)] on a float: the decimal with two places nearest to the
    exact value of [x] (the even one on a tie), converted back to the
    nearest float.  Zeros, infinities and NaN round to themselves, and so
    does a float with no fractional bits. *)
Definition round2 (x : float) : float :=
  match Prim2SF x with
  | S754_finite s m e =>
      if 0 <=? e then x
      else
        let r := nearest_float (div_half_even (Zpos m * 100) (2 ^ (- e))) 100 in
        if s then (- r)%float else r
  | _ => x
  end.

End Py.

(** ** AIService: course explanations and career analysis *)

Module AIAnalysis.

(** [f(x) for x in l], where [f] can raise. *)
Fixpoint mapM {A B : Type} (f : A -> result B) (l : list A) : result (list B) :=
  match l with
  | [] => Ok []
  | x :: l' =>
      let* y := f x in
      let* ys := mapM f l' in
      Ok (y :: ys)
  end.

(** One entry of [course_summaries]; [course['credits']] raises when the
    course has no such key. *)
Definition course_summary (course : Course.t) : result string :=
  match Course.credits course with
  | None => Raise (mkExn KeyError "'credits'")
  | Some credits =>
      Ok ("- " +:+ Course.code course +:+ ": " +:+ Course.name course +:+ " ("
          +:+ PyStr.of_Z credits +:+ " credits)" +:+ PyStr.newline
          +:+ "  Focus: "
          +:+ Py.slice_to 100 (default "Comprehensive academic course"
                                       (Course.description course))
          +:+ "..." +:+ PyStr.newline
          +:+ "  Career paths: "
          +:+ PyStr.join ", " (default ["Academic Development"] (Course.career_paths course)))
  end.

Definition _build_course_prompt (subjects : list string) (courses : list Course.t)
    (user_profile : Ctx.t) (original_query : string) : result string :=
  let* course_summaries := mapM course_summary courses in
  Ok (PyStr.join PyStr.newline
    [ EmptyString;
      "        You are an expert academic advisor at Xi'an Jiaotong-Liverpool University (XJTLU) ";
      "        specializing in the Economics programme. You help students understand course content ";
      "        and make informed academic decisions.";
      EmptyString;
      "        STUDENT PROFILE:";
      "        - Major: " +:+ Ctx.get_major user_profile;
      "        - Current year: " +:+ Ctx.get_academic_year user_profile;
      "        - Career goal: "
        +:+ default "graduate studies" (Ctx.target_program user_profile);
      "        - Completed courses: "
        +:+ PyStr.join ", " (default ["Introductory courses"]
                                     (Ctx.completed_courses user_profile));
      EmptyString;
      "        USER QUERY: " +:+ PyStr.dquote +:+ original_query +:+ PyStr.dquote;
      EmptyString;
      "        RELEVANT COURSES (based on subject keywords: "
        +:+ PyStr.join ", " subjects +:+ "):";
      "        " +:+ PyStr.join PyStr.newline course_summaries;
      EmptyString;
      "        INSTRUCTIONS:";
      "        1. Provide a professional, concise explanation (120-150 words) of how these courses relate to the student's career goals";
      "        2. Focus on practical skills and career relevance rather than theoretical details";
      "        3. If the career goal is HKU MFWM (Master of Family Wealth Management), emphasize quantitative skills, risk management, and portfolio optimization";
      "        4. Maintain an encouraging but realistic tone";
      "        5. Do not mention specific instructors or unpublished curriculum changes";
      "        6. Format the response in clear, readable paragraphs without markdown";
      EmptyString;
      "        RESPONSE:";
      "        " ]).

Definition _build_career_prompt (subjects : list string)
    (career_goal academic_background original_query : string) : string :=
  PyStr.join PyStr.newline
    [ EmptyString;
      "        You are a career development specialist at XJTLU with expertise in economics and finance pathways.";
      EmptyString;
      "        REQUEST ANALYSIS:";
      "        Subject areas: " +:+ PyStr.join ", " subjects;
      "        Career goal: " +:+ career_goal;
      "        Academic background: " +:+ academic_background;
      "        User query: " +:+ PyStr.dquote +:+ original_query +:+ PyStr.dquote;
      EmptyString;
      "        INSTRUCTIONS:";
      "        1. Analyze how courses in these subject areas prepare students for the specified career goal";
      "        2. Identify 1-2 competency gaps that need addressing";
      "        3. Recommend a specific academic pathway (course sequence) for optimal preparation";
      "        4. Provide industry outlook for this career path (1-2 sentences)";
      "        5. If career goal is HKU MFWM, emphasize family office dynamics, intergenerational wealth transfer, and behavioral finance aspects";
      "        6. Respond in JSON format with these exact keys:";
      "           {";
      "             " +:+ PyStr.dquote +:+ "gap" +:+ PyStr.dquote +:+ ": " +:+ PyStr.dquote
        +:+ "Brief description of competency gaps" +:+ PyStr.dquote +:+ ",";
      "             " +:+ PyStr.dquote +:+ "pathway" +:+ PyStr.dquote +:+ ": " +:+ PyStr.dquote
        +:+ "Recommended course sequence" +:+ PyStr.dquote +:+ ",";
      "             " +:+ PyStr.dquote +:+ "alignment_score" +:+ PyStr.dquote +:+ ": 0.85,";
      "             " +:+ PyStr.dquote +:+ "key_modules" +:+ PyStr.dquote +:+ ": ["
        +:+ PyStr.dquote +:+ "List" +:+ PyStr.dquote +:+ ", "
        +:+ PyStr.dquote +:+ "of" +:+ PyStr.dquote +:+ ", "
        +:+ PyStr.dquote +:+ "essential" +:+ PyStr.dquote +:+ ", "
        +:+ PyStr.dquote +:+ "courses" +:+ PyStr.dquote +:+ "],";
      "             " +:+ PyStr.dquote +:+ "industry_outlook" +:+ PyStr.dquote +:+ ": "
        +:+ PyStr.dquote +:+ "Current industry trends and outlook" +:+ PyStr.dquote;
      "           }";
      "        7. Keep values concise and actionable";
      EmptyString;
      "        RESPONSE (JSON only):";
      "        " ].

(** The paragraph [_mock_course_explanation] writes for one subject. *)
Definition subject_explanation (target subject : string) : string :=
  if String.eqb subject "fin" && PyStr.contains "HKU MFWM" target
  then
    "Finance courses in XJTLU's Economics programme provide rigorous training in quantitative asset management and risk modeling. "
    +:+ "For HKU MFWM preparation, these courses build essential competencies in financial engineering, portfolio optimization, and behavioral finance principles. "
    +:+ "The curriculum emphasizes both theoretical foundations and practical implementation through case studies of Asian wealth management practices."
  else if String.eqb subject "stat" && PyStr.contains "HKU MFWM" target
  then
    "The econometrics sequence (ECO205 → ECO214 → ECO302) develops your ability to analyze financial data and validate investment models. "
    +:+ "For family wealth management careers, these statistical skills are critical for evidence-based decision making and risk assessment. "
    +:+ "XJTLU's approach integrates Python programming throughout, ensuring you can implement quantitative strategies in professional environments."
  else if String.eqb subject "sustain" && PyStr.contains "HKU MFWM" target
  then
    "Sustainability courses (ECO307, ECO311) address the growing importance of ESG factors in wealth preservation and legacy planning. "
    +:+ "HKU MFWM graduates increasingly work with clients who prioritize impact alongside returns. These courses provide frameworks for integrating environmental, social, and governance considerations into portfolio construction."
  else
    "Courses in " +:+ subject
    +:+ " provide valuable analytical training that develops critical thinking and quantitative reasoning skills essential for economics graduates.".

(** One entry of [course_references]. *)
Definition course_reference (course : Course.t) : string :=
  let relevance :=
    if existsb (fun tag => PyStr.mem tag ["fin"; "stat"]) (Course.get_tags course)
    then "directly relevant" else "supportive" in
  Course.name course +:+ " (" +:+ Course.code course +:+ ") is " +:+ relevance
  +:+ " for your goals".

Definition _mock_course_explanation (subjects : list string) (courses : list Course.t)
    (user_profile : Ctx.t) (original_query : string) : string :=
  let target := default "graduate studies" (Ctx.target_program user_profile) in
  let subject_explanations := map (subject_explanation target) subjects in
  let course_references := map course_reference (take 3 courses) in
  let course_sentence :=
    match course_references with
    | [] => "These subject areas align with XJTLU's Economics curriculum design."
    | _ => PyStr.join ". " course_references +:+ "."
    end in
  PyStr.join " " subject_explanations +:+ " " +:+ course_sentence.

Definition _mock_career_alignment (subjects : list string)
    (career_goal academic_background original_query : string) : value :=
  if PyStr.contains "HKU MFWM" career_goal
  then
    VDict
      [ ("gap", VStr "Practical experience in client relationship management and intergenerational wealth transfer case studies");
        ("pathway", VStr "ECO205 → ECO214 → ECO302 (Econometrics sequence) + FIN301 + ECO305 + ECO311");
        ("alignment_score", VFloat 0.88);
        ("key_modules", VStrs ["ECO302"; "FIN301"; "ECO305"; "ECO311"]);
        ("industry_outlook", VStr "Family wealth management in Asia is experiencing rapid growth with increasing demand for professionals who combine quantitative rigor with interpersonal skills. HKU MFWM graduates are highly sought after by private banks and multi-family offices across the Greater Bay Area.") ]
  else
    VDict
      [ ("gap", VStr "Specialized technical skills in data analysis or policy evaluation depending on career direction");
        ("pathway", VStr "Core Economics sequence + Statistics concentration + relevant electives");
        ("alignment_score", VFloat 0.75);
        ("key_modules", VStrs ["ECO213"; "ECO216"; "ECO205"; "ECO214"]);
        ("industry_outlook", VStr "Economics graduates have diverse career pathways in analysis, policy, and finance roles. Developing complementary quantitative skills significantly enhances employability across all sectors.") ].

Section Service.

Variable settings : Settings.t.
Variable post : string -> result string.

(** [json.loads]: the parsed value, or [None] when the text does not
    parse.  The parser is a library of its own; the service only
    distinguishes a parsed value from a failure. *)
Variable loads : string -> option value.

Definition generate_course_explanation (subjects : list string) (courses : list Course.t)
    (user_profile : Ctx.t) (original_query : string) : string :=
  if AIService.use_mock settings
  then _mock_course_explanation subjects courses user_profile original_query
  else
    try_except
      (let* prompt := _build_course_prompt subjects courses user_profile original_query in
       AIService._call_deepseek_api settings post prompt)
      (fun _ => _mock_course_explanation subjects courses user_profile original_query).

Definition analyze_career_alignment (subjects : list string)
    (career_goal academic_background original_query : string) : value :=
  if AIService.use_mock settings
  then _mock_career_alignment subjects career_goal academic_background original_query
  else
    try_except
      (let prompt :=
         _build_career_prompt subjects career_goal academic_background original_query in
       let* response := AIService._call_deepseek_api settings post prompt in
       match loads response with
       | Some analysis => Ok analysis
       | None =>
           Ok (_mock_career_alignment subjects career_goal academic_background
                 original_query)
       end)
      (fun _ =>
         _mock_career_alignment subjects career_goal academic_background original_query).

End Service.

End AIAnalysis.

(** ** AcademicDispatcher: course explanations, career analysis, and the
    dispatcher with every handler in place *)

Module Handlers.

Definition SUBJECT_EXPLANATIONS : list (string * string) :=
  [ ("fin",
      "Finance-focused courses in XJTLU's Economics programme provide rigorous training in quantitative asset "
      +:+ "management, risk modeling, and monetary policy analysis. These courses build essential competencies in "
      +:+ "financial engineering and portfolio optimization directly applicable to systematic wealth management strategies.");
    ("stat",
      "The econometrics sequence (ECO205 → ECO214 → ECO302) provides progressive mastery of statistical methods "
      +:+ "for economic analysis. These courses develop your ability to validate financial models using real market "
      +:+ "data — a critical skill for evidence-based decision making in quantitative finance roles.");
    ("eco",
      "Core economics courses establish fundamental principles of resource allocation, market dynamics, and "
      +:+ "policy evaluation. This theoretical foundation is essential for advanced specialization in finance or "
      +:+ "policy analysis, providing the analytical framework required for strategic decision-making.");
    ("sustain",
      "Sustainability courses integrate environmental, social, and governance (ESG) factors into economic analysis. "
      +:+ "These courses prepare students for the rapidly growing sustainable finance sector, where traditional financial "
      +:+ "acumen is combined with impact assessment capabilities.") ].

(** The loop that keeps the first course of each code; [seen_codes] is the
    set of codes met so far. *)
Fixpoint unique_courses (seen_codes : gset string) (relevant_courses : list Course.t)
    : list Course.t :=
  match relevant_courses with
  | [] => []
  | course :: rest =>
      if bool_decide (Course.code course ∈ seen_codes)
      then unique_courses seen_codes rest
      else course :: unique_courses ({[Course.code course]} ∪ seen_codes) rest
  end.

(** One entry of [matched_courses]; [course["credits"]] raises when the
    course has no such key. *)
Definition matched_course (course : Course.t) : result value :=
  match Course.credits course with
  | None => Raise (mkExn KeyError "'credits'")
  | Some credits =>
      Ok (VDict
            [ ("code", VStr (Course.code course));
              ("name", VStr (Course.name course));
              ("credits", VInt credits);
              ("description",
                VStr (Py.slice_to 100 (Course.get_description course) +:+ "..."));
              ("semester",
                match Course.semester course with
                | Some semester => VInt semester
                | None => VStr "N/A"
                end);
              ("prerequisites", VStrs (default [] (Course.prerequisites course)));
              ("career_paths", VStrs (default [] (Course.career_paths course))) ])
  end.

(** [analysis[key]]: [None] stands for the exception of the subscript, a
    [KeyError] on a dictionary without the key and a [TypeError] on a value
    that is no dictionary.  The handler treats both alike. *)
Definition getitem (analysis : value) (key : string) : option value :=
  match analysis with
  | VDict d => assoc key d
  | _ => None
  end.

Section Dispatcher.

Variable settings : Settings.t.
Variable post : string -> result string.
Variable loads : string -> option value.
Variable courses : list Course.t.
Variable academic_calendar : list (string * list (string * list (string * string))).

(** The courses the explanation is about: the first three hits of each
    subject, one course per code, five at most. *)
Definition relevant_courses (subjects : list string) : list Course.t :=
  let relevant_courses :=
    concat (map (fun subject => take 3 (CourseService.search_by_keyword courses subject))
                subjects) in
  take 5 (unique_courses ∅ relevant_courses).

Definition _handle_course_explanation (subjects : list string) (user_context : Ctx.t)
    (original_query : string) : response :=
  try_except
    (let relevant_courses := relevant_courses subjects in
     let explanation :=
       AIAnalysis.generate_course_explanation settings post subjects relevant_courses
         user_context original_query in
     let* matched_courses := AIAnalysis.mapM matched_course relevant_courses in
     Ok [ ("type", VStr "course_explanation");
          ("subjects", VStrs subjects);
          ("matched_courses", VList matched_courses);
          ("explanation", VStr explanation);
          ("relevance_score",
            VFloat (Py.round2 (0.85 + 0.05 * float_of_Z (Z.of_nat (length subjects)))%float));
          ("academic_year", VStr (Ctx.get_academic_year user_context));
          ("target_program",
            VStr (default "graduate studies" (Ctx.target_program user_context))) ])
    (fun _ =>
       let default_explanation :=
         PyStr.join " "
           (map (fun subject =>
                   default ("Courses in " +:+ subject
                            +:+ " provide valuable analytical training for economics students.")
                           (assoc subject SUBJECT_EXPLANATIONS))
                subjects) in
       [ ("type", VStr "course_explanation");
         ("subjects", VStrs subjects);
         ("explanation", VStr default_explanation);
         ("note",
           VStr "This is a simplified explanation due to system limitations. Full AI analysis would provide more personalized insights.");
         ("fallback_mode", VBool true) ]).

Definition _handle_career_alignment (subjects : list string) (user_context : Ctx.t)
    (original_query : string) : response :=
  let career_goal := default "graduate studies" (Ctx.target_program user_context) in
  let background := Ctx.get_major user_context in
  let analysis :=
    AIAnalysis.analyze_career_alignment settings post loads subjects career_goal background
      original_query in
  let body : option response :=
    gap ← getitem analysis "gap";
    pathway ← getitem analysis "pathway";
    alignment_score ← getitem analysis "alignment_score";
    key_modules ← getitem analysis "key_modules";
    industry_outlook ← getitem analysis "industry_outlook";
    Some [ ("type", VStr "career_alignment");
           ("career_goal", VStr career_goal);
           ("relevant_subjects", VStrs subjects);
           ("competency_gap", gap);
           ("recommended_pathway", pathway);
           ("hku_alignment_score", alignment_score);
           ("key_modules", key_modules);
           ("industry_outlook", industry_outlook) ] in
  match body with
  | Some response => response
  | None =>
      [ ("type", VStr "career_alignment");
        ("career_goal", VStr career_goal);
        ("message",
          VStr ("Based on XJTLU Economics curriculum, courses in "
                +:+ PyStr.join ", " subjects +:+ " provide strong foundation for "
                +:+ career_goal +:+ "."));
        ("note",
          VStr "For personalized career advice, consider booking an appointment with XJTLU Career Hub.");
        ("fallback_mode", VBool true) ]
  end.

(** [AcademicDispatcher.dispatch] with its own two handlers. *)
Definition dispatch (query : string) (user_context : Ctx.t) : response :=
  AcademicDispatcher.dispatch settings post courses academic_calendar
    (fun subjects user_context original_query =>
       Ok (_handle_course_explanation subjects user_context original_query))
    (fun subjects user_context original_query =>
       Ok (_handle_career_alignment subjects user_context original_query))
    query user_context.

End Dispatcher.

End Handlers.

(** ** The request endpoint *)

Module Endpoints.

(** [schemas.UserProfile] after validation: every field is present. *)
Record UserProfile : Type := mkProfile {
  user_id : string;
  major : string;
  academic_year : string;
  current_semester : string;
  target_program : string;
  completed_courses : list string;
  available_credits : Z
}.

Record QueryRequest : Type := mkRequest {
  query : string;
  user_profile : UserProfile
}.

(** What the endpoint hands back: the response dictionary, or the
    [HTTPException] it raises. *)
Inductive reply : Type :=
| Return (response : response)
| HTTPException (status_code : Z) (detail : string).

(** The [user_context] dictionary the endpoint builds; the dispatcher never
    reads [user_id]. *)
Definition user_context (profile : UserProfile) : Ctx.t :=
  Ctx.mk (Some (academic_year profile)) (Some (current_semester profile))
         (Some (major profile)) (Some (target_program profile))
         (Some (completed_courses profile)) (Some (available_credits profile)).

Section Endpoint.

Variable settings : Settings.t.
Variable post : string -> result string.
Variable loads : string -> option value.
Variable courses : list Course.t.
Variable academic_calendar : list (string * list (string * list (string * string))).

Definition ask_academic_question (request : QueryRequest) : reply :=
  let body : result response :=
    let response :=
      Handlers.dispatch settings post loads courses academic_calendar
        (query request) (user_context (user_profile request)) in
    if negb (PyStr.mem "type" (map fst response))
    then Raise (mkExn ValueError "Invalid response format from dispatcher")
    else Ok response in
  match body with
  | Ok response => Return response
  | Raise e =>
      match exn_class_of e with
      | ValueError => HTTPException 400 (exn_str e)
      | _ => HTTPException 500 "Internal server error processing your request"
      end
  end.

End Endpoint.

End Endpoints.

(** ** PlanningAgent *)

Module PlanningAgent.

#[local] Open Scope Z_scope.

(** The inner loop of [_check_eligibility]: [ok] starts as [True] and is
    cleared by every prerequisite whose grade, 0 when there is none, is
    below the minimum. *)
Definition requirements_ok (grades : list (string * Z)) (reqs : list (string * Z)) : bool :=
  fold_left
    (fun ok '(prereq, min_grade) =>
       if default 0 (assoc prereq grades) <? min_grade then false else ok)
    reqs true.

Definition _check_eligibility (grades : list (string * Z))
    (rules : list (string * list (string * Z))) : list string :=
  map fst (List.filter (fun '(course, reqs) => requirements_ok grades reqs) rules).

Definition weights : list (string * Z) := [ ("ECO401", 4); ("FIN308", 5) ].

Definition _estimate_workload (courses : list string) : Z :=
  sum_Z (map (fun c => default 3 (assoc c weights)) courses).

(** What the agent reads of an entry of the academic state: its grades and
    its enrollment rules, each of which may be absent. *)
Record entry : Type := mkEntry {
  grades : option (list (string * Z));
  enrollment_rules : option (list (string * list (string * Z)))
}.

(** The dictionary [handle] returns. *)
Record advice : Type := mkAdvice {
  recommended_courses : list string;
  workload_score : Z;
  risk_level : string
}.

(** [task] is the value of the task's "academic_state" key, when it has one. *)
Definition handle (task : option (list (string * entry))) : advice :=
  let academic_state := default [] task in
  let ebridge := default (mkEntry None None) (assoc "EBridgeAgent" academic_state) in
  let grades := default [] (grades ebridge) in
  let rules := default [] (enrollment_rules ebridge) in
  let eligible := _check_eligibility grades rules in
  let workload := _estimate_workload eligible in
  {| recommended_courses := eligible;
     workload_score := workload;
     risk_level := if workload >? 8 then "High" else "Moderate" |}.

End PlanningAgent.

(** ** EBridgeAgent *)

Module EBridgeAgent.

#[local] Open Scope Z_scope.

Definition _load_grades : list (string * Z) :=
  [ ("ECO201", 72); ("ECO309", 68); ("STA200", 81) ].

Definition _load_rules : list (string * list (string * Z)) :=
  [ ("ECO401", [("ECO309", 65)]); ("FIN308", [("ECO201", 70)]) ].

Definition handle : PlanningAgent.entry :=
  PlanningAgent.mkEntry (Some _load_grades) (Some _load_rules).

End EBridgeAgent.

(* ===================================================================== *)
(** * Notions the properties are stated with *)
(* ===================================================================== *)

Module Spec.

Import PlanningService.

#[local] Open Scope Z_scope.

(** [needle] occurs in [hay]: the meaning of Python's [needle in hay]. *)
Definition occurs (needle hay : string) : Prop :=
  exists a b : string, hay = a +:+ needle +:+ b.

(** The characters of a string. *)
Fixpoint chars (s : string) : list ascii :=
  match s with
  | EmptyString => []
  | String c s' => c :: chars s'
  end.

Definition quantitative_markers : list string := ["ECO205"; "ECO214"; "ECO302"; "MTH212"].

Definition policy_markers : list string := ["ECO213"; "ECO216"; "ECO225"; "POL201"].

(** How many completed courses appear in a marker list. *)
Definition marker_count (markers completed_courses : list string) : Z :=
  count_if (fun c => PyStr.mem c markers) completed_courses.

(** The cascade in the words of the specification: the wealth-management
    goal (by name or by its programme alias) first, then policy, then
    sustainability, then the larger marker count, with quantitative finance
    on a tie. *)
Definition specified_specialization (target_program : string)
    (completed_courses : list string) : string :=
  let t := PyStr.lower target_program in
  if PyStr.contains "family wealth" t || PyStr.contains "hku mfwm" t
  then "quantitative_finance"
  else if PyStr.contains "policy" t || PyStr.contains "central bank" t
  then "policy_analysis"
  else if PyStr.contains "sustain" t || PyStr.contains "esg" t
  then "sustainable_finance"
  else
    let q := marker_count quantitative_markers completed_courses in
    let p := marker_count policy_markers completed_courses in
    if q >? p then "quantitative_finance"
    else if p >? q then "policy_analysis"
    else "quantitative_finance".

(** The credits of a selection, each course counted with
    [course.get("credits", 5)]. *)
Definition selected_credits (l : list Course.t) : Z :=
  sum_Z (map Course.get_credits l).

(** What both loops of [_filter_courses] preserve: the credits selected so
    far and the credits that remain add up to the budget, and the remainder
    is not negative. *)
Definition budget_inv (available_credits : Z) (st : list Course.t * Z) : Prop :=
  selected_credits (fst st) + snd st = available_credits /\ 0 <= snd st.

(** The credit limit of a year digit, as the specification tabulates it. *)
Definition specified_credit_limit (digit : ascii) : Z :=
  if Ascii.eqb digit "1" then 15
  else if Ascii.eqb digit "2" then 20
  else if Ascii.eqb digit "3" then 20
  else if Ascii.eqb digit "4" then 15
  else 20.

(** The mean difficulty of the selected courses, a course without a
    difficulty level counting as 3.  The mean of no course at all is
    [empty_mean]. *)
Definition mean_difficulty (empty_mean : float) (courses : list Course.t) : result float :=
  match courses with
  | [] => Ok empty_mean
  | _ => truediv (sum_Z (map Course.get_difficulty_level courses))
                 (Z.of_nat (length courses))
  end.

(** [0.6 * creditRatio + 0.4 * (avgDifficulty / 5)], where the two quotients
    are divisions of integers, which fail when the quotient is too large for
    a float. *)
Definition specified_workload_score (empty_mean : float) (courses : list Course.t)
    (credit_limit : Z) : result float :=
  let* credit_ratio := truediv (sum_Z (map Course.get_credits courses)) credit_limit in
  let* avg_difficulty := mean_difficulty empty_mean courses in
  Ok (0.6 * credit_ratio + 0.4 * (avg_difficulty / 5))%float.

Definition specified_workload_level (score : float) : string :=
  if (score <? 0.6)%float then "light"
  else if (score <? 0.8)%float then "moderate"
  else "heavy".

(** The level of the specified score, when there is a score. *)
Definition specified_workload (empty_mean : float) (courses : list Course.t)
    (credit_limit : Z) : result string :=
  let* score := specified_workload_score empty_mean courses credit_limit in
  Ok (specified_workload_level score).

(** The bound below which a total divided by a positive integer is never
    too large for a float. *)
Definition safe_total (z : Z) : Prop := Z.abs z < 2 ^ 1023.

(** [0 <= x <= 1] on floats. *)
Definition in_unit_interval (x : float) : bool :=
  (0 <=? x)%float && (x <=? 1)%float.

(** A computation that returns a float of the unit interval. *)
Definition returns_in_unit (r : result float) : bool :=
  match r with
  | Ok x => in_unit_interval x
  | Raise _ => false
  end.

(** The score of [_calculate_career_alignment] as a function of what it
    counts: [k] selected courses of the core sequence, [q] selected courses
    with a quantitative tag, [n] selected courses, a core sequence of
    [ncore] codes, and whether the goal names HKU MFWM. *)
Definition alignment_value (hku : bool) (k q n ncore : Z) : result float :=
  let* core_coverage := truediv k (Z.max ncore 1) in
  let* alignment :=
    if hku
    then
      let* quant_share := truediv q (Z.max n 1) in
      Ok (0.6 * core_coverage + 0.4 * quant_share)%float
    else Ok core_coverage in
  Ok (py_min (py_max alignment 0%float) 1%float).

Definition core_count (courses : list Course.t) (specialization : string) : Z :=
  count_if (fun c => PyStr.mem (Course.code c) (core_sequence_of specialization)) courses.

Definition quant_count (courses : list Course.t) : Z :=
  count_if (fun c => existsb (fun tag => PyStr.mem tag ["fin"; "stat"; "math"])
                             (Course.get_tags c)) courses.

Definition small_counts : list Z := [0; 1; 2; 3; 4; 5; 6; 7; 8].

(** Every score a selection of at most 8 courses can get against a core
    sequence of 5, computed. *)
Definition alignment_table_in_unit : bool :=
  forallb (fun hku =>
    forallb (fun k =>
      forallb (fun q =>
        forallb (fun n => returns_in_unit (alignment_value hku k q n 5))
                (tl small_counts))
              small_counts)
            small_counts)
          [true; false].

End Spec.

(** ** Concrete catalogs, profiles and collaborators *)

Module Samples.

#[local] Open Scope Z_scope.

(** A catalog with a chain of prerequisites. *)
Definition course (code name : string) (credits : Z) (tags prerequisites : list string)
    : Course.t :=
  Course.mk code name (Some credits) (Some tags) (Some prerequisites) None None None None.

Definition chain_catalog : list Course.t :=
  [ course "ECO205" "Statistics" 5 ["stat"] [];
    course "ECO214" "Econometrics I" 5 ["stat"] ["ECO205"];
    course "ECO302" "Econometrics II" 5 ["stat"] ["ECO214"] ].

(** A catalog with courses of the quantitative path, each with its semester
    and difficulty level. *)
Definition offering (code name : string) (credits semester difficulty : Z)
    (tags prerequisites : list string) : Course.t :=
  Course.mk code name (Some credits) (Some tags) (Some prerequisites) None
            (Some semester) (Some difficulty) None.

Definition sample_catalog : list Course.t :=
  [ offering "ECO205" "Statistics for Economics" 5 1 3 ["stat"] [];
    offering "ECO214" "Econometrics I" 5 2 4 ["stat"] ["ECO205"];
    offering "FIN301" "Business Finance" 5 1 3 ["fin"] [];
    offering "ECO305" "Monetary Economics" 5 0 4 ["fin"; "eco"] [];
    offering "MTH212" "Mathematics for Economics" 5 0 4 ["math"] [];
    offering "ECO213" "Macroeconomics I" 5 1 2 ["eco"] [] ].

Definition sample_profile : Ctx.t :=
  Ctx.mk (Some "2025-2026") (Some "Fall") (Some "Economics") (Some "HKU MFWM")
         (Some []) (Some 15).

Definition no_credit_profile : Ctx.t :=
  Ctx.mk (Some "2025-2026") (Some "Fall") (Some "Economics") (Some "HKU MFWM")
         (Some []) (Some 0).

(** A profile whose academic year has an empty first segment. *)
Definition unparseable_year_profile : Ctx.t :=
  Ctx.mk (Some EmptyString) (Some "Fall") (Some "Economics") (Some "HKU MFWM")
         (Some []) (Some 0).

Definition sample_plan : Plan.t :=
  Eval vm_compute in PlanningService.generate_semester_plan sample_catalog [] sample_profile.

(** A profile with a negative credit budget. *)
Definition overdrawn_profile : Ctx.t :=
  Ctx.mk (Some "2025-2026") (Some "Fall") (Some "Economics") (Some "HKU MFWM")
         (Some []) (Some (-5)).

(** Four demanding courses: 20 credits, with a mean difficulty of 3.75. *)
Definition heavy_selection : list Course.t :=
  [ offering "ECO214" "Econometrics I" 5 2 4 ["stat"] ["ECO205"];
    offering "FIN301" "Business Finance" 5 1 3 ["fin"] [];
    offering "ECO305" "Monetary Economics" 5 0 4 ["fin"; "eco"] [];
    offering "MTH212" "Mathematics for Economics" 5 0 4 ["math"] [] ].

(** What is planned for it: nothing, at 0 credits. *)
Definition overdrawn_plan : Plan.t :=
  Eval vm_compute in PlanningService.generate_semester_plan sample_catalog [] overdrawn_profile.

(** A course with more credits than a float can hold a twentieth of, and a
    profile with the budget for it. *)
Definition oversized_course : Course.t :=
  offering "ECO205" "Statistics for Economics" (10 ^ 310) 1 3 ["stat"] [].

Definition unlimited_profile : Ctx.t :=
  Ctx.mk (Some "2025-2026") (Some "Fall") (Some "Economics") (Some "HKU MFWM")
         (Some []) (Some (10 ^ 310)).

(** A catalog of [n] economics courses, with the codes ECO1 ... ECOn. *)
Definition eco_catalog (n : nat) : list Course.t :=
  map (fun i => Course.mk ("ECO" +:+ PyStr.of_Z (Z.of_nat i)) "Topics in Economics"
                          (Some 5%Z) (Some ["eco"]) None None None None None)
      (seq 1 n).

(** A live configuration whose text generator times out, and a stand-in for
    the two handlers the dispatcher is parameterised by. *)
Definition live_settings : Settings.t := Settings.mk "production" false "sk-live".

Definition timing_out (prompt : string) : result string :=
  Raise (mkExn Timeout "Read timed out. (read timeout=30)").

Definition no_handler (subjects : list string) (user_context : Ctx.t) (query : string)
    : result response :=
  Raise (mkExn KeyError "credits").

End Samples.

(** ** Notions for the further properties *)

Module Terms.

Import PlanningService.

#[local] Open Scope Z_scope.

(** The sort key of the fuzzy tier of [search_by_keyword]: whether the name
    and whether the description of a course contain the keyword. *)
Definition relevance_key (keyword : string) (c : Course.t) : bool * bool :=
  (PyStr.contains keyword (PyStr.lower (Course.name c)),
   PyStr.contains keyword (PyStr.lower (Course.get_description c))).

Definition has_relevance_key (keyword : string) (key : bool * bool) (c : Course.t) : bool :=
  bool_decide (relevance_key keyword c = key).

(** A course is settled in a state [(selected, remaining)] of
    [_filter_courses] when the loops cannot select it any more: it is
    completed, its code is selected, or it costs more than remains. *)
Definition settled (completed_courses : list string) (st : list Course.t * Z)
    (c : Course.t) : bool :=
  PyStr.mem (Course.code c) completed_courses
  || PyStr.mem (Course.code c) (map Course.code (fst st))
  || (snd st <? Course.get_credits c).

(** The core codes of a path that are neither completed nor selected, and
    the two skill tests of [_identify_gaps]. *)
Definition missing_cores (selected_courses : list Course.t) (specialization : string)
    (completed_courses : list string) : list string :=
  List.filter (fun c => negb (PyStr.mem c completed_courses)
                        && negb (PyStr.mem c (map Course.code selected_courses)))
              (core_sequence_of specialization).

Definition has_quantitative (selected_courses : list Course.t) : bool :=
  existsb (fun c => existsb (fun tag => PyStr.mem tag ["stat"; "math"]) (Course.get_tags c))
          selected_courses.

Definition has_finance (selected_courses : list Course.t) : bool :=
  existsb (fun c => PyStr.mem "fin" (Course.get_tags c)) selected_courses.

(** The type of response each intent is routed to; an explanation or a
    prerequisite check needs a subject. *)
Definition response_type (intent : string) (subjects : list string) : string :=
  if String.eqb intent "course_explanation"
  then (match subjects with [] => "general_response" | _ => "course_explanation" end)
  else if String.eqb intent "semester_planning" then "semester_plan"
  else if String.eqb intent "career_alignment" then "career_alignment"
  else if String.eqb intent "prerequisite_check"
  then (match subjects with [] => "general_response" | _ => "prerequisite_check" end)
  else if String.eqb intent "workload_assessment" then "workload_assessment"
  else "general_response".

(** The keys of a complete career analysis. *)
Definition analysis_keys : list string :=
  ["gap"; "pathway"; "alignment_score"; "key_modules"; "industry_outlook"].

(** The relevance score a course explanation reports for one to five
    subjects. *)
Definition relevance_scores : list float := [0.9; 0.95; 1; 1.05; 1.1]%float.

End Terms.

(* ===================================================================== *)
(** * Properties *)
(* ===================================================================== *)

Module PyStrFacts.

Import Spec.

Lemma mem_In (x : string) (l : list string) : PyStr.mem x l = true <-> In x l.
Proof.
  unfold PyStr.mem. rewrite existsb_exists. split.
  - intros (y & Hy & Heq). apply String.eqb_eq in Heq. now subst.
  - intros H. exists x. split; [assumption | apply String.eqb_refl].
Qed.

Lemma mem_false_In (x : string) (l : list string) : PyStr.mem x l = false <-> ~ In x l.
Proof.
  rewrite <- mem_In. destruct (PyStr.mem x l); split; intros; congruence.
Qed.

Lemma mem_app (x : string) (l k : list string) :
  PyStr.mem x (l ++ k) = PyStr.mem x l || PyStr.mem x k.
Proof. unfold PyStr.mem. apply existsb_app. Qed.

Lemma append_nil (b : string) : EmptyString +:+ b = b.
Proof. reflexivity. Qed.

Lemma append_cons (c : ascii) (a b : string) : String c a +:+ b = String c (a +:+ b).
Proof. reflexivity. Qed.

Lemma prefix_spec (p s : string) :
  String.prefix p s = true <-> exists b, s = p +:+ b.
Proof.
  revert s. induction p as [|c p IH]; intros s.
  - split; [intros _; now exists s | intros _; now destruct s].
  - destruct s as [|d s]; simpl.
    + split; [discriminate | intros [b Hb]; discriminate].
    + destruct (Ascii.ascii_dec c d) as [->|Hne].
      * rewrite IH. split; intros [b Hb]; exists b; rewrite append_cons in *; congruence.
      * split; [discriminate | intros [b Hb]; rewrite append_cons in Hb; congruence].
Qed.

Lemma contains_nil (needle : string) :
  PyStr.contains needle EmptyString = String.prefix needle EmptyString.
Proof. unfold PyStr.contains. apply orb_false_r. Qed.

Lemma contains_cons (needle : string) (c : ascii) (hay : string) :
  PyStr.contains needle (String c hay)
  = String.prefix needle (String c hay) || PyStr.contains needle hay.
Proof. reflexivity. Qed.

Lemma contains_spec (needle hay : string) :
  PyStr.contains needle hay = true <-> occurs needle hay.
Proof.
  unfold occurs. induction hay as [|c hay IH].
  - rewrite contains_nil, prefix_spec. split.
    + intros [b Hb]. now exists EmptyString, b.
    + intros (a & b & H). destruct a; [now exists b | discriminate].
  - rewrite contains_cons, orb_true_iff, prefix_spec, IH. split.
    + intros [[b Hb] | (a & b & H)].
      * now exists EmptyString, b.
      * exists (String c a), b. rewrite append_cons. now rewrite H.
    + intros (a & b & H). destruct a as [|d a].
      * left. now exists b.
      * right. exists a, b. rewrite append_cons in H. congruence.
Qed.

Lemma contains_false_spec (needle hay : string) :
  PyStr.contains needle hay = false <-> ~ occurs needle hay.
Proof.
  rewrite <- contains_spec. destruct (PyStr.contains needle hay); split; intros; congruence.
Qed.

Lemma lower_char_not_upper (c : ascii) : PyStr.is_upper (PyStr.lower_char c) = false.
Proof. destruct c as [[] [] [] [] [] [] [] []]; reflexivity. Qed.

Lemma chars_append (a b : string) : chars (a +:+ b) = chars a ++ chars b.
Proof.
  induction a as [|c a IH]; [reflexivity|].
  rewrite append_cons. simpl. now rewrite IH.
Qed.

Lemma lower_chars (s : string) (c : ascii) :
  In c (chars (PyStr.lower s)) -> PyStr.is_upper c = false.
Proof.
  induction s as [|d s IH]; simpl; [tauto|].
  intros [<- | H]; [apply lower_char_not_upper | auto].
Qed.

(** A needle with an upper-case letter never occurs in a lower-cased text. *)
Lemma upper_needle_not_in_lower (needle s : string) (c : ascii) :
  In c (chars needle) -> PyStr.is_upper c = true ->
  PyStr.contains needle (PyStr.lower s) = false.
Proof.
  intros Hc Hup. apply contains_false_spec. intros (a & b & H).
  assert (Hin : In c (chars (PyStr.lower s))).
  { rewrite H, !chars_append, !in_app_iff. auto. }
  apply lower_chars in Hin. congruence.
Qed.

End PyStrFacts.

(** ** The course index *)

Module CourseServiceFacts.

Import Spec Samples CourseService PyStrFacts.

Lemma forallb_agree {A : Type} (f g : A -> bool) (l : list A) :
  (forall x, In x l -> f x = g x) -> forallb f l = forallb g l.
Proof.
  induction l as [|x l IH]; intros H; simpl; [reflexivity|].
  rewrite (H x (or_introl eq_refl)), IH; [reflexivity|].
  intros y Hy. apply H. now right.
Qed.

Section Catalog.

Variable courses : list Course.t.

Lemma get_course_by_code_In (code : string) (c : Course.t) :
  get_course_by_code courses code = Some c ->
  In c courses /\ PyStr.upper (Course.code c) = PyStr.upper code.
Proof.
  unfold get_course_by_code. intros H. apply find_some in H as [Hin Heq].
  split; [assumption | now apply String.eqb_eq in Heq].
Qed.

Lemma get_course_by_code_absent (code : string) :
  (forall c, In c courses -> PyStr.upper (Course.code c) <> PyStr.upper code) ->
  get_course_by_code courses code = None.
Proof.
  intros Habs. unfold get_course_by_code.
  destruct (List.find _ courses) as [c|] eqn:Hfind; [|reflexivity].
  apply find_some in Hfind as [Hin Heq]. apply String.eqb_eq in Heq.
  now apply Habs in Hin.
Qed.

Lemma check_prerequisites_met_iff (code : string) (completed : list string) :
  check_prerequisites_met courses code completed = true
  <-> (forall p, In p (get_prerequisites courses code) -> In p completed).
Proof.
  unfold check_prerequisites_met. rewrite forallb_forall.
  split; intros H p Hp; apply mem_In; auto.
Qed.

End Catalog.

(** C5: for a course of the catalog, [check_prerequisites_met] holds exactly
    when every direct prerequisite of the course is in the completed list.
    It holds vacuously for an empty prerequisite list, codes that are not
    prerequisites of the course can be added to the completed list without
    changing the answer, and prerequisites of prerequisites are not looked
    at: with the chain ECO205 -> ECO214 -> ECO302, ECO302 is reported as met
    once ECO214 alone is completed. *)
Theorem check_prerequisites_met_direct
    (courses : list Course.t) (code : string) (completed : list string) (c : Course.t) :
  get_course_by_code courses code = Some c ->
  let prereqs := default [] (Course.prerequisites c) in
  (check_prerequisites_met courses code completed = true
     <-> (forall p, In p prereqs -> In p completed))
  /\ (prereqs = [] -> check_prerequisites_met courses code completed = true)
  /\ (forall extra, (forall p, In p extra -> ~ In p prereqs) ->
        check_prerequisites_met courses code (completed ++ extra)
        = check_prerequisites_met courses code completed)
  /\ (get_prerequisites chain_catalog "ECO302" = ["ECO214"]
      /\ get_prerequisites chain_catalog "ECO214" = ["ECO205"]
      /\ check_prerequisites_met chain_catalog "ECO302" ["ECO214"] = true).
Proof.
  intros Hc prereqs.
  assert (Hpre : get_prerequisites courses code = prereqs).
  { unfold get_prerequisites, prereqs. rewrite Hc. now destruct (Course.prerequisites c). }
  split; [|split; [|split]].
  - rewrite check_prerequisites_met_iff, Hpre. reflexivity.
  - intros Hnil. unfold check_prerequisites_met. now rewrite Hpre, Hnil.
  - intros extra Hextra. unfold check_prerequisites_met. rewrite Hpre.
    apply forallb_agree. intros p Hp.
    rewrite mem_app. destruct (PyStr.mem p extra) eqn:Hm; [|apply orb_false_r].
    apply mem_In in Hm. now apply Hextra in Hm.
  - repeat split.
Qed.

Lemma check_prerequisites_met_direct_witness :
  get_course_by_code chain_catalog "eco214"
  = Some (course "ECO214" "Econometrics I" 5 ["stat"] ["ECO205"])
  /\ (check_prerequisites_met chain_catalog "eco214" ["ECO205"; "ECO101"] = true
      <-> (forall p, In p ["ECO205"] -> In p ["ECO205"; "ECO101"])).
Proof.
  split; [reflexivity|].
  apply (check_prerequisites_met_direct chain_catalog "eco214" ["ECO205"; "ECO101"]
           (course "ECO214" "Econometrics I" 5 ["stat"] ["ECO205"]) eq_refl).
Defined.

(** C10: a code that no course of the catalog carries (codes compared in
    upper case, as [get_course_by_code] does) has the empty prerequisite
    list, so [check_prerequisites_met] answers [True] for it whatever the
    completed list holds. *)
Theorem unknown_course_prerequisites_met
    (courses : list Course.t) (code : string) (completed : list string) :
  (forall c, In c courses -> PyStr.upper (Course.code c) <> PyStr.upper code) ->
  get_course_by_code courses code = None
  /\ get_prerequisites courses code = []
  /\ check_prerequisites_met courses code completed = true.
Proof.
  intros Habs. apply get_course_by_code_absent in Habs.
  unfold check_prerequisites_met, get_prerequisites. rewrite Habs. repeat split.
Qed.

Lemma unknown_course_prerequisites_met_witness :
  (forall c, In c chain_catalog -> PyStr.upper (Course.code c) <> PyStr.upper "XYZ999")
  /\ check_prerequisites_met chain_catalog "XYZ999" [] = true.
Proof.
  assert (Habs : forall c, In c chain_catalog ->
                   PyStr.upper (Course.code c) <> PyStr.upper "XYZ999").
  { intros c [<- | [<- | [<- | []]]]; discriminate. }
  split; [exact Habs|].
  apply (unknown_course_prerequisites_met chain_catalog "XYZ999" [] Habs).
Defined.

End CourseServiceFacts.

(** ** Intent classification *)

Module IntentFacts.

Import Spec Samples AcademicDispatcher PyStrFacts.

Lemma triggered_spec (keywords : list string) (query : string) :
  triggered keywords query = true <-> exists k, In k keywords /\ occurs k query.
Proof.
  unfold triggered. rewrite existsb_exists.
  split; intros (k & Hk & H); exists k; split; auto; now apply contains_spec.
Qed.

Lemma triggered_false_spec (keywords : list string) (query : string) :
  triggered keywords query = false <-> forall k, In k keywords -> ~ occurs k query.
Proof.
  split.
  - intros H k Hk Hocc.
    assert (triggered keywords query = true) by (apply triggered_spec; eauto).
    congruence.
  - intros H. destruct (triggered keywords query) eqn:E; [|reflexivity].
    apply triggered_spec in E as (k & Hk & Hocc). now apply H in Hocc.
Qed.

Section Table.

Variable table : list (string * list string).
Variable query : string.

(** The loop returns the first entry that is triggered. *)
Lemma first_triggered_hit (pre post : list (string * list string))
    (intent : string) (keywords : list string) :
  table = pre ++ (intent, keywords) :: post ->
  triggered keywords query = true ->
  (forall entry, In entry pre -> triggered (snd entry) query = false) ->
  first_triggered table query = intent.
Proof.
  intros -> Hhit. induction pre as [|[i k] pre IH]; intros Hpre; simpl.
  - now rewrite Hhit.
  - pose proof (Hpre (i, k) (or_introl eq_refl)) as Hk. simpl in Hk. rewrite Hk.
    apply IH. intros entry Hin. apply Hpre. now right.
Qed.

Lemma first_triggered_miss :
  (forall entry, In entry table -> triggered (snd entry) query = false) ->
  first_triggered table query = "general_query".
Proof.
  induction table as [|[i k] t IH]; intros H; simpl; [reflexivity|].
  pose proof (H (i, k) (or_introl eq_refl)) as Hk. simpl in Hk. rewrite Hk.
  apply IH. intros entry Hin. apply H. now right.
Qed.

Lemma first_triggered_range :
  In (first_triggered table query) (map fst table ++ ["general_query"]).
Proof.
  induction table as [|[i k] t IH]; simpl; [now left|].
  destruct (triggered k query); [now left | now right].
Qed.

(** An entry declared after a triggered one never wins. *)
Lemma first_triggered_priority (pre post : list (string * list string))
    (intent intent' : string) (keywords keywords' : list string) :
  NoDup (map fst table) ->
  table = pre ++ (intent, keywords) :: post ->
  In (intent', keywords') post ->
  triggered keywords query = true ->
  first_triggered table query <> intent'.
Proof.
  intros Hnd -> Hlater Hhit.
  assert (Hin' : In intent' (map fst post)) by (apply (in_map fst) in Hlater; exact Hlater).
  induction pre as [|[i k] pre IH]; simpl in *.
  - rewrite Hhit. intros ->. apply NoDup_cons in Hnd as [Hnotin _].
    apply Hnotin. now apply list_elem_of_In.
  - apply NoDup_cons in Hnd as [Hnotin Hnd]. destruct (triggered k query).
    + intros ->. apply Hnotin. apply list_elem_of_In.
      rewrite map_app, in_app_iff. right. simpl. now right.
    + now apply IH.
Qed.

End Table.

Lemma INTENT_KEYWORDS_NoDup : NoDup (map fst INTENT_KEYWORDS).
Proof.
  apply NoDup_ListNoDup. simpl.
  repeat (constructor; [simpl; intuition discriminate|]). constructor.
Qed.

(** C4: on any query, [_detect_intent] goes through the intents in their
    declaration order (course_explanation, semester_planning,
    career_alignment, prerequisite_check, workload_assessment) and returns
    the first one with a trigger that occurs somewhere in the query; it
    returns general_query when no trigger occurs; its answer is always one of
    these six names; and an intent declared after one whose trigger occurs is
    never the answer. *)
Theorem detect_intent_first_match (query : string) :
  map fst INTENT_KEYWORDS
  = [ "course_explanation"; "semester_planning"; "career_alignment";
      "prerequisite_check"; "workload_assessment" ]
  /\ (forall pre intent keywords post,
        INTENT_KEYWORDS = pre ++ (intent, keywords) :: post ->
        (exists k, In k keywords /\ occurs k query) ->
        (forall intent' keywords' k,
            In (intent', keywords') pre -> In k keywords' -> ~ occurs k query) ->
        _detect_intent query = intent)
  /\ ((forall intent keywords k,
          In (intent, keywords) INTENT_KEYWORDS -> In k keywords -> ~ occurs k query) ->
      _detect_intent query = "general_query")
  /\ In (_detect_intent query) (map fst INTENT_KEYWORDS ++ ["general_query"])
  /\ (forall pre intent keywords post intent' keywords',
        INTENT_KEYWORDS = pre ++ (intent, keywords) :: post ->
        In (intent', keywords') post ->
        (exists k, In k keywords /\ occurs k query) ->
        _detect_intent query <> intent').
Proof.
  split; [reflexivity|]. split; [|split; [|split]].
  - intros pre intent keywords post Htable Hhit Hpre.
    apply (first_triggered_hit _ _ pre post intent keywords Htable).
    + now apply triggered_spec.
    + intros [i k] Hin. apply triggered_false_spec. intros kw Hkw. now apply (Hpre i k kw).
  - intros Hnone. apply first_triggered_miss.
    intros [i k] Hin. apply triggered_false_spec. intros kw Hkw. now apply (Hnone i k kw).
  - apply first_triggered_range.
  - intros pre intent keywords post intent' keywords' Htable Hlater Hhit.
    apply (first_triggered_priority _ _ pre post intent intent' keywords keywords'
             INTENT_KEYWORDS_NoDup Htable Hlater).
    now apply triggered_spec.
Qed.

(** The query of the specification that triggers both an explanation and a
    workload keyword goes to the explanation handler; a trigger inside
    another word counts; a query with no trigger is a general query. *)
Example detect_intent_examples :
  _detect_intent "explain the hard workload courses" = "course_explanation"
  /\ _detect_intent "hku mfwm" = "career_alignment"
  /\ _detect_intent "my timetable" = "semester_planning"
  /\ _detect_intent "hello there" = "general_query".
Proof. repeat split. Qed.

End IntentFacts.

(** ** Specialization selection *)

Module SpecializationFacts.

Import Spec Samples PlanningService PyStrFacts.

#[local] Open Scope Z_scope.

(** The alias test of [_determine_specialization] looks for a text with a
    capital letter in a lower-cased string, so it never succeeds. *)
Lemma alias_test_never_succeeds (target_program : string) :
  PyStr.contains "hkU mfwm" (PyStr.lower target_program) = false.
Proof.
  apply (upper_needle_not_in_lower _ _ "U"%char); [simpl; tauto | reflexivity].
Qed.

Lemma determine_specialization_range (target_program : string) (completed : list string) :
  In (_determine_specialization target_program completed)
     ["quantitative_finance"; "policy_analysis"; "sustainable_finance"].
Proof.
  unfold _determine_specialization.
  repeat match goal with |- context [if ?b then _ else _] => destruct b end;
    simpl; tauto.
Qed.

(** C1, as the code has it: when the lower-cased target program does not
    contain the programme alias "hku mfwm", the result is quantitative_finance
    if it contains "family wealth"; else policy_analysis if it contains
    "policy" or "central bank"; else sustainable_finance if it contains
    "sustain" or "esg"; otherwise the completed courses are counted against
    the two marker lists: quantitative_finance when the quantitative count is
    strictly larger, policy_analysis when it is not and the policy count is
    positive (a tie at a positive count included), and quantitative_finance
    when the policy count is zero. *)
Theorem determine_specialization_cascade (target_program : string) (completed : list string) :
  let t := PyStr.lower target_program in
  let q := marker_count quantitative_markers completed in
  let p := marker_count policy_markers completed in
  let result := _determine_specialization target_program completed in
  ~ occurs "hku mfwm" t ->
  (occurs "family wealth" t -> result = "quantitative_finance")
  /\ (~ occurs "family wealth" t ->
      occurs "policy" t \/ occurs "central bank" t -> result = "policy_analysis")
  /\ (~ occurs "family wealth" t -> ~ occurs "policy" t -> ~ occurs "central bank" t ->
      occurs "sustain" t \/ occurs "esg" t -> result = "sustainable_finance")
  /\ (~ occurs "family wealth" t -> ~ occurs "policy" t -> ~ occurs "central bank" t ->
      ~ occurs "sustain" t -> ~ occurs "esg" t ->
      (q > p -> result = "quantitative_finance")
      /\ (q <= p -> 0 < p -> result = "policy_analysis")
      /\ (p = 0 -> result = "quantitative_finance")).
Proof.
  intros t q p result _. subst result t q p.
  unfold _determine_specialization, marker_count, quantitative_markers, policy_markers.
  cbv zeta. rewrite (alias_test_never_succeeds target_program), orb_false_l.
  set (t := PyStr.lower target_program).
  set (q := count_if _ completed). set (p := count_if _ completed).
  split; [|split; [|split]].
  - intros H. apply contains_spec in H. now rewrite H.
  - intros Hfw Hpol. apply contains_false_spec in Hfw. rewrite Hfw.
    assert (E : PyStr.contains "policy" t || PyStr.contains "central bank" t = true).
    { apply orb_true_iff. destruct Hpol as [H|H]; apply contains_spec in H; auto. }
    now rewrite E.
  - intros Hfw Hpol Hcb Hsus.
    apply contains_false_spec in Hfw, Hpol, Hcb. rewrite Hfw, Hpol, Hcb.
    assert (E : PyStr.contains "sustain" t || PyStr.contains "esg" t = true).
    { apply orb_true_iff. destruct Hsus as [H|H]; apply contains_spec in H; auto. }
    now rewrite E.
  - intros Hfw Hpol Hcb Hsus Hesg.
    apply contains_false_spec in Hfw, Hpol, Hcb, Hsus, Hesg.
    rewrite Hfw, Hpol, Hcb, Hsus, Hesg. simpl.
    assert (Hq : 0 <= q) by (unfold q, count_if; lia).
    split; [|split]; intros; destruct (Z.gtb_spec q p), (Z.gtb_spec p 0);
      try reflexivity; lia.
Qed.

Lemma determine_specialization_cascade_witness :
  ~ occurs "hku mfwm" (PyStr.lower "Central Bank economist")
  /\ (~ occurs "family wealth" (PyStr.lower "Central Bank economist") ->
      occurs "policy" (PyStr.lower "Central Bank economist")
      \/ occurs "central bank" (PyStr.lower "Central Bank economist") ->
      _determine_specialization "Central Bank economist" ["ECO205"] = "policy_analysis").
Proof.
  assert (H : ~ occurs "hku mfwm" (PyStr.lower "Central Bank economist")).
  { apply contains_false_spec. reflexivity. }
  split; [exact H|].
  apply (determine_specialization_cascade "Central Bank economist" ["ECO205"] H).
Defined.

(** C1 as stated fails on a tie at a positive count: one quantitative and one
    policy marker completed, no goal keyword.  The specification's cascade
    gives quantitative_finance, the code gives policy_analysis. *)
Lemma determine_specialization_tie_counterexample :
  marker_count quantitative_markers ["ECO205"; "ECO213"] = 1
  /\ marker_count policy_markers ["ECO205"; "ECO213"] = 1
  /\ specified_specialization EmptyString ["ECO205"; "ECO213"] = "quantitative_finance"
  /\ _determine_specialization EmptyString ["ECO205"; "ECO213"] = "policy_analysis"
  /\ _determine_specialization EmptyString ["ECO205"; "ECO213"]
     <> specified_specialization EmptyString ["ECO205"; "ECO213"].
Proof. repeat split. discriminate. Qed.

(** The alias itself: the lower-cased goal "HKU MFWM" contains "hku mfwm",
    which the specification sends to quantitative_finance before any other
    test; the code, whose alias test cannot succeed, lets a later keyword
    decide. *)
Example alias_is_not_recognised :
  specified_specialization "HKU MFWM policy track" [] = "quantitative_finance"
  /\ _determine_specialization "HKU MFWM policy track" [] = "policy_analysis".
Proof. split; reflexivity. Qed.

End SpecializationFacts.

(** ** Credit-constrained selection *)

Module FilterFacts.

Import Spec Samples PlanningService PyStrFacts.

#[local] Open Scope Z_scope.

Lemma selected_credits_snoc (l : list Course.t) (c : Course.t) :
  selected_credits (l ++ [c]) = selected_credits l + Course.get_credits c.
Proof.
  unfold selected_credits, sum_Z. induction l as [|x l IH]; simpl; [lia|].
  simpl in IH. rewrite IH. lia.
Qed.

Lemma NoDup_codes_snoc (l : list Course.t) (c : Course.t) :
  NoDup (map Course.code l) ->
  PyStr.mem (Course.code c) (map Course.code l) = false ->
  NoDup (map Course.code (l ++ [c])).
Proof.
  intros Hnd Hmem. rewrite map_app. apply NoDup_app. split; [assumption|]. split.
  - intros x Hx Hc. simpl in Hc. apply list_elem_of_singleton in Hc. subst x.
    apply mem_false_In in Hmem. apply Hmem. now apply list_elem_of_In.
  - simpl. apply NoDup_singleton.
Qed.

Section Selection.

Variable completed_courses : list string.
Variable recommended_courses : list Course.t.
Variable available_credits : Z.

Lemma budget_inv_select (selected : list Course.t) (remaining : Z) (course : Course.t) :
  budget_inv available_credits (selected, remaining) ->
  Course.get_credits course <= remaining ->
  budget_inv available_credits
    (selected ++ [course], remaining - Course.get_credits course).
Proof.
  intros [Hsum Hrem] Hfit. simpl in *. split; simpl.
  - rewrite selected_credits_snoc. lia.
  - lia.
Qed.

Lemma first_pass_budget (st : list Course.t * Z) (course : Course.t) :
  budget_inv available_credits st ->
  budget_inv available_credits (first_pass completed_courses st course).
Proof.
  intros Hinv. destruct st as [selected remaining]. unfold first_pass.
  destruct (_ && _); [|assumption].
  destruct (Z.leb_spec (Course.get_credits course) remaining); [|assumption].
  now apply budget_inv_select.
Qed.

Lemma fold_first_pass_budget (l : list Course.t) (st : list Course.t * Z) :
  budget_inv available_credits st ->
  budget_inv available_credits (fold_left (first_pass completed_courses) l st).
Proof.
  revert st. induction l as [|c l IH]; intros st Hinv; simpl; [assumption|].
  apply IH. now apply first_pass_budget.
Qed.

Lemma second_pass_budget (l : list Course.t) (st : list Course.t * Z) :
  budget_inv available_credits st ->
  budget_inv available_credits (second_pass completed_courses l st).
Proof.
  revert st. induction l as [|c l IH]; intros st Hinv; simpl; [assumption|].
  destruct st as [selected remaining].
  destruct (negb (PyStr.mem (Course.code c) completed_courses)
            && negb (PyStr.mem (Course.code c) (map Course.code selected)));
    simpl; [|now apply IH].
  destruct (Z.leb_spec (Course.get_credits c) remaining); simpl; [|now apply IH].
  assert (Hsel : budget_inv available_credits
                   (selected ++ [c], remaining - Course.get_credits c))
    by now apply budget_inv_select.
  destruct (remaining - Course.get_credits c <? 5); [assumption | now apply IH].
Qed.

Lemma filter_courses_budget :
  0 <= available_credits ->
  selected_credits (_filter_courses recommended_courses completed_courses available_credits)
  <= available_credits.
Proof.
  intros Hbudget. unfold _filter_courses.
  set (st1 := fold_left _ _ _).
  assert (H1 : budget_inv available_credits st1).
  { apply fold_first_pass_budget. split; simpl; [reflexivity | assumption]. }
  assert (H2 : budget_inv available_credits (if snd st1 >=? 5
                           then second_pass completed_courses recommended_courses st1
                           else st1)).
  { destruct (snd st1 >=? 5); [now apply second_pass_budget | assumption]. }
  destruct H2 as [Hsum Hrem]. lia.
Qed.

Lemma filter_courses_NoDup :
  NoDup (map Course.code
           (_filter_courses recommended_courses completed_courses available_credits)).
Proof.
  unfold _filter_courses. set (st1 := fold_left _ _ _).
  assert (Hnd : forall st, NoDup (map Course.code (fst st)) ->
                  forall l, NoDup (map Course.code
                                     (fst (fold_left (first_pass completed_courses) l st)))).
  { intros st Hst l. revert st Hst.
    induction l as [|c l IH]; intros st Hst; simpl; [assumption|].
    apply IH. destruct st as [sel rem]. unfold first_pass.
    destruct (negb (PyStr.mem (Course.code c) completed_courses)); simpl; [|assumption].
    destruct (PyStr.mem (Course.code c) (map Course.code sel)) eqn:Hmem; simpl; [assumption|].
    destruct (Course.get_credits c <=? rem); simpl; [|assumption].
    now apply NoDup_codes_snoc. }
  assert (Hnd2 : forall l st, NoDup (map Course.code (fst st)) ->
                   NoDup (map Course.code (fst (second_pass completed_courses l st)))).
  { induction l as [|c l IH]; intros st Hst; simpl; [assumption|].
    destruct st as [sel rem].
    destruct (negb (PyStr.mem (Course.code c) completed_courses)); simpl; [|now apply IH].
    destruct (PyStr.mem (Course.code c) (map Course.code sel)) eqn:Hmem; simpl; [now apply IH|].
    destruct (Course.get_credits c <=? rem); simpl; [|now apply IH].
    assert (NoDup (map Course.code (sel ++ [c]))) by now apply NoDup_codes_snoc.
    destruct (rem - Course.get_credits c <? 5); [assumption | now apply IH]. }
  assert (H1 : NoDup (map Course.code (fst st1))) by (apply Hnd; constructor).
  destruct (snd st1 >=? 5); [now apply Hnd2 | assumption].
Qed.

Lemma filter_courses_incl (c : Course.t) :
  In c (_filter_courses recommended_courses completed_courses available_credits) ->
  In c recommended_courses.
Proof.
  unfold _filter_courses. set (st1 := fold_left _ _ _).
  assert (Hall : forall st, Forall (fun c => In c recommended_courses) (fst st) ->
                  forall l, (forall x, In x l -> In x recommended_courses) ->
                  Forall (fun c => In c recommended_courses)
                         (fst (fold_left (first_pass completed_courses) l st))).
  { intros st Hst l. revert st Hst.
    induction l as [|x l IH]; intros st Hst Hl; simpl; [assumption|].
    apply IH; [|intros y Hy; apply Hl; now right].
    destruct st as [sel rem]. unfold first_pass.
    repeat match goal with |- context [if ?b then _ else _] => destruct b end;
      simpl; try assumption.
    apply Forall_app. split; [assumption|]. repeat constructor. apply Hl. now left. }
  assert (Hall2 : forall l st, Forall (fun c => In c recommended_courses) (fst st) ->
                   (forall x, In x l -> In x recommended_courses) ->
                   Forall (fun c => In c recommended_courses)
                          (fst (second_pass completed_courses l st))).
  { induction l as [|x l IH]; intros st Hst Hl; simpl; [assumption|].
    destruct st as [sel rem].
    assert (Hl' : forall y, In y l -> In y recommended_courses)
      by (intros y Hy; apply Hl; now right).
    assert (Forall (fun c => In c recommended_courses) (sel ++ [x])).
    { apply Forall_app. split; [assumption|]. repeat constructor. apply Hl. now left. }
    repeat match goal with |- context [if ?b then _ else _] => destruct b end;
      simpl; try assumption; now apply IH. }
  assert (H1 : Forall (fun c => In c recommended_courses) (fst st1)).
  { apply Hall; [constructor | auto]. }
  intros Hin.
  assert (H2 : Forall (fun c => In c recommended_courses)
                 (fst (if snd st1 >=? 5
                       then second_pass completed_courses recommended_courses st1
                       else st1))).
  { destruct (snd st1 >=? 5); [apply Hall2; auto | assumption]. }
  rewrite Forall_forall in H2. apply H2. now apply list_elem_of_In.
Qed.

(** With no budget and only courses that cost credits, nothing is selected. *)
Lemma filter_courses_no_budget :
  available_credits = 0 ->
  (forall c, In c recommended_courses -> 0 < Course.get_credits c) ->
  _filter_courses recommended_courses completed_courses available_credits = [].
Proof.
  intros -> Hpos. unfold _filter_courses.
  assert (H1 : forall l, (forall c, In c l -> 0 < Course.get_credits c) ->
                 fold_left (first_pass completed_courses) l ([], 0) = ([], 0)).
  { induction l as [|c l IH]; intros Hl; simpl; [reflexivity|].
    assert (Hc : 0 < Course.get_credits c) by (apply Hl; now left).
    destruct (negb (PyStr.mem (Course.code c) completed_courses)); simpl.
    - destruct (Z.leb_spec (Course.get_credits c) 0); [lia|].
      apply IH. intros x Hx. apply Hl. now right.
    - apply IH. intros x Hx. apply Hl. now right. }
  rewrite (H1 recommended_courses Hpos). reflexivity.
Qed.

End Selection.

(** The budget bound needs a budget that is not negative: nothing is selected
    on a negative one, and the empty sum is above it. *)
Example negative_budget_is_exceeded :
  _filter_courses sample_catalog [] (-5) = []
  /\ selected_credits (_filter_courses sample_catalog [] (-5)) = 0
  /\ -5 < 0.
Proof. repeat split. Qed.

End FilterFacts.

(** ** Division of integers *)

Module DivisionFacts.

Import Spec.

#[local] Open Scope Z_scope.

Lemma nearest_Z_le (a b : Z) : Binary64.nearest_Z a b <= a / b + 1.
Proof.
  unfold Binary64.nearest_Z.
  repeat match goal with |- context [if ?c then _ else _] => destruct c end; lia.
Qed.

(** Below [2^1023] a quotient by a positive integer rounds to a float. *)
Lemma too_large_small (a b : Z) :
  0 < a < 2 ^ 1023 -> 1 <= b -> Binary64.too_large a b = false.
Proof.
  intros Ha Hb. unfold Binary64.too_large, Binary64.rounded.
  set (d := Z.log2 a - Z.log2 b).
  set (e0 := if Binary64.pow2_le d a b then d else d - 1).
  set (e := Z.max e0 (-1022) - 52).
  destruct (Z.leb_spec 0 e) as [He | He]; [|reflexivity].
  cbn [andb]. apply Z.leb_gt.
  assert (Hla : Z.log2 a < 1023) by (apply Z.log2_lt_pow2; lia).
  pose proof (Z.log2_nonneg b) as Hlb.
  assert (He0 : e0 <= 1022) by (subst e0 d; destruct (Binary64.pow2_le _ a b); lia).
  assert (He970 : e <= 970) by (subst e; lia).
  assert (Hpow : 0 < 2 ^ e <= 2 ^ 970).
  { split; [apply Z.pow_pos_nonneg; lia | apply Z.pow_le_mono_r; lia]. }
  set (P := 2 ^ e) in *.
  assert (HD : 0 < b * P) by nia.
  pose proof (nearest_Z_le a (b * P)) as Hm.
  pose proof (Z.mul_div_le a (b * P) HD) as Hq.
  assert (Hq0 : 0 <= a / (b * P)) by (apply Z.div_pos; lia).
  assert (Hconst : 2 ^ 1023 + 2 ^ 970 < 2 ^ 1024) by reflexivity.
  assert (HqP : a / (b * P) * P <= a) by nia.
  nia.
Qed.

(** A total below [2^1023] in magnitude, divided by an integer other than
    zero, has a quotient. *)
Lemma truediv_safe (a b : Z) :
  safe_total a -> b <> 0 -> exists x, truediv a b = Ok x.
Proof.
  unfold safe_total. intros Ha Hb. unfold truediv.
  destruct (Z.eqb_spec b 0) as [|_]; [contradiction|]. cbv zeta.
  destruct (Z.eqb_spec a 0) as [|Ha0]; [eauto|].
  rewrite too_large_small by lia. eauto.
Qed.

Lemma truediv_zero (b : Z) : 0 < b -> truediv 0 b = Ok 0%float.
Proof.
  intros Hb. unfold truediv.
  destruct (Z.eqb_spec b 0) as [|_]; [lia|].
  destruct (Z.ltb_spec b 0) as [|_]; [lia | reflexivity].
Qed.

(** Below [2^1023] an integer has a float: no length of a list gets near. *)
Lemma float_of_Z_small (z : Z) :
  0 < z < 2 ^ 1023 -> float_of_Z z = Binary64.to_float z 1.
Proof.
  intros Hz. destruct z as [|p|p]; try lia.
  unfold float_of_Z. now rewrite too_large_small by lia.
Qed.

(** The conversion rounds to the nearest float, to the even one on a tie. *)
Example float_of_Z_examples :
  float_of_Z 5 = 5%float
  /\ float_of_Z (2 ^ 63) = 9223372036854775808%float
  /\ float_of_Z (2 ^ 53 + 1) = 9007199254740992%float
  /\ float_of_Z (2 ^ 53 + 3) = 9007199254740996%float
  /\ float_of_Z (- 7) = (-7)%float.
Proof. repeat split. Qed.

(** With a divisor other than zero the only failure is the overflow. *)
Lemma truediv_Raise (a b : Z) (e : exn) :
  truediv a b = Raise e -> b <> 0 ->
  e = mkExn OverflowError "integer division result too large for a float".
Proof.
  unfold truediv. intros H Hb.
  destruct (Z.eqb_spec b 0) as [|_]; [contradiction|]. cbv zeta in H.
  destruct (a =? 0); [discriminate|].
  destruct (Binary64.too_large _ _); [|discriminate].
  now injection H as <-.
Qed.

(** The quotients of Python's [10 / 4] and of a total that is too large. *)
Example truediv_examples :
  truediv 10 4 = Ok 2.5%float
  /\ truediv (-1) 3 = Ok (-0.33333333333333331)%float
  /\ truediv (2 ^ 63) 1 = Ok 9223372036854775808%float
  /\ truediv 0 (-5) = Ok (-0)%float
  /\ truediv 1 0 = Raise (mkExn ZeroDivisionError "division by zero")
  /\ truediv (10 ^ 310) 20
     = Raise (mkExn OverflowError "integer division result too large for a float").
Proof. repeat split. Qed.

End DivisionFacts.

(** ** Workload scoring *)

Module WorkloadFacts.

Import Spec Samples PlanningService PyStrFacts DivisionFacts.

#[local] Open Scope Z_scope.

(** Binary64 multiplication commutes, so the order in which a weight and a
    ratio are multiplied does not change a score. *)
Lemma float_mul_comm (x y : float) : (x * y)%float = (y * x)%float.
Proof.
  apply Prim2SF_inj. rewrite !mul_spec. unfold SF64mul, SFmul.
  destruct (Prim2SF x) as [sx|sx| |sx mx ex], (Prim2SF y) as [sy|sy| |sy my ey];
    try reflexivity; rewrite (xorb_comm sx sy); try reflexivity.
  now rewrite (Pos.mul_comm mx my), (Z.add_comm ex ey).
Qed.

Lemma credit_limit_lookup (digit : ascii) :
  default 20 (assoc ("year_" +:+ String digit EmptyString) CREDIT_LIMITS)
  = specified_credit_limit digit.
Proof. destruct digit as [[] [] [] [] [] [] [] []]; reflexivity. Qed.

Lemma specified_credit_limit_values (digit : ascii) :
  specified_credit_limit digit = 15 \/ specified_credit_limit digit = 20.
Proof.
  unfold specified_credit_limit.
  repeat match goal with |- context [if ?b then _ else _] => destruct b end; auto.
Qed.

Lemma year_key_spec (academic_year : string) (digit : ascii) :
  PyStr.last (PyStr.before "-"%char academic_year) = Some digit ->
  year_key academic_year = Ok digit.
Proof. unfold year_key. now intros ->. Qed.

(** A segment with no last character is empty. *)
Lemma last_None (s : string) : PyStr.last s = None -> s = EmptyString.
Proof.
  destruct s as [|c s]; [reflexivity|]. intros H. exfalso.
  revert c H. induction s as [|c' s IH]; intros c; simpl; [discriminate | apply IH].
Qed.

(** [_assess_workload] once the year digit is known. *)
Lemma assess_workload_unfold (courses : list Course.t) (user_context : Ctx.t) (digit : ascii) :
  PyStr.last (PyStr.before "-"%char (Ctx.get_academic_year user_context)) = Some digit ->
  _assess_workload courses user_context
  = let* credit_ratio :=
      truediv (sum_Z (map Course.get_credits courses)) (specified_credit_limit digit) in
    let* course_difficulty :=
      truediv (sum_Z (map Course.get_difficulty_level courses))
              (Z.max (Z.of_nat (length courses)) 1) in
    Ok (specified_workload_level
          (credit_ratio * 0.6 + course_difficulty / 5 * 0.4)%float).
Proof.
  intros Hdigit. unfold _assess_workload.
  rewrite (year_key_spec _ _ Hdigit). cbn [bind].
  rewrite credit_limit_lookup.
  destruct (truediv _ (specified_credit_limit digit)) as [ratio|e]; cbn [bind];
    [|reflexivity].
  destruct (truediv _ (Z.max _ 1)) as [difficulty|e]; cbn [bind]; [|reflexivity].
  unfold specified_workload_level.
  repeat match goal with |- context [if ?b then _ else _] => destruct b end; reflexivity.
Qed.

(** With totals below [2^1023] in magnitude both quotients exist. *)
Lemma assess_workload_returns (courses : list Course.t) (user_context : Ctx.t)
    (digit : ascii) :
  PyStr.last (PyStr.before "-"%char (Ctx.get_academic_year user_context)) = Some digit ->
  safe_total (sum_Z (map Course.get_credits courses)) ->
  safe_total (sum_Z (map Course.get_difficulty_level courses)) ->
  exists credit_ratio course_difficulty,
    truediv (sum_Z (map Course.get_credits courses)) (specified_credit_limit digit)
    = Ok credit_ratio
    /\ truediv (sum_Z (map Course.get_difficulty_level courses))
               (Z.max (Z.of_nat (length courses)) 1) = Ok course_difficulty
    /\ _assess_workload courses user_context
       = Ok (specified_workload_level
               (credit_ratio * 0.6 + course_difficulty / 5 * 0.4)%float).
Proof.
  intros Hdigit Hcredits Hdifficulty.
  destruct (truediv_safe _ (specified_credit_limit digit) Hcredits) as [ratio Hratio].
  { destruct (specified_credit_limit_values digit) as [-> | ->]; discriminate. }
  destruct (truediv_safe _ (Z.max (Z.of_nat (length courses)) 1) Hdifficulty)
    as [difficulty Hdiff]; [lia|].
  exists ratio, difficulty. split; [exact Hratio|]. split; [exact Hdiff|].
  rewrite (assess_workload_unfold _ _ _ Hdigit), Hratio, Hdiff. reflexivity.
Qed.

(** C6, as the code has it: when the first hyphen-segment of the
    academic-year string ends in a character [digit], [_assess_workload]
    computes the level of the score
    [0.6 * (totalCredits / creditLimit) + 0.4 * (avgDifficulty / 5)], where
    creditLimit is 15, 20, 20, 15 for the digits 1, 2, 3, 4 and 20 for any
    other character, avgDifficulty is the mean difficulty level (a missing
    level counting as 3), and the level is light below 0.6, moderate below
    0.8 and heavy otherwise; for an empty selection the answer is the same
    whether the mean of no course is read as 0 or as 3.  It fails exactly as
    the two quotients do, and they do not fail when the total of the credits
    and the total of the difficulty levels are below [2^1023] in magnitude:
    then a level is returned.  The year string "2025-2026" gives the digit 5
    and therefore the limit 20. *)
Theorem assess_workload_as_specified
    (courses : list Course.t) (user_context : Ctx.t) (digit : ascii) :
  PyStr.last (PyStr.before "-"%char (Ctx.get_academic_year user_context)) = Some digit ->
  (forall empty_mean : float,
      empty_mean = 0%float \/ empty_mean = 3%float ->
      _assess_workload courses user_context
      = specified_workload empty_mean courses (specified_credit_limit digit))
  /\ (safe_total (sum_Z (map Course.get_credits courses)) ->
      safe_total (sum_Z (map Course.get_difficulty_level courses)) ->
      exists score,
        specified_workload_score 0 courses (specified_credit_limit digit) = Ok score
        /\ _assess_workload courses user_context = Ok (specified_workload_level score))
  /\ PyStr.last (PyStr.before "-"%char "2025-2026") = Some "5"%char
  /\ specified_credit_limit "5" = 20.
Proof.
  intros Hdigit.
  assert (Hspec : forall empty_mean : float,
             empty_mean = 0%float \/ empty_mean = 3%float ->
             _assess_workload courses user_context
             = specified_workload empty_mean courses (specified_credit_limit digit)).
  { intros empty_mean Hmean. rewrite (assess_workload_unfold _ _ _ Hdigit).
    unfold specified_workload, specified_workload_score, mean_difficulty.
    destruct courses as [|c l].
    - destruct (specified_credit_limit_values digit) as [-> | ->];
        destruct Hmean as [-> | ->]; vm_compute; reflexivity.
    - replace (Z.max (Z.of_nat (length (c :: l))) 1) with (Z.of_nat (length (c :: l)))
        by (simpl length; lia).
      destruct (truediv _ (specified_credit_limit digit)) as [ratio|e]; cbn [bind];
        [|reflexivity].
      destruct (truediv _ (Z.of_nat (length (c :: l)))) as [difficulty|e]; cbn [bind];
        [|reflexivity].
      now rewrite (float_mul_comm 0.6), (float_mul_comm 0.4). }
  split; [exact Hspec|]. split; [|split; reflexivity].
  intros Hcredits Hdifficulty.
  destruct (assess_workload_returns _ _ _ Hdigit Hcredits Hdifficulty)
    as (ratio & difficulty & _ & _ & Hlevel).
  pose proof (Hspec 0%float (or_introl eq_refl)) as H0. rewrite Hlevel in H0.
  unfold specified_workload in H0.
  destruct (specified_workload_score 0 courses (specified_credit_limit digit))
    as [score|e]; cbn [bind] in H0; [|discriminate].
  exists score. split; [reflexivity|]. now rewrite Hlevel, H0.
Qed.

(** Three courses of 5 credits against the limit 20, mean difficulty 10/3:
    0.6 * 0.75 + 0.4 * ((10/3) / 5) is about 0.717. *)
Lemma assess_workload_as_specified_witness :
  PyStr.last (PyStr.before "-"%char (Ctx.get_academic_year sample_profile)) = Some "5"%char
  /\ map Course.code (Plan.courses sample_plan) = ["ECO205"; "FIN301"; "ECO305"]
  /\ specified_workload 3 (Plan.courses sample_plan) (specified_credit_limit "5")
     = Ok "moderate"
  /\ _assess_workload (Plan.courses sample_plan) sample_profile
     = specified_workload 3 (Plan.courses sample_plan) (specified_credit_limit "5").
Proof.
  split; [reflexivity|]. split; [reflexivity|]. split; [vm_compute; reflexivity|].
  apply (assess_workload_as_specified (Plan.courses sample_plan) sample_profile "5"%char
           eq_refl).
  now right.
Defined.

(** C6 as stated fails where no level is computed.  With an academic year
    whose first segment is empty the year parse raises [IndexError], on a
    selection for which the stated formula, with the default limit 20, gives
    heavy.  And a course with [10^310] credits makes the quotient of the
    credits too large for a float: [OverflowError]. *)
Lemma assess_workload_no_level_counterexample :
  (PyStr.before "-"%char (Ctx.get_academic_year unparseable_year_profile) = EmptyString
   /\ specified_workload 3 heavy_selection 20 = Ok "heavy"
   /\ _assess_workload heavy_selection unparseable_year_profile
      = Raise (mkExn IndexError "string index out of range")
   /\ (forall level,
         _assess_workload heavy_selection unparseable_year_profile <> Ok level))
  /\ (PyStr.last (PyStr.before "-"%char (Ctx.get_academic_year sample_profile))
      = Some "5"%char
      /\ _assess_workload [oversized_course] sample_profile
         = Raise (mkExn OverflowError "integer division result too large for a float")
      /\ (forall level, _assess_workload [oversized_course] sample_profile <> Ok level)).
Proof.
  split.
  - split; [reflexivity|]. split; [vm_compute; reflexivity|].
    split; [reflexivity|]. intros level. discriminate.
  - split; [reflexivity|].
    assert (H : _assess_workload [oversized_course] sample_profile
                = Raise (mkExn OverflowError
                           "integer division result too large for a float"))
      by (vm_compute; reflexivity).
    split; [exact H|]. intros level. rewrite H. discriminate.
Qed.

Example assess_workload_sample :
  _assess_workload (Plan.courses sample_plan) sample_profile = Ok "moderate".
Proof. vm_compute. reflexivity. Qed.

(** The answer of [_assess_workload], when it gives one, is one of the three
    levels. *)
Lemma assess_workload_range (courses : list Course.t) (user_context : Ctx.t) (level : string) :
  _assess_workload courses user_context = Ok level ->
  In level ["light"; "moderate"; "heavy"].
Proof.
  unfold _assess_workload. destruct (year_key _) as [d|e]; cbn [bind]; [|discriminate].
  destruct (truediv _ (default 20 _)) as [ratio|e]; cbn [bind]; [|discriminate].
  destruct (truediv _ (Z.max _ 1)) as [difficulty|e]; cbn [bind]; [|discriminate].
  repeat match goal with |- context [if ?b then _ else _] => destruct b end;
    intros [= <-]; simpl; tauto.
Qed.

(** It raises [IndexError] when the first hyphen-segment is empty. *)
Lemma assess_workload_raises (courses : list Course.t) (user_context : Ctx.t) :
  PyStr.before "-"%char (Ctx.get_academic_year user_context) = EmptyString ->
  _assess_workload courses user_context
  = Raise (mkExn IndexError "string index out of range").
Proof. intros H. unfold _assess_workload, year_key. now rewrite H. Qed.

(** It gives no answer exactly when the first hyphen-segment is empty or
    one of the two quotients fails. *)
Lemma assess_workload_fails_iff (courses : list Course.t) (user_context : Ctx.t) :
  (exists e, _assess_workload courses user_context = Raise e)
  <-> PyStr.before "-"%char (Ctx.get_academic_year user_context) = EmptyString
      \/ exists digit,
           PyStr.last (PyStr.before "-"%char (Ctx.get_academic_year user_context))
           = Some digit
           /\ ((exists e, truediv (sum_Z (map Course.get_credits courses))
                                  (specified_credit_limit digit) = Raise e)
               \/ (exists e, truediv (sum_Z (map Course.get_difficulty_level courses))
                                     (Z.max (Z.of_nat (length courses)) 1) = Raise e)).
Proof.
  destruct (PyStr.last (PyStr.before "-"%char (Ctx.get_academic_year user_context)))
    as [digit|] eqn:Hlast.
  - rewrite (assess_workload_unfold _ _ _ Hlast).
    assert (Hfull : PyStr.before "-"%char (Ctx.get_academic_year user_context)
                    <> EmptyString).
    { intros Hempty. rewrite Hempty in Hlast. discriminate. }
    destruct (truediv _ (specified_credit_limit digit)) as [ratio|e1] eqn:Hratio;
      cbn [bind].
    + destruct (truediv _ (Z.max _ 1)) as [difficulty|e2] eqn:Hdiff; cbn [bind].
      * split.
        -- intros [e H]. discriminate.
        -- intros [H | (d & Hd & [[e H] | [e H]])]; [contradiction | |].
           ++ injection Hd as <-. rewrite Hratio in H. discriminate.
           ++ discriminate.
      * split; [|eauto]. intros _. right. exists digit. split; [reflexivity|].
        right. eauto.
    + split; [|eauto]. intros _. right. exists digit. split; [reflexivity|]. left. eauto.
  - apply last_None in Hlast. rewrite (assess_workload_raises _ _ Hlast).
    split; [auto | eauto].
Qed.

End WorkloadFacts.

(** ** Career alignment *)

Module AlignmentFacts.

Import Spec Samples PlanningService PyStrFacts DivisionFacts.

#[local] Open Scope Z_scope.

Lemma calculate_career_alignment_counts (c : Course.t) (l : list Course.t)
    (specialization target_program : string) :
  _calculate_career_alignment (c :: l) specialization target_program
  = alignment_value (PyStr.contains "HKU MFWM" target_program)
      (core_count (c :: l) specialization) (quant_count (c :: l))
      (Z.of_nat (length (c :: l)))
      (Z.of_nat (length (core_sequence_of specialization))).
Proof. reflexivity. Qed.

Lemma count_if_bounds {A : Type} (f : A -> bool) (l : list A) :
  0 <= count_if f l <= Z.of_nat (length l).
Proof.
  unfold count_if. split; [lia|]. apply inj_le. apply filter_length_le.
Qed.

Lemma alignment_table_checked : alignment_table_in_unit = true.
Proof. vm_compute. reflexivity. Qed.

Lemma alignment_value_in_unit (hku : bool) (k q n : Z) :
  0 <= k <= 8 -> 0 <= q <= 8 -> 1 <= n <= 8 ->
  returns_in_unit (alignment_value hku k q n 5) = true.
Proof.
  intros Hk Hq Hn.
  assert (Hhku : In hku [true; false]) by (destruct hku; simpl; auto).
  assert (Hk' : In k small_counts) by (simpl; lia).
  assert (Hq' : In q small_counts) by (simpl; lia).
  assert (Hn' : In n (tl small_counts)) by (simpl; lia).
  pose proof alignment_table_checked as H. unfold alignment_table_in_unit in H.
  pose proof (proj1 (forallb_forall _ _) H hku Hhku) as H1. cbv beta in H1.
  pose proof (proj1 (forallb_forall _ _) H1 k Hk') as H2. cbv beta in H2.
  pose proof (proj1 (forallb_forall _ _) H2 q Hq') as H3. cbv beta in H3.
  exact (proj1 (forallb_forall _ _) H3 n Hn').
Qed.

Lemma core_sequence_length (specialization : string) :
  In specialization ["quantitative_finance"; "policy_analysis"; "sustainable_finance"] ->
  length (core_sequence_of specialization) = 5%nat
  /\ length (electives_of specialization) = 3%nat.
Proof. intros [<- | [<- | [<- | []]]]; split; reflexivity. Qed.

(** A selection of at most 8 courses, scored against one of the three
    shipped paths, has an alignment, and it lies in [0, 1]. *)
Lemma calculate_career_alignment_in_unit (courses : list Course.t)
    (specialization target_program : string) :
  In specialization ["quantitative_finance"; "policy_analysis"; "sustainable_finance"] ->
  (length courses <= 8)%nat ->
  returns_in_unit (_calculate_career_alignment courses specialization target_program) = true.
Proof.
  intros Hspec Hlen. destruct courses as [|c l]; [reflexivity|].
  rewrite calculate_career_alignment_counts.
  destruct (core_sequence_length _ Hspec) as [-> _].
  pose proof (count_if_bounds
                (fun c => PyStr.mem (Course.code c) (core_sequence_of specialization))
                (c :: l)) as Hk.
  pose proof (count_if_bounds
                (fun c => existsb (fun tag => PyStr.mem tag ["fin"; "stat"; "math"])
                                  (Course.get_tags c)) (c :: l)) as Hq.
  apply alignment_value_in_unit; unfold core_count, quant_count; simpl length in *; lia.
Qed.

Lemma returns_in_unit_Ok (r : result float) :
  returns_in_unit r = true -> exists x, r = Ok x /\ in_unit_interval x = true.
Proof. destruct r as [x|e]; simpl; [eauto | discriminate]. Qed.

Lemma calculate_career_alignment_empty (specialization target_program : string) :
  _calculate_career_alignment [] specialization target_program = Ok 0%float.
Proof. reflexivity. Qed.

(** The guard [max(len(core_courses), 1)]: with no core sequence the
    coverage is 0 rather than a division by zero. *)
Lemma core_coverage_empty_core (courses : list Course.t) (specialization : string) :
  core_sequence_of specialization = [] ->
  core_coverage courses specialization = Ok 0%float.
Proof.
  intros Hcore. unfold core_coverage. rewrite Hcore.
  replace (count_if _ courses) with 0; [reflexivity|].
  unfold count_if. induction courses as [|c l IH]; [reflexivity | exact IH].
Qed.

(** Without the blend for the wealth-management goal the alignment is the
    clamped coverage, so an empty core sequence gives 0.0. *)
Lemma calculate_career_alignment_empty_core (courses : list Course.t)
    (specialization target_program : string) :
  core_sequence_of specialization = [] ->
  PyStr.contains "HKU MFWM" target_program = false ->
  _calculate_career_alignment courses specialization target_program = Ok 0%float.
Proof.
  intros Hcore Hgoal. destruct courses as [|c l]; [reflexivity|].
  unfold _calculate_career_alignment.
  now rewrite Hgoal, (core_coverage_empty_core _ _ Hcore).
Qed.

End AlignmentFacts.

(** ** The generated plan *)

Module PlanFacts.

Import Spec Samples PlanningService.
Import PyStrFacts SpecializationFacts FilterFacts WorkloadFacts AlignmentFacts.

#[local] Open Scope Z_scope.

Lemma insert_desc_perm {A : Type} (gt : A -> A -> bool) (x : A) (l : list A) :
  insert_desc gt x l ≡ₚ x :: l.
Proof.
  induction l as [|y l IH]; simpl; [reflexivity|].
  destruct (gt y x); [|reflexivity].
  rewrite IH. apply perm_swap.
Qed.

(** Sorting only reorders. *)
Lemma sort_desc_perm {A : Type} (gt : A -> A -> bool) (l : list A) :
  sort_desc gt l ≡ₚ l.
Proof.
  unfold sort_desc. induction l as [|x l IH]; simpl; [reflexivity|].
  rewrite insert_desc_perm. now apply perm_skip.
Qed.

Lemma omap_length_le {A B : Type} (f : A -> option B) (l : list A) :
  (length (omap f l) <= length l)%nat.
Proof.
  unfold omap. induction l as [|x l IH]; simpl; [lia|]. destruct (f x); simpl; lia.
Qed.

Lemma omap_In {A B : Type} (f : A -> option B) (l : list A) (y : B) :
  In y (omap f l) -> exists x, In x l /\ f x = Some y.
Proof.
  intros H. apply list_elem_of_In, list_elem_of_omap in H as (x & Hx & Hfx).
  exists x. split; [now apply list_elem_of_In | assumption].
Qed.

Section Service.

Variable courses : list Course.t.
Variable academic_calendar : list (string * list (string * list (string * string))).

(** The candidates are courses of the catalog. *)
Lemma get_recommended_courses_In (specialization academic_year semester : string)
    (completed : list string) (c : Course.t) :
  In c (_get_recommended_courses courses specialization academic_year semester completed) ->
  In c courses.
Proof.
  unfold _get_recommended_courses. intros H.
  apply (Permutation_in _ (sort_desc_perm _ _)) in H.
  apply filter_In in H as [H _].
  apply omap_In in H as (code & _ & Hget).
  now apply CourseServiceFacts.get_course_by_code_In in Hget.
Qed.

(** A path has 5 core codes and 3 electives, so at most 8 candidates. *)
Lemma get_recommended_courses_length (specialization academic_year semester : string)
    (completed : list string) :
  In specialization ["quantitative_finance"; "policy_analysis"; "sustainable_finance"] ->
  (length (_get_recommended_courses courses specialization academic_year semester completed)
   <= 8)%nat.
Proof.
  intros Hspec. unfold _get_recommended_courses.
  rewrite (Permutation_length (sort_desc_perm _ _)).
  etransitivity; [apply filter_length_le|].
  etransitivity; [apply omap_length_le|].
  destruct (core_sequence_length _ Hspec) as [Hcore Hel].
  rewrite length_app, Hcore, Hel. reflexivity.
Qed.

(** No more courses are selected than there are candidates. *)
Lemma filter_courses_length (recommended : list Course.t) (completed : list string)
    (available : Z) :
  (length (_filter_courses recommended completed available) <= length recommended)%nat.
Proof.
  apply NoDup_incl_length.
  - apply (NoDup_map_inv Course.code). apply NoDup_ListNoDup. apply filter_courses_NoDup.
  - intros c. apply filter_courses_incl.
Qed.

(** The plan of the [try] block, field by field. *)
Lemma generate_semester_plan_try_Ok (user_context : Ctx.t) (plan : Plan.t) :
  generate_semester_plan_try courses academic_calendar user_context = Ok plan ->
  let target_program := default EmptyString (Ctx.target_program user_context) in
  let completed := Ctx.get_completed_courses user_context in
  let specialization := _determine_specialization target_program completed in
  let filtered :=
    _filter_courses
      (_get_recommended_courses courses specialization
         (Ctx.get_academic_year user_context) (Ctx.get_current_semester user_context)
         completed)
      completed (Ctx.get_available_credits user_context) in
  Plan.courses plan = filtered
  /\ Plan.total_credits plan = selected_credits filtered
  /\ _assess_workload filtered user_context = Ok (Plan.workload_level plan)
  /\ _calculate_career_alignment filtered specialization target_program
     = Ok (Plan.career_alignment_score plan)
  /\ Plan.credit_limit plan = Ctx.get_available_credits user_context
  /\ Plan.specialization plan = specialization
  /\ Plan.note plan = None.
Proof.
  unfold generate_semester_plan_try. cbv zeta.
  destruct (_assess_workload _ user_context) as [level|e]; cbn [bind]; [|discriminate].
  destruct (_calculate_career_alignment _ _ _) as [alignment|e]; cbn [bind];
    [|discriminate].
  intros [= <-]. simpl. repeat split.
Qed.

Lemma generate_semester_plan_Ok (user_context : Ctx.t) (plan : Plan.t) :
  generate_semester_plan_try courses academic_calendar user_context = Ok plan ->
  generate_semester_plan courses academic_calendar user_context = plan.
Proof. unfold generate_semester_plan. now intros ->. Qed.

Lemma generate_semester_plan_Raise (user_context : Ctx.t) (e : exn) :
  generate_semester_plan_try courses academic_calendar user_context = Raise e ->
  generate_semester_plan courses academic_calendar user_context
  = _get_default_plan user_context.
Proof. unfold generate_semester_plan. now intros ->. Qed.

(** What is selected has an alignment, in [0, 1]. *)
Lemma selected_alignment_returns (user_context : Ctx.t) :
  let target_program := default EmptyString (Ctx.target_program user_context) in
  let completed := Ctx.get_completed_courses user_context in
  let specialization := _determine_specialization target_program completed in
  let filtered :=
    _filter_courses
      (_get_recommended_courses courses specialization
         (Ctx.get_academic_year user_context) (Ctx.get_current_semester user_context)
         completed)
      completed (Ctx.get_available_credits user_context) in
  exists alignment,
    _calculate_career_alignment filtered specialization target_program = Ok alignment
    /\ in_unit_interval alignment = true.
Proof.
  cbv zeta. apply returns_in_unit_Ok.
  apply calculate_career_alignment_in_unit; [apply determine_specialization_range|].
  etransitivity; [apply filter_courses_length|].
  apply get_recommended_courses_length, determine_specialization_range.
Qed.

(** The [try] block fails exactly as the workload assessment of the
    selection does. *)
Lemma generate_semester_plan_try_cases (user_context : Ctx.t) :
  let target_program := default EmptyString (Ctx.target_program user_context) in
  let completed := Ctx.get_completed_courses user_context in
  let specialization := _determine_specialization target_program completed in
  let filtered :=
    _filter_courses
      (_get_recommended_courses courses specialization
         (Ctx.get_academic_year user_context) (Ctx.get_current_semester user_context)
         completed)
      completed (Ctx.get_available_credits user_context) in
  (forall level, _assess_workload filtered user_context = Ok level ->
     exists plan, generate_semester_plan_try courses academic_calendar user_context = Ok plan)
  /\ (forall e, _assess_workload filtered user_context = Raise e ->
        generate_semester_plan_try courses academic_calendar user_context = Raise e).
Proof.
  cbv zeta. split.
  - intros level Hlevel.
    destruct (selected_alignment_returns user_context) as (alignment & Ha & _).
    cbv zeta in Ha. unfold generate_semester_plan_try. cbv zeta.
    rewrite Hlevel. cbn [bind]. rewrite Ha. cbn [bind]. eauto.
  - intros e Hraise. unfold generate_semester_plan_try. cbv zeta.
    now rewrite Hraise.
Qed.

End Service.

(** C2, as the code has it: when plan generation does not fall back to the
    default plan, the plan's total_credits is the sum of the credits of its
    courses (a missing credits field counting as 5) and no course code occurs
    twice among the selected courses; and when available_credits is not
    negative, total_credits does not exceed it. *)
Theorem generated_plan_within_budget
    (courses : list Course.t)
    (academic_calendar : list (string * list (string * list (string * string))))
    (user_context : Ctx.t) (plan : Plan.t) :
  generate_semester_plan_try courses academic_calendar user_context = Ok plan ->
  generate_semester_plan courses academic_calendar user_context = plan
  /\ Plan.total_credits plan = sum_Z (map Course.get_credits (Plan.courses plan))
  /\ NoDup (map Course.code (Plan.courses plan))
  /\ (0 <= Ctx.get_available_credits user_context ->
      Plan.total_credits plan <= Ctx.get_available_credits user_context).
Proof.
  intros Htry.
  split; [now apply generate_semester_plan_Ok|].
  apply generate_semester_plan_try_Ok in Htry as (Hc & Ht & _). cbv zeta in *.
  rewrite Hc, Ht. split; [reflexivity|]. split.
  - apply filter_courses_NoDup.
  - intros Hbudget. now apply filter_courses_budget.
Qed.

Lemma generated_plan_within_budget_witness :
  0 <= Ctx.get_available_credits sample_profile
  /\ generate_semester_plan_try sample_catalog [] sample_profile = Ok sample_plan
  /\ map Course.code (Plan.courses sample_plan) = ["ECO205"; "FIN301"; "ECO305"]
  /\ Plan.total_credits sample_plan = 15
  /\ NoDup (map Course.code (Plan.courses sample_plan))
  /\ Plan.total_credits sample_plan <= Ctx.get_available_credits sample_profile.
Proof.
  assert (Hb : 0 <= Ctx.get_available_credits sample_profile)
    by (unfold Ctx.get_available_credits, sample_profile; simpl; lia).
  assert (Ht : generate_semester_plan_try sample_catalog [] sample_profile = Ok sample_plan)
    by reflexivity.
  split; [exact Hb|]. split; [exact Ht|]. split; [reflexivity|]. split; [reflexivity|].
  destruct (generated_plan_within_budget sample_catalog [] sample_profile sample_plan Ht)
    as (_ & _ & Hnd & Hle).
  split; [exact Hnd | exact (Hle Hb)].
Defined.

(** C2 as stated fails on a negative budget: with available_credits -5 plan
    generation succeeds, nothing is selected, and the total of 0 credits
    exceeds the budget. *)
Lemma negative_budget_plan_counterexample :
  Ctx.get_available_credits overdrawn_profile = -5
  /\ generate_semester_plan_try sample_catalog [] overdrawn_profile = Ok overdrawn_plan
  /\ generate_semester_plan sample_catalog [] overdrawn_profile = overdrawn_plan
  /\ overdrawn_plan <> _get_default_plan overdrawn_profile
  /\ Plan.courses overdrawn_plan = []
  /\ Plan.total_credits overdrawn_plan
     = sum_Z (map Course.get_credits (Plan.courses overdrawn_plan))
  /\ Plan.total_credits overdrawn_plan = 0
  /\ ~ (Plan.total_credits overdrawn_plan <= Ctx.get_available_credits overdrawn_profile).
Proof.
  split; [reflexivity|]. split; [vm_compute; reflexivity|].
  split; [vm_compute; reflexivity|]. split; [discriminate|].
  split; [reflexivity|]. split; [reflexivity|]. split; [reflexivity|].
  vm_compute. intros H. now apply H.
Qed.

(** C8: whenever the [try] block of [generate_semester_plan] raises, the
    function returns the fixed default plan instead: the two introductory
    courses ECO213 and ECO217, 10 total credits, the light workload level,
    the alignment score 0.6 and the single gap note saying that a default was
    used. *)
Theorem default_plan_on_exception
    (courses : list Course.t)
    (academic_calendar : list (string * list (string * list (string * string))))
    (user_context : Ctx.t) (e : exn) :
  generate_semester_plan_try courses academic_calendar user_context = Raise e ->
  let plan := generate_semester_plan courses academic_calendar user_context in
  plan = _get_default_plan user_context
  /\ map Course.code (Plan.courses plan) = ["ECO213"; "ECO217"]
  /\ map Course.name (Plan.courses plan) = ["Macroeconomics I"; "Microeconomics I"]
  /\ Plan.total_credits plan = 10
  /\ Plan.workload_level plan = "light"
  /\ Plan.career_alignment_score plan = 0.6%float
  /\ Plan.gap_analysis plan = ["Default plan used due to system constraints"].
Proof.
  intros Hraise plan. subst plan.
  rewrite (generate_semester_plan_Raise _ _ _ _ Hraise). repeat split.
Qed.

Lemma default_plan_on_exception_witness :
  generate_semester_plan_try sample_catalog [] unparseable_year_profile
  = Raise (mkExn IndexError "string index out of range")
  /\ generate_semester_plan sample_catalog [] unparseable_year_profile
     = _get_default_plan unparseable_year_profile.
Proof.
  assert (H : generate_semester_plan_try sample_catalog [] unparseable_year_profile
              = Raise (mkExn IndexError "string index out of range")) by reflexivity.
  split; [exact H|].
  apply (default_plan_on_exception sample_catalog [] unparseable_year_profile _ H).
Defined.

(** The workload level of an empty selection. *)
Lemma assess_workload_empty (user_context : Ctx.t) :
  PyStr.before "-"%char (Ctx.get_academic_year user_context) <> EmptyString ->
  _assess_workload [] user_context = Ok "light".
Proof.
  intros Hyear.
  destruct (PyStr.last (PyStr.before "-"%char (Ctx.get_academic_year user_context)))
    as [d|] eqn:Hlast; [|now apply last_None in Hlast].
  rewrite (assess_workload_unfold _ _ _ Hlast).
  destruct (specified_credit_limit_values d) as [-> | ->]; vm_compute; reflexivity.
Qed.

(** C7, as the code has it: on every profile the plan's alignment score lies
    in [0, 1] and its workload level is light, moderate or heavy (the default
    plan included).  With zero available credits, a catalog whose courses all
    cost credits, and an academic year whose first hyphen-segment is not
    empty (so that the default plan is not used), the plan is empty, with 0
    total credits, light workload and alignment 0.0.  An empty selection
    always has alignment 0.0.  An empty core sequence gives core coverage 0,
    and alignment 0.0 when the goal does not name HKU MFWM. *)
Theorem plan_scores_in_range
    (courses : list Course.t)
    (academic_calendar : list (string * list (string * list (string * string))))
    (user_context : Ctx.t) :
  let plan := generate_semester_plan courses academic_calendar user_context in
  in_unit_interval (Plan.career_alignment_score plan) = true
  /\ In (Plan.workload_level plan) ["light"; "moderate"; "heavy"]
  /\ (Ctx.get_available_credits user_context = 0 ->
      (forall c, In c courses -> 0 < Course.get_credits c) ->
      PyStr.before "-"%char (Ctx.get_academic_year user_context) <> EmptyString ->
      Plan.courses plan = []
      /\ Plan.total_credits plan = 0
      /\ Plan.workload_level plan = "light"
      /\ Plan.career_alignment_score plan = 0%float)
  /\ (forall specialization target_program,
        _calculate_career_alignment [] specialization target_program = Ok 0%float)
  /\ (forall selected specialization,
        core_sequence_of specialization = [] ->
        core_coverage selected specialization = Ok 0%float)
  /\ (forall selected specialization target_program,
        core_sequence_of specialization = [] ->
        ~ occurs "HKU MFWM" target_program ->
        _calculate_career_alignment selected specialization target_program = Ok 0%float).
Proof.
  intros plan.
  split; [|split; [|split; [|split; [|split]]]].
  - subst plan.
    destruct (generate_semester_plan_try courses academic_calendar user_context)
      as [p|e] eqn:Htry.
    + rewrite (generate_semester_plan_Ok _ _ _ _ Htry).
      apply generate_semester_plan_try_Ok in Htry as (_ & _ & _ & Ha & _).
      destruct (selected_alignment_returns courses user_context)
        as (alignment & Ha' & Hunit).
      cbv zeta in Ha, Ha'. rewrite Ha in Ha'. now injection Ha' as ->.
    + rewrite (generate_semester_plan_Raise _ _ _ _ Htry). reflexivity.
  - subst plan.
    destruct (generate_semester_plan_try courses academic_calendar user_context)
      as [p|e] eqn:Htry.
    + rewrite (generate_semester_plan_Ok _ _ _ _ Htry).
      apply generate_semester_plan_try_Ok in Htry as (_ & _ & Hlevel & _).
      now apply assess_workload_range in Hlevel.
    + rewrite (generate_semester_plan_Raise _ _ _ _ Htry). simpl. tauto.
  - intros Hzero Hpos Hyear. subst plan.
    destruct (generate_semester_plan_try_cases courses academic_calendar user_context)
      as [Hsome _].
    cbv zeta in Hsome.
    rewrite filter_courses_no_budget in Hsome; try assumption;
      try (intros c Hc'; apply Hpos; now apply get_recommended_courses_In in Hc').
    destruct (Hsome _ (assess_workload_empty _ Hyear)) as [p Htry].
    rewrite (generate_semester_plan_Ok _ _ _ _ Htry).
    apply generate_semester_plan_try_Ok in Htry as (Hc & Ht & Hlevel & Ha & _).
    cbv zeta in *.
    rewrite filter_courses_no_budget in Hc, Ht, Hlevel, Ha; try assumption;
      try (intros c Hc'; apply Hpos; now apply get_recommended_courses_In in Hc').
    rewrite (assess_workload_empty _ Hyear) in Hlevel.
    rewrite calculate_career_alignment_empty in Ha.
    injection Hlevel as Hlevel. injection Ha as Ha.
    repeat split; try assumption; now symmetry.
  - intros. apply calculate_career_alignment_empty.
  - intros. now apply core_coverage_empty_core.
  - intros selected specialization target_program Hcore Hgoal.
    apply calculate_career_alignment_empty_core; [assumption|].
    now apply contains_false_spec.
Qed.

Lemma plan_scores_in_range_witness :
  let plan := generate_semester_plan sample_catalog [] no_credit_profile in
  Plan.courses plan = []
  /\ Plan.total_credits plan = 0
  /\ Plan.workload_level plan = "light"
  /\ Plan.career_alignment_score plan = 0%float.
Proof.
  apply (plan_scores_in_range sample_catalog [] no_credit_profile).
  - reflexivity.
  - intros c [<- | [<- | [<- | [<- | [<- | [<- | []]]]]]]; reflexivity.
  - discriminate.
Defined.

(** C7 as stated fails in two places.  When the zero-credit profile has an
    academic year with an empty first segment, the year parse raises and the
    plan is the default plan, with two courses, 10 credits and alignment 0.6.
    And an empty core sequence (a specialization outside the table) does not
    yield alignment 0.0 when the goal names HKU MFWM: a single finance course
    scores 0.4 through the tag term. *)
Lemma zero_credit_default_plan_counterexample :
  (Ctx.get_available_credits unparseable_year_profile = 0
   /\ Ctx.get_completed_courses unparseable_year_profile = []
   /\ Forall (fun c => 0 < Course.get_credits c) sample_catalog
   /\ map Course.code
        (Plan.courses (generate_semester_plan sample_catalog [] unparseable_year_profile))
      = ["ECO213"; "ECO217"]
   /\ Plan.total_credits (generate_semester_plan sample_catalog [] unparseable_year_profile)
      = 10
   /\ Plan.career_alignment_score
        (generate_semester_plan sample_catalog [] unparseable_year_profile)
      = 0.6%float
   /\ ~ (Plan.courses (generate_semester_plan sample_catalog [] unparseable_year_profile) = []
         /\ Plan.total_credits
              (generate_semester_plan sample_catalog [] unparseable_year_profile) = 0))
  /\ (core_sequence_of "general_economics" = []
      /\ _calculate_career_alignment
           [offering "FIN301" "Business Finance" 5 1 3 ["fin"] []]
           "general_economics" "HKU MFWM"
         = Ok 0.4%float
      /\ (0.4 =? 0)%float = false).
Proof.
  split.
  - repeat split.
    + repeat constructor.
    + intros [H _]. discriminate H.
  - repeat split.
Qed.

End PlanFacts.

(** ** Keyword search *)

Module SearchFacts.

Import Spec Samples CourseService PyStrFacts.

(** What one course adds to the index: its own bucket grows by the course
    when a tag of the course is a keyword of the subject, and nothing else
    changes. *)
Lemma index_course_lookup (course : Course.t) (idx : gmap string (list Course.t))
    (s : string) :
  fold_left (index_course course) subject_keywords idx !! s
  = match assoc s subject_keywords with
    | Some keywords =>
        if tagged keywords course then Some (default [] (idx !! s) ++ [course])
        else idx !! s
    | None => idx !! s
    end.
Proof.
  unfold subject_keywords. cbn [fold_left index_course assoc].
  destruct (decide (s = "eco")) as [->|Heco];
    [|destruct (decide (s = "stat")) as [->|Hstat];
      [|destruct (decide (s = "fin")) as [->|Hfin];
        [|destruct (decide (s = "sustain")) as [->|Hsus];
          [|destruct (decide (s = "math")) as [->|Hmath]]]]];
    repeat match goal with
      | |- context [String.eqb ?a ?b] =>
          first [ rewrite (String.eqb_refl a)
                | rewrite (proj2 (String.eqb_neq a b)) by congruence ]
      end;
    cbn [String.eqb Ascii.eqb Bool.eqb];
    repeat match goal with |- context [tagged ?k course] => destruct (tagged k course) end;
    simplify_map_eq; reflexivity.
Qed.

(** The index after a run of courses, from any starting index. *)
Lemma index_courses_lookup (l : list Course.t) (idx : gmap string (list Course.t))
    (s : string) :
  fold_left (fun idx course => fold_left (index_course course) subject_keywords idx) l idx
    !! s
  = match assoc s subject_keywords with
    | Some keywords =>
        match List.filter (tagged keywords) l with
        | [] => idx !! s
        | bucket => Some (default [] (idx !! s) ++ bucket)
        end
    | None => idx !! s
    end.
Proof.
  revert idx. induction l as [|c l IH]; intros idx; cbn [fold_left].
  - now destruct (assoc s subject_keywords).
  - rewrite IH, index_course_lookup.
    destruct (assoc s subject_keywords) as [keywords|]; [|reflexivity].
    cbn [List.filter]. destruct (tagged keywords c).
    + destruct (List.filter (tagged keywords) l); simpl; [reflexivity|].
      now rewrite <- app_assoc.
    + reflexivity.
Qed.

(** The bucket of a subject is the catalog's courses tagged for it, in
    catalog order; a subject with no tagged course, and any other keyword,
    has no bucket. *)
Lemma build_keyword_index_lookup (courses : list Course.t) (s : string) :
  _build_keyword_index courses !! s
  = match assoc s subject_keywords with
    | Some keywords =>
        match List.filter (tagged keywords) courses with
        | [] => None
        | bucket => Some bucket
        end
    | None => None
    end.
Proof.
  unfold _build_keyword_index. rewrite index_courses_lookup.
  destruct (assoc s subject_keywords) as [keywords|]; [|apply lookup_empty].
  destruct (List.filter (tagged keywords) courses); [apply lookup_empty|].
  now rewrite lookup_empty.
Qed.

Section Catalog.

Variable courses : list Course.t.

(** The first tier answers with the whole bucket. *)
Lemma search_by_keyword_indexed (keyword : string) (keywords : list string) :
  assoc (PyStr.lower keyword) subject_keywords = Some keywords ->
  List.filter (tagged keywords) courses <> [] ->
  search_by_keyword courses keyword = List.filter (tagged keywords) courses.
Proof.
  intros Hsubject Hbucket. unfold search_by_keyword.
  rewrite build_keyword_index_lookup, Hsubject.
  now destruct (List.filter (tagged keywords) courses).
Qed.

(** The second tier answers with at most 10 courses. *)
Lemma search_by_keyword_fuzzy_length (keyword : string) :
  _build_keyword_index courses !! PyStr.lower keyword = None ->
  length (search_by_keyword courses keyword) <= 10.
Proof.
  intros Hnone. unfold search_by_keyword. rewrite Hnone.
  rewrite length_take. lia.
Qed.

Lemma NoDup_codes_filter (f : Course.t -> bool) (l : list Course.t) :
  NoDup (map Course.code l) -> NoDup (map Course.code (List.filter f l)).
Proof.
  induction l as [|c l IH]; simpl; [auto|].
  intros Hnd. apply NoDup_cons in Hnd as [Hnotin Hnd].
  destruct (f c); simpl; [|auto].
  apply NoDup_cons. split; [|auto].
  intros Hin. apply Hnotin.
  apply list_elem_of_In, in_map_iff in Hin as (x & Hx & Hin).
  apply filter_In in Hin as [Hin _].
  apply list_elem_of_In, in_map_iff. eauto.
Qed.

(** With codes unique in the catalog, neither tier repeats a code. *)
Lemma search_by_keyword_NoDup (keyword : string) :
  NoDup (map Course.code courses) ->
  NoDup (map Course.code (search_by_keyword courses keyword)).
Proof.
  intros Hnd. unfold search_by_keyword.
  destruct (_build_keyword_index courses !! PyStr.lower keyword) as [bucket|] eqn:Hidx.
  - rewrite build_keyword_index_lookup in Hidx.
    destruct (assoc (PyStr.lower keyword) subject_keywords) as [keywords|]; [|discriminate].
    destruct (List.filter (tagged keywords) courses) as [|c b] eqn:Hb; [discriminate|].
    injection Hidx as <-. rewrite <- Hb. now apply NoDup_codes_filter.
  - rewrite <- firstn_map. eapply sublist_NoDup; [|apply sublist_take].
    rewrite (Permutation_map Course.code (PlanFacts.sort_desc_perm _ _)).
    now apply NoDup_codes_filter.
Qed.

End Catalog.

Lemma eco_catalog_tagged (n : nat) :
  List.filter (tagged ["eco"; "economics"; "micro"; "macro"; "economic"; "econ"])
              (eco_catalog n)
  = eco_catalog n.
Proof.
  unfold eco_catalog. induction (seq 1 n) as [|i l IH]; [reflexivity|].
  cbn [map List.filter]. now rewrite IH.
Qed.

(** On a catalog of economics courses the subject keyword returns the whole
    catalog, however long it is. *)
Lemma search_by_keyword_eco_catalog (n : nat) :
  search_by_keyword (eco_catalog (S n)) "eco" = eco_catalog (S n).
Proof.
  rewrite (search_by_keyword_indexed _ "eco" _ eq_refl); rewrite eco_catalog_tagged;
    [reflexivity | discriminate].
Qed.

(** C3, as the code has it: the two tiers answer differently.  When the
    lower-cased keyword has a bucket in the keyword index, the answer is that
    bucket as it is: every course of the catalog tagged for the subject, in
    catalog order, with no bound on their number.  When it has none, the
    answer has at most 10 courses.  In both tiers no two returned courses
    share a code when no two courses of the catalog do. *)
Theorem search_by_keyword_two_tiers (courses : list Course.t) (keyword : string) :
  (forall bucket,
      _build_keyword_index courses !! PyStr.lower keyword = Some bucket ->
      search_by_keyword courses keyword = bucket
      /\ bucket <> []
      /\ exists keywords,
           assoc (PyStr.lower keyword) subject_keywords = Some keywords
           /\ bucket = List.filter (tagged keywords) courses)
  /\ (_build_keyword_index courses !! PyStr.lower keyword = None ->
      length (search_by_keyword courses keyword) <= 10)
  /\ (NoDup (map Course.code courses) ->
      NoDup (map Course.code (search_by_keyword courses keyword))).
Proof.
  split; [|split].
  - intros bucket Hidx.
    split; [unfold search_by_keyword; now rewrite Hidx|].
    rewrite build_keyword_index_lookup in Hidx.
    destruct (assoc (PyStr.lower keyword) subject_keywords) as [keywords|];
      [|discriminate].
    destruct (List.filter (tagged keywords) courses) as [|c b] eqn:Hb; [discriminate|].
    injection Hidx as <-. split; [discriminate|].
    exists keywords. split; [reflexivity | now rewrite Hb].
  - apply search_by_keyword_fuzzy_length.
  - apply search_by_keyword_NoDup.
Qed.

(** C3 as stated fails in the first tier.  A catalog of 11 economics courses
    with distinct codes, searched for the subject "eco", is answered from the
    keyword index with all 11 courses, one more than the bound of 10 of the
    second tier.  And a catalog that lists a course twice gets it back
    twice. *)
Lemma search_by_keyword_index_unbounded :
  (NoDup (map Course.code (eco_catalog 11))
   /\ _build_keyword_index (eco_catalog 11) !! "eco" = Some (eco_catalog 11)
   /\ search_by_keyword (eco_catalog 11) "eco" = eco_catalog 11
   /\ length (search_by_keyword (eco_catalog 11) "eco") = 11
   /\ ~ length (search_by_keyword (eco_catalog 11) "eco") <= 10)
  /\ (map Course.code (search_by_keyword (eco_catalog 1 ++ eco_catalog 1) "eco")
      = map Course.code (eco_catalog 1 ++ eco_catalog 1)
      /\ ~ NoDup (map Course.code
                    (search_by_keyword (eco_catalog 1 ++ eco_catalog 1) "eco"))).
Proof.
  assert (Hnd : NoDup (map Course.code (eco_catalog 11))).
  { apply NoDup_ListNoDup. vm_compute.
    repeat (constructor; [simpl; intuition discriminate|]). constructor. }
  split.
  - split; [exact Hnd|]. split; [|split; [|split]].
    + rewrite build_keyword_index_lookup. reflexivity.
    + apply search_by_keyword_eco_catalog.
    + now rewrite search_by_keyword_eco_catalog.
    + rewrite search_by_keyword_eco_catalog. simpl. lia.
  - assert (H : map Course.code (search_by_keyword (eco_catalog 1 ++ eco_catalog 1) "eco")
                = map Course.code (eco_catalog 1 ++ eco_catalog 1))
      by (vm_compute; reflexivity).
    split; [exact H|]. rewrite H. intros Hdup.
    apply NoDup_cons in Hdup as [Hnotin _]. apply Hnotin. left.
Qed.

(** The same keyword in a text that is not a subject goes through the second
    tier, which stops at 10. *)
Example search_by_keyword_fuzzy_capped :
  length (search_by_keyword (eco_catalog 11) "topics") = 10.
Proof. vm_compute. reflexivity. Qed.

End SearchFacts.

(** ** Dispatch of a planning request when the text generator fails *)

Module DispatchFacts.

Import Spec Samples AcademicDispatcher PyStrFacts.

Lemma mock_planning_advice_nonempty (plan : Plan.t) (user_profile : Ctx.t) (query : string) :
  AIService._mock_planning_advice plan user_profile query <> EmptyString.
Proof.
  unfold AIService._mock_planning_advice.
  destruct (PyStr.contains "HKU MFWM" _); rewrite append_cons; discriminate.
Qed.

Section Dispatcher.

Variable settings : Settings.t.
Variable post : string -> result string.
Variable courses : list Course.t.
Variable academic_calendar : list (string * list (string * list (string * string))).
Variable handle_course_explanation : list string -> Ctx.t -> string -> result response.
Variable handle_career_alignment : list string -> Ctx.t -> string -> result response.

(** A generator that fails on every prompt leaves the template text. *)
Lemma generate_planning_advice_fallback (plan : Plan.t) (user_profile : Ctx.t)
    (query : string) :
  (forall prompt, exists e, post prompt = Raise e) ->
  AIService.generate_planning_advice settings post plan user_profile query
  = AIService._mock_planning_advice plan user_profile query.
Proof.
  intros Hfail. unfold AIService.generate_planning_advice.
  destruct (AIService.use_mock settings); [reflexivity|].
  unfold AIService._call_deepseek_api.
  destruct (String.eqb _ _); [reflexivity|].
  destruct (Hfail (AIService._build_planning_prompt plan user_profile query)) as [e ->].
  reflexivity.
Qed.

Lemma generate_planning_advice_mock (plan : Plan.t) (user_profile : Ctx.t) (query : string) :
  AIService.use_mock settings = true ->
  AIService.generate_planning_advice settings post plan user_profile query
  = AIService._mock_planning_advice plan user_profile query.
Proof. unfold AIService.generate_planning_advice. now intros ->. Qed.

(** A query classified as semester planning is answered by the planning
    handler. *)
Lemma dispatch_semester_planning (query : string) (user_context : Ctx.t) :
  _detect_intent (PyStr.strip (PyStr.lower query)) = "semester_planning" ->
  dispatch settings post courses academic_calendar
    handle_course_explanation handle_career_alignment query user_context
  = _handle_semester_planning settings post courses academic_calendar user_context
      (PyStr.strip (PyStr.lower query)).
Proof. intros Hintent. unfold dispatch. now rewrite Hintent. Qed.

End Dispatcher.

(** C9 on the code: with the mock mode off and a text generator that fails
    on every prompt, a query classified as semester planning gets a response
    of type semester_plan whose strategic_advice is the non-empty template
    text.  The response has exactly the nine keys of the handler, none of
    them a degraded-mode marker (no fallback_mode, no note): it is the very
    response that a service configured for mock mode gives. *)
Theorem semester_planning_fallback_unmarked
    (settings : Settings.t) (post : string -> result string)
    (courses : list Course.t)
    (academic_calendar : list (string * list (string * list (string * string))))
    (handle_course_explanation handle_career_alignment :
       list string -> Ctx.t -> string -> result response)
    (query : string) (user_context : Ctx.t) :
  AIService.use_mock settings = false ->
  (forall prompt, exists e, post prompt = Raise e) ->
  _detect_intent (PyStr.strip (PyStr.lower query)) = "semester_planning" ->
  let resp :=
    dispatch settings post courses academic_calendar
      handle_course_explanation handle_career_alignment query user_context in
  let plan := PlanningService.generate_semester_plan courses academic_calendar user_context in
  let template :=
    AIService._mock_planning_advice plan user_context (PyStr.strip (PyStr.lower query)) in
  assoc "type" resp = Some (VStr "semester_plan")
  /\ assoc "strategic_advice" resp = Some (VStr template)
  /\ template <> EmptyString
  /\ map fst resp
     = [ "type"; "recommended_courses"; "total_credits"; "workload_assessment";
         "strategic_advice"; "gap_analysis"; "career_alignment"; "academic_year";
         "semester" ]
  /\ assoc "fallback_mode" resp = None
  /\ assoc "note" resp = None
  /\ (forall settings' post',
        AIService.use_mock settings' = true ->
        dispatch settings' post' courses academic_calendar
          handle_course_explanation handle_career_alignment query user_context
        = resp).
Proof.
  intros Hlive Hfail Hintent resp plan template. subst resp.
  rewrite (dispatch_semester_planning _ _ _ _ _ _ _ _ Hintent).
  unfold _handle_semester_planning. fold plan.
  rewrite (generate_planning_advice_fallback settings post plan user_context _ Hfail).
  fold template. cbn [try_except].
  repeat split.
  - apply mock_planning_advice_nonempty.
  - intros settings' post' Hmock.
    rewrite (dispatch_semester_planning _ _ _ _ _ _ _ _ Hintent).
    unfold _handle_semester_planning. fold plan.
    rewrite (generate_planning_advice_mock settings' post' plan user_context _ Hmock).
    reflexivity.
Qed.

Lemma semester_planning_fallback_unmarked_witness :
  AIService.use_mock live_settings = false
  /\ (forall prompt, exists e, timing_out prompt = Raise e)
  /\ _detect_intent (PyStr.strip (PyStr.lower "Plan my semester")) = "semester_planning"
  /\ map fst (dispatch live_settings timing_out sample_catalog []
                no_handler no_handler "Plan my semester" sample_profile)
     = [ "type"; "recommended_courses"; "total_credits"; "workload_assessment";
         "strategic_advice"; "gap_analysis"; "career_alignment"; "academic_year";
         "semester" ].
Proof.
  assert (Hfail : forall prompt, exists e, timing_out prompt = Raise e)
    by (intros prompt; eexists; reflexivity).
  split; [reflexivity|]. split; [exact Hfail|]. split; [reflexivity|].
  apply (semester_planning_fallback_unmarked live_settings timing_out
           sample_catalog [] no_handler no_handler
           "Plan my semester" sample_profile eq_refl Hfail eq_refl).
Defined.

(** The response at the failing input, in full. *)
Example semester_planning_timeout_response :
  dispatch live_settings timing_out sample_catalog []
    no_handler no_handler "Plan my semester" sample_profile
  = [ ("type", VStr "semester_plan");
      ("recommended_courses", VCourses (Plan.courses sample_plan));
      ("total_credits", VInt 15);
      ("workload_assessment", VStr "moderate");
      ("strategic_advice",
        VStr ("This semester plan provides strong preparation for HKU's Family Wealth Management program. "
              +:+ "The combination of quantitative courses (econometrics, mathematical finance) and applied finance modules "
              +:+ "builds the analytical foundation required for systematic wealth management. With 15 credits across 3 courses, "
              +:+ "the workload is well-balanced for sustained academic performance. Consider connecting with XJTLU's Career Hub to explore "
              +:+ "summer internships at private banks or family offices to complement this academic preparation."));
      ("gap_analysis", VStrs (Plan.gap_analysis sample_plan));
      ("career_alignment", VFloat (Plan.career_alignment_score sample_plan));
      ("academic_year", VStr "2025-2026");
      ("semester", VStr "Fall") ].
Proof. vm_compute. reflexivity. Qed.

End DispatchFacts.

(* ===================================================================== *)
(** * Further properties of the course index *)
(* ===================================================================== *)

Module SortFacts.

(** A descending sort leaves no element after one with a strictly smaller
    key, for any strict comparison that is asymmetric and whose complement is
    transitive (as the comparison of tuples is). *)
Section Sorted.

Context {A : Type} (gt : A -> A -> bool).
Hypothesis gt_asym : forall x y, gt x y = true -> gt y x = false.
Hypothesis ge_trans : forall x y z, gt y x = false -> gt z y = false -> gt z x = false.

Lemma insert_desc_sorted (x : A) (l : list A) :
  StronglySorted (fun a b => gt b a = false) l ->
  StronglySorted (fun a b => gt b a = false) (insert_desc gt x l).
Proof.
  induction l as [|y l IH]; intros Hs; simpl.
  - repeat constructor.
  - apply StronglySorted_cons in Hs as [Hy Hs].
    destruct (gt y x) eqn:Hyx.
    + apply StronglySorted_cons. split; [|auto].
      apply Forall_forall. intros z Hz.
      apply list_elem_of_In, (Permutation_in _ (PlanFacts.insert_desc_perm gt x l)) in Hz.
      destruct Hz as [<- | Hz]; [now apply gt_asym|].
      rewrite Forall_forall in Hy. apply Hy. now apply list_elem_of_In.
    + apply StronglySorted_cons. split.
      * constructor; [assumption|].
        apply Forall_forall. intros z Hz. rewrite Forall_forall in Hy.
        apply (ge_trans _ y); auto.
      * apply StronglySorted_cons. auto.
Qed.

Lemma sort_desc_sorted (l : list A) :
  StronglySorted (fun a b => gt b a = false) (sort_desc gt l).
Proof.
  unfold sort_desc. induction l as [|x l IH]; simpl; [constructor|].
  now apply insert_desc_sorted.
Qed.

End Sorted.

(** In a sorted list, of two elements the later one never has the greater
    key. *)
Lemma sorted_in_order {A : Type} (R : A -> A -> Prop) (l pre mid post : list A) (x y : A) :
  StronglySorted R l -> l = pre ++ x :: mid ++ y :: post -> R x y.
Proof.
  intros Hs ->. apply StronglySorted_app in Hs as (_ & _ & Hs).
  apply StronglySorted_cons in Hs as [Hx _].
  rewrite Forall_forall in Hx. apply Hx.
  apply list_elem_of_In, in_app_iff. right. now left.
Qed.

Lemma sorted_take {A : Type} (R : A -> A -> Prop) (n : nat) (l : list A) :
  StronglySorted R l -> StronglySorted R (take n l).
Proof.
  intros Hs. rewrite <- (take_drop n l) in Hs. now apply StronglySorted_app_1_l in Hs.
Qed.

End SortFacts.

Module CatalogLookupFacts.

Import Spec Samples CourseService PyStrFacts.

Lemma upper_lower_char (c : ascii) : PyStr.upper_char (PyStr.lower_char c) = PyStr.upper_char c.
Proof. destruct c as [[] [] [] [] [] [] [] []]; reflexivity. Qed.

Lemma upper_upper_char (c : ascii) : PyStr.upper_char (PyStr.upper_char c) = PyStr.upper_char c.
Proof. destruct c as [[] [] [] [] [] [] [] []]; reflexivity. Qed.

Lemma upper_lower (s : string) : PyStr.upper (PyStr.lower s) = PyStr.upper s.
Proof. induction s as [|c s IH]; simpl; [reflexivity|]. now rewrite upper_lower_char, IH. Qed.

Lemma upper_upper (s : string) : PyStr.upper (PyStr.upper s) = PyStr.upper s.
Proof. induction s as [|c s IH]; simpl; [reflexivity|]. now rewrite upper_upper_char, IH. Qed.

Lemma find_first {A : Type} (f : A -> bool) (l : list A) (x : A) :
  List.find f l = Some x ->
  exists pre post, l = pre ++ x :: post /\ f x = true /\ forall y, In y pre -> f y = false.
Proof.
  induction l as [|a l IH]; simpl; [discriminate|].
  destruct (f a) eqn:Hfa.
  - intros [= <-]. exists [], l. repeat split; [assumption|]. intros y [].
  - intros H. destruct (IH H) as (pre & post & -> & Hfx & Hpre).
    exists (a :: pre), post. repeat split; [assumption|].
    intros y [<- | Hy]; auto.
Qed.

(** X1: [get_course_by_code] compares codes without regard to ASCII case and
    answers with the first catalog course that matches: every course before
    it has another code, the answer is [None] exactly when no course matches,
    and writing the requested code in lower or upper case gives the same
    answer. *)
Theorem get_course_by_code_first_match (courses : list Course.t) (code : string) :
  (forall c, get_course_by_code courses code = Some c ->
     exists pre post,
       courses = pre ++ c :: post
       /\ PyStr.upper (Course.code c) = PyStr.upper code
       /\ forall x, In x pre -> PyStr.upper (Course.code x) <> PyStr.upper code)
  /\ (get_course_by_code courses code = None
      <-> forall x, In x courses -> PyStr.upper (Course.code x) <> PyStr.upper code)
  /\ get_course_by_code courses (PyStr.lower code) = get_course_by_code courses code
  /\ get_course_by_code courses (PyStr.upper code) = get_course_by_code courses code.
Proof.
  split; [|split; [|split]].
  - intros c Hc. unfold get_course_by_code in Hc.
    apply find_first in Hc as (pre & post & -> & Heq & Hpre).
    exists pre, post. split; [reflexivity|]. split; [now apply String.eqb_eq|].
    intros x Hx. apply String.eqb_neq. now apply Hpre.
  - split.
    + intros Hnone x Hx. unfold get_course_by_code in Hnone.
      apply String.eqb_neq. now apply (find_none _ _ Hnone).
    + apply CourseServiceFacts.get_course_by_code_absent.
  - unfold get_course_by_code. now rewrite upper_lower.
  - unfold get_course_by_code. now rewrite upper_upper.
Qed.

(** X2: the answer of [check_prerequisites_met] depends only on which codes
    are completed, not on their order or repetition, and it never turns from
    met to unmet when more courses are completed. *)
Theorem check_prerequisites_met_monotone
    (courses : list Course.t) (code : string) (completed completed' : list string) :
  ((forall p, In p completed -> In p completed') ->
   check_prerequisites_met courses code completed = true ->
   check_prerequisites_met courses code completed' = true)
  /\ ((forall p, In p completed <-> In p completed') ->
      check_prerequisites_met courses code completed'
      = check_prerequisites_met courses code completed).
Proof.
  split.
  - intros Hsub. rewrite !CourseServiceFacts.check_prerequisites_met_iff. auto.
  - intros Hsame. unfold check_prerequisites_met.
    apply CourseServiceFacts.forallb_agree. intros p _.
    destruct (PyStr.mem p completed) eqn:E.
    + apply mem_In. apply Hsame. now apply mem_In.
    + apply mem_false_In. intros H. apply Hsame in H. now apply mem_false_In in E.
Qed.

End CatalogLookupFacts.

Module StableSortFacts.

Section Stable.

Context {A : Type} (gt : A -> A -> bool) (P : A -> bool).
Hypothesis gt_separates : forall x y, gt y x = true -> P x = true -> P y = false.

Lemma insert_desc_filter (x : A) (l : list A) :
  List.filter P (insert_desc gt x l) = List.filter P (x :: l).
Proof.
  induction l as [|y l IH]; [reflexivity|].
  cbn [insert_desc]. destruct (gt y x) eqn:Hyx; [|reflexivity].
  cbn [List.filter] in *. rewrite IH.
  destruct (P x) eqn:Hx; [|reflexivity].
  now rewrite (gt_separates x y Hyx Hx).
Qed.

(** The sort is stable: the elements of one key class keep their order. *)
Lemma sort_desc_filter (l : list A) :
  List.filter P (sort_desc gt l) = List.filter P l.
Proof.
  unfold sort_desc. induction l as [|x l IH]; [reflexivity|].
  cbn [foldr]. rewrite insert_desc_filter. cbn [List.filter]. now rewrite IH.
Qed.

End Stable.

Lemma filter_take_prefix {A : Type} (P : A -> bool) (n : nat) (l : list A) :
  List.filter P (take n l) `prefix_of` List.filter P l.
Proof.
  exists (List.filter P (drop n l)).
  now rewrite <- List.filter_app, take_drop.
Qed.

Lemma In_take {A : Type} (n : nat) (l : list A) (x : A) : In x (take n l) -> In x l.
Proof.
  intros H. rewrite <- (take_drop n l). apply in_or_app. now left.
Qed.

End StableSortFacts.

Module KeywordSearchFacts.

Import Spec Terms Samples CourseService PyStrFacts.

(** X3: the keyword index holds, for each of the five subjects with at least
    one tagged course, exactly the catalog's courses that carry a tag from
    the subject's keyword list, in catalog order.  No bucket is empty, and
    nothing but a subject name is a key. *)
Theorem keyword_index_buckets (courses : list Course.t) (s : string) :
  (forall bucket, _build_keyword_index courses !! s = Some bucket ->
     exists keywords,
       assoc s subject_keywords = Some keywords
       /\ bucket = List.filter (tagged keywords) courses
       /\ bucket <> [])
  /\ (forall keywords c,
        assoc s subject_keywords = Some keywords ->
        In c courses -> tagged keywords c = true ->
        exists bucket, _build_keyword_index courses !! s = Some bucket /\ In c bucket)
  /\ (_build_keyword_index courses !! s = None
      <-> forall keywords, assoc s subject_keywords = Some keywords ->
            forall c, In c courses -> tagged keywords c = false).
Proof.
  rewrite SearchFacts.build_keyword_index_lookup.
  destruct (assoc s subject_keywords) as [keywords|].
  - destruct (List.filter (tagged keywords) courses) as [|b bs] eqn:Hb.
    + split; [discriminate|]. split.
      * intros kws c [= <-] Hc Htag.
        assert (Hin : In c (List.filter (tagged keywords) courses))
          by (apply filter_In; auto).
        rewrite Hb in Hin. destruct Hin.
      * split; [|reflexivity]. intros _ kws [= <-] c Hc.
        destruct (tagged keywords c) eqn:Htag; [|reflexivity].
        assert (Hin : In c (List.filter (tagged keywords) courses))
          by (apply filter_In; auto).
        rewrite Hb in Hin. destruct Hin.
    + split; [|split].
      * intros bucket [= <-]. exists keywords.
        split; [reflexivity|]. split; [now rewrite Hb | discriminate].
      * intros kws c [= <-] Hc Htag. eexists. split; [reflexivity|].
        rewrite <- Hb. apply filter_In. auto.
      * split; [discriminate|]. intros Hnone. exfalso.
        assert (Hin : In b (List.filter (tagged keywords) courses))
          by (rewrite Hb; now left).
        apply filter_In in Hin as [Hin Htag].
        rewrite (Hnone keywords eq_refl b Hin) in Htag. discriminate.
  - split; [discriminate|]. split; [discriminate|]. split; [discriminate | reflexivity].
Qed.

Lemma relevance_gt_asym (k : string) (x y : Course.t) :
  relevance_gt k x y = true -> relevance_gt k y x = false.
Proof.
  unfold relevance_gt.
  destruct (PyStr.contains k (PyStr.lower (Course.name x))),
           (PyStr.contains k (PyStr.lower (Course.get_description x))),
           (PyStr.contains k (PyStr.lower (Course.name y))),
           (PyStr.contains k (PyStr.lower (Course.get_description y)));
    simpl; congruence.
Qed.

Lemma relevance_ge_trans (k : string) (x y z : Course.t) :
  relevance_gt k y x = false -> relevance_gt k z y = false -> relevance_gt k z x = false.
Proof.
  unfold relevance_gt.
  destruct (PyStr.contains k (PyStr.lower (Course.name x))),
           (PyStr.contains k (PyStr.lower (Course.get_description x))),
           (PyStr.contains k (PyStr.lower (Course.name y))),
           (PyStr.contains k (PyStr.lower (Course.get_description y))),
           (PyStr.contains k (PyStr.lower (Course.name z))),
           (PyStr.contains k (PyStr.lower (Course.get_description z)));
    simpl; congruence.
Qed.

Lemma relevance_gt_key (k : string) (x y : Course.t) :
  relevance_gt k y x = true -> relevance_key k x <> relevance_key k y.
Proof.
  unfold relevance_gt, relevance_key.
  destruct (PyStr.contains k (PyStr.lower (Course.name x))),
           (PyStr.contains k (PyStr.lower (Course.get_description x))),
           (PyStr.contains k (PyStr.lower (Course.name y))),
           (PyStr.contains k (PyStr.lower (Course.get_description y)));
    simpl; congruence.
Qed.

(** X4: when the normalised keyword has no bucket in the index, the search
    answers from the catalog's courses whose name, description or some tag
    contains the keyword: it returns [min 10 m] of the [m] such courses (all
    of them, in some order, when there are at most 10); a course whose name
    contains the keyword is never listed after one whose name does not, and
    among courses that agree on the name, one whose description contains it
    is never listed after one whose description does not; courses with the
    same two answers keep their catalog order. *)
Theorem search_by_keyword_fuzzy_tier (courses : list Course.t) (keyword : string) :
  _build_keyword_index courses !! PyStr.lower keyword = None ->
  let k := PyStr.lower keyword in
  let matches := List.filter (fuzzy_match k) courses in
  let results := search_by_keyword courses keyword in
  (forall c, In c results -> In c courses /\ fuzzy_match k c = true)
  /\ length results = Nat.min 10 (length matches)
  /\ ((length matches <= 10)%nat -> results ≡ₚ matches)
  /\ (forall pre x mid y post, results = pre ++ x :: mid ++ y :: post ->
        (PyStr.contains k (PyStr.lower (Course.name y)) = true ->
         PyStr.contains k (PyStr.lower (Course.name x)) = true)
        /\ (PyStr.contains k (PyStr.lower (Course.name x))
            = PyStr.contains k (PyStr.lower (Course.name y)) ->
            PyStr.contains k (PyStr.lower (Course.get_description y)) = true ->
            PyStr.contains k (PyStr.lower (Course.get_description x)) = true))
  /\ (forall key,
        List.filter (has_relevance_key k key) results
        `prefix_of` List.filter (has_relevance_key k key) matches).
Proof.
  intros Hnone k matches results.
  assert (Hres : results = take 10 (sort_desc (relevance_gt k) matches)).
  { subst results matches k. unfold search_by_keyword. now rewrite Hnone. }
  assert (Hperm : sort_desc (relevance_gt k) matches ≡ₚ matches)
    by apply PlanFacts.sort_desc_perm.
  split; [|split; [|split; [|split]]].
  - intros c Hc. rewrite Hres in Hc.
    apply StableSortFacts.In_take in Hc.
    apply (Permutation_in _ Hperm), filter_In in Hc. exact Hc.
  - rewrite Hres, length_take, (Permutation_length Hperm). reflexivity.
  - intros Hle. rewrite Hres, take_ge; [exact Hperm|].
    now rewrite (Permutation_length Hperm).
  - intros pre x mid y post Hsplit.
    assert (Hs : StronglySorted (fun a b => relevance_gt k b a = false) results).
    { rewrite Hres. apply SortFacts.sorted_take.
      apply SortFacts.sort_desc_sorted;
        [apply relevance_gt_asym | apply relevance_ge_trans]. }
    pose proof (SortFacts.sorted_in_order _ _ _ _ _ _ _ Hs Hsplit) as Hyx.
    revert Hyx. unfold relevance_gt.
    destruct (PyStr.contains k (PyStr.lower (Course.name x))),
             (PyStr.contains k (PyStr.lower (Course.get_description x))),
             (PyStr.contains k (PyStr.lower (Course.name y))),
             (PyStr.contains k (PyStr.lower (Course.get_description y)));
      simpl; intros; split; congruence.
  - intros key.
    assert (Hsep : forall x y, relevance_gt k y x = true ->
                     has_relevance_key k key x = true -> has_relevance_key k key y = false).
    { intros x y Hgt Hx. apply relevance_gt_key in Hgt. unfold has_relevance_key in *.
      apply bool_decide_eq_true in Hx. apply bool_decide_eq_false. congruence. }
    rewrite Hres, <- (StableSortFacts.sort_desc_filter _ _ Hsep matches).
    apply StableSortFacts.filter_take_prefix.
Qed.

Lemma search_by_keyword_fuzzy_tier_witness :
  CourseService._build_keyword_index sample_catalog !! PyStr.lower "Econ" = None
  /\ map Course.code (search_by_keyword sample_catalog "Econ")
     = ["ECO205"; "ECO214"; "ECO305"; "MTH212"; "ECO213"]
  /\ length (search_by_keyword sample_catalog "Econ")
     = Nat.min 10 (length (List.filter (fuzzy_match (PyStr.lower "Econ")) sample_catalog)).
Proof.
  assert (Hnone : CourseService._build_keyword_index sample_catalog !! PyStr.lower "Econ"
                  = None)
    by (rewrite SearchFacts.build_keyword_index_lookup; reflexivity).
  split; [exact Hnone|]. split; [reflexivity|].
  apply (search_by_keyword_fuzzy_tier sample_catalog "Econ" Hnone).
Defined.

End KeywordSearchFacts.

(* ===================================================================== *)
(** * Further properties of the planning engine *)
(* ===================================================================== *)

Module CandidateFacts.

Import Spec Terms Samples PlanningService PyStrFacts.

#[local] Open Scope Z_scope.

Lemma priority_gt_asym (core : list string) (x y : Course.t) :
  priority_gt core x y = true -> priority_gt core y x = false.
Proof.
  unfold priority_gt.
  destruct (PyStr.mem (Course.code x) core), (PyStr.mem (Course.code y) core); simpl;
    try congruence;
    repeat match goal with |- context [?a >? ?b] => destruct (Z.gtb_spec a b) end;
    try congruence; lia.
Qed.

Lemma priority_ge_trans (core : list string) (x y z : Course.t) :
  priority_gt core y x = false -> priority_gt core z y = false ->
  priority_gt core z x = false.
Proof.
  unfold priority_gt.
  destruct (PyStr.mem (Course.code x) core), (PyStr.mem (Course.code y) core),
           (PyStr.mem (Course.code z) core); simpl;
    try congruence;
    repeat match goal with |- context [?a >? ?b] => destruct (Z.gtb_spec a b) end;
    try congruence; lia.
Qed.

(** What makes a course a candidate. *)
Lemma get_recommended_courses_iff (courses : list Course.t)
    (specialization academic_year semester : string) (completed : list string)
    (c : Course.t) :
  In c (_get_recommended_courses courses specialization academic_year semester completed)
  <-> (exists code,
         In code (core_sequence_of specialization ++ electives_of specialization)
         /\ CourseService.get_course_by_code courses code = Some c)
      /\ (Course.get_semester c = 0
          \/ Course.get_semester c
             = if String.eqb (PyStr.lower semester) "fall" then 1 else 2)
      /\ CourseService.check_prerequisites_met courses (Course.code c) completed = true.
Proof.
  unfold _get_recommended_courses. split.
  - intros H. apply (Permutation_in _ (PlanFacts.sort_desc_perm _ _)) in H.
    apply filter_In in H as [H Hok].
    apply PlanFacts.omap_In in H. split; [exact H|].
    apply andb_true_iff in Hok as [Hsem Hpre]. split; [|exact Hpre].
    apply orb_true_iff in Hsem as [Hsem | Hsem]; apply Z.eqb_eq in Hsem; auto.
  - intros ((code & Hcode & Hget) & Hsem & Hpre).
    apply (Permutation_in _ (Permutation_sym (PlanFacts.sort_desc_perm _ _))).
    apply filter_In. split.
    + apply list_elem_of_In, list_elem_of_omap. exists code.
      split; [now apply list_elem_of_In | exact Hget].
    + apply andb_true_iff. split; [|exact Hpre].
      apply orb_true_iff. destruct Hsem as [Hsem | Hsem]; [left | right];
        now apply Z.eqb_eq.
Qed.

(** X5: the candidates of a plan are exactly the catalog courses that a code
    of the specialization's path (core sequence, then electives) resolves to,
    that are offered in every semester (0) or in the target one (1 for fall,
    2 otherwise), and whose direct prerequisites are completed.  They are
    listed core courses first; within the core courses and within the
    electives the credits never decrease down the list. *)
Theorem get_recommended_courses_spec (courses : list Course.t)
    (specialization academic_year semester : string) (completed : list string) :
  let core := core_sequence_of specialization in
  let target := if String.eqb (PyStr.lower semester) "fall" then 1 else 2 in
  let recommended :=
    _get_recommended_courses courses specialization academic_year semester completed in
  (forall c, In c recommended <->
     (exists code, In code (core ++ electives_of specialization)
                   /\ CourseService.get_course_by_code courses code = Some c)
     /\ (Course.get_semester c = 0 \/ Course.get_semester c = target)
     /\ CourseService.check_prerequisites_met courses (Course.code c) completed = true)
  /\ (forall pre x mid y post, recommended = pre ++ x :: mid ++ y :: post ->
        (PyStr.mem (Course.code y) core = true -> PyStr.mem (Course.code x) core = true)
        /\ (PyStr.mem (Course.code x) core = PyStr.mem (Course.code y) core ->
            Course.get_credits x <= Course.get_credits y)).
Proof.
  intros core target recommended. split.
  - intros c. apply get_recommended_courses_iff.
  - intros pre x mid y post Hsplit.
    assert (Hs : StronglySorted (fun a b => priority_gt core b a = false) recommended).
    { apply SortFacts.sort_desc_sorted;
        [apply priority_gt_asym | apply priority_ge_trans]. }
    pose proof (SortFacts.sorted_in_order _ _ _ _ _ _ _ Hs Hsplit) as Hyx.
    revert Hyx. unfold priority_gt.
    destruct (PyStr.mem (Course.code x) core), (PyStr.mem (Course.code y) core); simpl;
      destruct (Z.gtb_spec (- Course.get_credits y) (- Course.get_credits x));
      intros; split; intros; try congruence; lia.
Qed.

End CandidateFacts.

Module SelectionFacts.

Import Spec Terms Samples PlanningService PyStrFacts.

#[local] Open Scope Z_scope.

Section Selection.

Variable completed_courses : list string.

(** Selected credits and remaining credits add up to the budget. *)
Lemma first_pass_sum (available : Z) (st : list Course.t * Z) (course : Course.t) :
  selected_credits (fst st) + snd st = available ->
  selected_credits (fst (first_pass completed_courses st course))
  + snd (first_pass completed_courses st course) = available.
Proof.
  destruct st as [sel rem]. unfold first_pass. simpl.
  repeat match goal with |- context [if ?b then _ else _] => destruct b end; simpl; auto.
  rewrite FilterFacts.selected_credits_snoc. lia.
Qed.

Lemma fold_first_pass_sum (available : Z) (l : list Course.t) (st : list Course.t * Z) :
  selected_credits (fst st) + snd st = available ->
  selected_credits (fst (fold_left (first_pass completed_courses) l st))
  + snd (fold_left (first_pass completed_courses) l st) = available.
Proof.
  revert st. induction l as [|c l IH]; intros st H; simpl; [assumption|].
  apply IH. now apply first_pass_sum.
Qed.

(** Nothing completed is ever selected. *)
Lemma first_pass_not_completed (st : list Course.t * Z) (course : Course.t) :
  Forall (fun c => PyStr.mem (Course.code c) completed_courses = false) (fst st) ->
  Forall (fun c => PyStr.mem (Course.code c) completed_courses = false)
         (fst (first_pass completed_courses st course)).
Proof.
  destruct st as [sel rem]. unfold first_pass. simpl. intros H.
  destruct (PyStr.mem (Course.code course) completed_courses) eqn:Hc; simpl; [assumption|].
  repeat match goal with |- context [if ?b then _ else _] => destruct b end; simpl; auto.
  apply Forall_app. split; [assumption|]. now repeat constructor.
Qed.

Lemma fold_first_pass_not_completed (l : list Course.t) (st : list Course.t * Z) :
  Forall (fun c => PyStr.mem (Course.code c) completed_courses = false) (fst st) ->
  Forall (fun c => PyStr.mem (Course.code c) completed_courses = false)
         (fst (fold_left (first_pass completed_courses) l st)).
Proof.
  revert st. induction l as [|x l IH]; intros st H; simpl; [assumption|].
  apply IH. now apply first_pass_not_completed.
Qed.

Lemma second_pass_not_completed (l : list Course.t) (st : list Course.t * Z) :
  Forall (fun c => PyStr.mem (Course.code c) completed_courses = false) (fst st) ->
  Forall (fun c => PyStr.mem (Course.code c) completed_courses = false)
         (fst (second_pass completed_courses l st)).
Proof.
  revert st. induction l as [|x l IH]; intros st H; simpl; [assumption|].
  destruct st as [sel rem].
  destruct (PyStr.mem (Course.code x) completed_courses) eqn:Hc; simpl; [now apply IH|].
  assert (Forall (fun c => PyStr.mem (Course.code c) completed_courses = false) (sel ++ [x])).
  { apply Forall_app. split; [assumption|]. now repeat constructor. }
  repeat match goal with |- context [if ?b then _ else _] => destruct b end;
    simpl; try assumption; now apply IH.
Qed.

Lemma filter_courses_not_completed (recommended : list Course.t) (available : Z)
    (c : Course.t) :
  In c (_filter_courses recommended completed_courses available) ->
  PyStr.mem (Course.code c) completed_courses = false.
Proof.
  unfold _filter_courses. set (st1 := fold_left _ _ _).
  assert (H1 : Forall (fun c => PyStr.mem (Course.code c) completed_courses = false)
                 (fst st1)).
  { apply fold_first_pass_not_completed. constructor. }
  intros Hin.
  assert (H2 : Forall (fun c => PyStr.mem (Course.code c) completed_courses = false)
                 (fst (if snd st1 >=? 5
                       then second_pass completed_courses recommended st1 else st1))).
  { destruct (snd st1 >=? 5); [now apply second_pass_not_completed | assumption]. }
  rewrite Forall_forall in H2. apply H2. now apply list_elem_of_In.
Qed.

(** A course is settled in a state when it cannot be selected any more:
    it is completed, its code is selected, or it costs more than remains. *)
Lemma settled_first_pass (st : list Course.t * Z) (course c : Course.t) :
  0 <= Course.get_credits course ->
  settled completed_courses st c = true ->
  settled completed_courses (first_pass completed_courses st course) c = true.
Proof.
  intros Hpos. destruct st as [sel rem]. unfold first_pass, settled. simpl.
  destruct (PyStr.mem (Course.code c) completed_courses); simpl; [reflexivity|].
  repeat match goal with |- context [if ?b then _ else _] => destruct b eqn:? end;
    simpl; auto.
  intros H. apply orb_true_iff in H as [H | H]; apply orb_true_iff.
  - left. now rewrite map_app, mem_app, H.
  - right. apply Z.ltb_lt in H. apply Z.ltb_lt. lia.
Qed.

Lemma first_pass_settles (st : list Course.t * Z) (course : Course.t) :
  settled completed_courses (first_pass completed_courses st course) course = true.
Proof.
  destruct st as [sel rem]. unfold first_pass, settled.
  destruct (PyStr.mem (Course.code course) completed_courses) eqn:Hc;
    simpl; [reflexivity|].
  destruct (PyStr.mem (Course.code course) (map Course.code sel)) eqn:Hs;
    simpl; [now rewrite Hs|].
  destruct (Z.leb_spec (Course.get_credits course) rem); simpl.
  - rewrite map_app, mem_app.
    replace (PyStr.mem (Course.code course) (map Course.code [course])) with true;
      [now rewrite orb_true_r|].
    symmetry. apply mem_In. now left.
  - rewrite Hs. simpl. now apply Z.ltb_lt.
Qed.

Lemma fold_first_pass_settled (l : list Course.t) (st : list Course.t * Z) (c : Course.t) :
  (forall x, In x l -> 0 <= Course.get_credits x) ->
  settled completed_courses st c = true \/ In c l ->
  settled completed_courses (fold_left (first_pass completed_courses) l st) c = true.
Proof.
  revert st. induction l as [|x l IH]; intros st Hpos H; simpl.
  - destruct H as [H | []]. exact H.
  - apply IH; [intros y Hy; apply Hpos; now right|].
    destruct H as [H | [<- | H]].
    + left. apply settled_first_pass; [apply Hpos; now left | exact H].
    + left. apply first_pass_settles.
    + now right.
Qed.

(** The second loop selects nothing when every course it visits is settled. *)
Lemma second_pass_settled (l : list Course.t) (st : list Course.t * Z) :
  (forall c, In c l -> settled completed_courses st c = true) ->
  second_pass completed_courses l st = st.
Proof.
  induction l as [|x l IH]; intros H; simpl; [reflexivity|].
  destruct st as [sel rem].
  assert (Hx : settled completed_courses (sel, rem) x = true) by (apply H; now left).
  unfold settled in Hx. simpl in Hx.
  destruct (PyStr.mem (Course.code x) completed_courses); simpl;
    [apply IH; intros c Hc; apply H; now right|].
  destruct (PyStr.mem (Course.code x) (map Course.code sel)); simpl;
    [apply IH; intros c Hc; apply H; now right|].
  simpl in Hx. apply Z.ltb_lt in Hx.
  destruct (Z.leb_spec (Course.get_credits x) rem); [lia|].
  apply IH. intros c Hc. apply H. now right.
Qed.

Lemma filter_courses_first_pass (recommended : list Course.t) (available : Z) :
  (forall c, In c recommended -> 0 <= Course.get_credits c) ->
  _filter_courses recommended completed_courses available
  = fst (fold_left (first_pass completed_courses) recommended ([], available)).
Proof.
  intros Hpos. unfold _filter_courses. set (st1 := fold_left _ _ _).
  destruct (snd st1 >=? 5); [|reflexivity].
  rewrite second_pass_settled; [reflexivity|].
  intros c Hc. apply fold_first_pass_settled; auto.
Qed.

Lemma fold_first_pass_sublist (l : list Course.t) (st : list Course.t * Z)
    (visited : list Course.t) :
  fst st `sublist_of` visited ->
  fst (fold_left (first_pass completed_courses) l st) `sublist_of` visited ++ l.
Proof.
  revert st visited. induction l as [|x l IH]; intros st visited H; simpl.
  - now rewrite app_nil_r.
  - replace (visited ++ x :: l) with ((visited ++ [x]) ++ l)
      by now rewrite <- app_assoc.
    apply IH. destruct st as [sel rem]. unfold first_pass. simpl in *.
    repeat match goal with |- context [if ?b then _ else _] => destruct b end; simpl.
    + now apply sublist_app.
    + now apply sublist_inserts_r.
    + now apply sublist_inserts_r.
Qed.

End Selection.

(** X6: when no candidate has negative credits, the second loop of
    [_filter_courses] never adds a course: the selection is what the first
    loop selected, and it is a subsequence of the candidates, in their
    priority order. *)
Theorem filter_courses_single_pass (recommended : list Course.t)
    (completed : list string) (available : Z) :
  (forall c, In c recommended -> 0 <= Course.get_credits c) ->
  _filter_courses recommended completed available
  = fst (fold_left (first_pass completed) recommended ([], available))
  /\ _filter_courses recommended completed available `sublist_of` recommended.
Proof.
  intros Hpos. split; [now apply filter_courses_first_pass|].
  rewrite filter_courses_first_pass by assumption.
  apply (fold_first_pass_sublist completed recommended ([], available) []).
  constructor.
Qed.

Lemma filter_courses_single_pass_witness :
  (forall c, In c sample_catalog -> 0 <= Course.get_credits c)
  /\ map Course.code (_filter_courses sample_catalog ["ECO205"] 40)
     = ["ECO214"; "FIN301"; "ECO305"; "MTH212"; "ECO213"]
  /\ _filter_courses sample_catalog ["ECO205"] 40 `sublist_of` sample_catalog.
Proof.
  assert (Hpos : forall c, In c sample_catalog -> 0 <= Course.get_credits c).
  { intros c Hc. simpl in Hc.
    repeat (destruct Hc as [<- | Hc]; [unfold Course.get_credits; simpl; lia|]).
    destruct Hc. }
  split; [exact Hpos|]. split; [reflexivity|].
  apply (filter_courses_single_pass sample_catalog ["ECO205"] 40 Hpos).
Defined.

(** The condition on the credits is needed: a candidate with negative
    credits raises the remaining budget, and the second loop then selects a
    course the first loop had to skip, out of the candidates' order. *)
Example negative_credits_second_pass :
  map Course.code
      (_filter_courses [ course "ECO301" "Topics" 10 [] [];
                         course "ECO999" "Refund" (-5) [] [] ] [] 5)
  = ["ECO999"; "ECO301"].
Proof. reflexivity. Qed.

(** X7: the selection is greedy.  Whatever the candidates and the budget,
    no selected course is a completed one.  And when no candidate has
    negative credits the selection cannot be extended: every candidate is
    completed, or has its code selected, or costs more credits than the
    budget leaves. *)
Theorem filter_courses_greedy (recommended : list Course.t)
    (completed : list string) (available : Z) :
  let selected := _filter_courses recommended completed available in
  (forall c, In c selected -> PyStr.mem (Course.code c) completed = false)
  /\ ((forall c, In c recommended -> 0 <= Course.get_credits c) ->
      forall c, In c recommended ->
        PyStr.mem (Course.code c) completed = true
        \/ In (Course.code c) (map Course.code selected)
        \/ available - selected_credits selected < Course.get_credits c).
Proof.
  intros selected. split.
  - intros c. apply filter_courses_not_completed.
  - intros Hpos c Hc.
    pose proof (fold_first_pass_settled completed recommended ([], available) c Hpos
                  (or_intror Hc)) as Hsettled.
    pose proof (fold_first_pass_sum completed available recommended ([], available)
                  ltac:(simpl; unfold selected_credits; simpl; lia)) as Hsum.
    subst selected. rewrite filter_courses_first_pass by assumption.
    destruct (fold_left (first_pass completed) recommended ([], available)) as [sel rem].
    unfold settled in Hsettled. simpl in *.
    apply orb_true_iff in Hsettled as [Hsettled | Hlt].
    + apply orb_true_iff in Hsettled as [Hdone | Hsel]; [now left|].
      right. left. now apply mem_In.
    + right. right. apply Z.ltb_lt in Hlt. lia.
Qed.

Lemma filter_courses_greedy_witness :
  (forall c, In c sample_catalog -> 0 <= Course.get_credits c)
  /\ map Course.code (_filter_courses sample_catalog ["ECO205"] 12) = ["ECO214"; "FIN301"]
  /\ (forall c, In c (_filter_courses sample_catalog ["ECO205"] 12) ->
        PyStr.mem (Course.code c) ["ECO205"] = false)
  /\ forall c, In c sample_catalog ->
       PyStr.mem (Course.code c) ["ECO205"] = true
       \/ In (Course.code c) (map Course.code (_filter_courses sample_catalog ["ECO205"] 12))
       \/ 12 - selected_credits (_filter_courses sample_catalog ["ECO205"] 12)
          < Course.get_credits c.
Proof.
  assert (Hpos : forall c, In c sample_catalog -> 0 <= Course.get_credits c).
  { intros c Hc. simpl in Hc.
    repeat (destruct Hc as [<- | Hc]; [unfold Course.get_credits; simpl; lia|]).
    destruct Hc. }
  split; [exact Hpos|]. split; [reflexivity|].
  split.
  - apply (proj1 (filter_courses_greedy sample_catalog ["ECO205"] 12)).
  - apply (proj2 (filter_courses_greedy sample_catalog ["ECO205"] 12) Hpos).
Defined.

End SelectionFacts.

Module GapFacts.

Import Spec Terms Samples PlanningService PyStrFacts.

(** X8: [_identify_gaps] reports at most three gaps: one message when a
    core course of the path is neither completed nor selected, and, for the
    quantitative_finance path only, one when no selected course is tagged
    stat or math and one when none is tagged fin.  It reports nothing
    exactly when no core course is missing and, on the quantitative_finance
    path, both kinds of course are selected; for a specialization without a
    path it reports nothing at all. *)
Theorem identify_gaps_cases (selected : list Course.t) (specialization : string)
    (completed : list string) :
  let gaps := _identify_gaps selected specialization completed in
  let missing := missing_cores selected specialization completed in
  (length gaps <= 3)%nat
  /\ (gaps = [] <->
      missing = []
      /\ (specialization = "quantitative_finance" ->
          has_quantitative selected = true /\ has_finance selected = true))
  /\ (specialization <> "quantitative_finance" ->
      gaps = match missing with
             | [] => []
             | _ => [ "Missing core courses: " +:+ PyStr.join ", " (take 2 missing)
                      +:+ (if (2 <? length missing)%nat then " and others" else EmptyString) ]
             end)
  /\ (assoc specialization SPECIALIZATION_PATHS = None -> gaps = [])
  /\ ((forall code, In code (core_sequence_of specialization) ->
         In code completed \/ In code (map Course.code selected)) <-> missing = []).
Proof.
  intros gaps missing. subst gaps.
  unfold _identify_gaps. fold (missing_cores selected specialization completed).
  fold missing. fold (has_quantitative selected). fold (has_finance selected).
  split; [|split; [|split; [|split]]].
  - destruct missing, (String.eqb specialization "quantitative_finance"),
      (has_quantitative selected), (has_finance selected); simpl; lia.
  - destruct (String.eqb_spec specialization "quantitative_finance") as [Hq | Hq].
    + destruct missing, (has_quantitative selected), (has_finance selected); simpl;
        split; try discriminate; try tauto;
        intros [H1 H2]; try discriminate; destruct (H2 Hq); discriminate.
    + destruct missing; simpl; split; try discriminate; try tauto.
      intros [H _]. discriminate.
  - intros Hq. apply String.eqb_neq in Hq. rewrite Hq. reflexivity.
  - intros Hnone.
    assert (Hcore : core_sequence_of specialization = [])
      by (unfold core_sequence_of; now rewrite Hnone).
    assert (Hmissing : missing = [])
      by (subst missing; unfold missing_cores; now rewrite Hcore).
    rewrite Hmissing.
    destruct (String.eqb_spec specialization "quantitative_finance") as [-> | _];
      [discriminate Hnone | reflexivity].
  - subst missing. unfold missing_cores. split.
    + intros Hall.
      destruct (List.filter _ (core_sequence_of specialization)) as [|m ms] eqn:Hm;
        [reflexivity|].
      assert (Hin : In m (m :: ms)) by now left.
      rewrite <- Hm in Hin. apply filter_In in Hin as [Hin Hcond].
      apply andb_true_iff in Hcond as [H1 H2].
      apply negb_true_iff in H1, H2.
      destruct (Hall m Hin) as [H | H]; apply mem_In in H; congruence.
    + intros Hnil code Hcode.
      destruct (PyStr.mem code completed) eqn:H1; [left; now apply mem_In|].
      destruct (PyStr.mem code (map Course.code selected)) eqn:H2;
        [right; now apply mem_In|].
      assert (Hin : In code (List.filter
                 (fun c => negb (PyStr.mem c completed)
                           && negb (PyStr.mem c (map Course.code selected)))
                 (core_sequence_of specialization))).
      { apply filter_In. split; [assumption|]. now rewrite H1, H2. }
      rewrite Hnil in Hin. destruct Hin.
Qed.

End GapFacts.

Module PlanOutcomeFacts.

Import Spec Terms Samples PlanningService PyStrFacts DivisionFacts.

#[local] Open Scope Z_scope.

Section Service.

Variable courses : list Course.t.
Variable academic_calendar : list (string * list (string * list (string * string))).

(** The fields of a plan of the [try] block that say where it came from. *)
Lemma generate_semester_plan_try_origin (user_context : Ctx.t) (plan : Plan.t) :
  generate_semester_plan_try courses academic_calendar user_context = Ok plan ->
  Plan.specialization plan
  = _determine_specialization (default EmptyString (Ctx.target_program user_context))
      (Ctx.get_completed_courses user_context)
  /\ Plan.note plan = None
  /\ Plan.calendar_dates plan
     = Some (default [] (assoc (Ctx.get_current_semester user_context)
                           (default [] (assoc (Ctx.get_academic_year user_context)
                                          academic_calendar))))
  /\ Plan.gap_analysis plan
     = _identify_gaps (Plan.courses plan) (Plan.specialization plan)
         (Ctx.get_completed_courses user_context).
Proof.
  unfold generate_semester_plan_try. cbv zeta.
  destruct (_assess_workload _ user_context) as [level|e]; cbn [bind]; [|discriminate].
  destruct (_calculate_career_alignment _ _ _) as [alignment|e]; cbn [bind];
    [|discriminate].
  intros [= <-]. simpl. repeat split.
Qed.

(** The plan is the default plan exactly when the [try] block raises. *)
Lemma generate_semester_plan_default_iff (user_context : Ctx.t) :
  generate_semester_plan courses academic_calendar user_context
  = _get_default_plan user_context
  <-> exists e, generate_semester_plan_try courses academic_calendar user_context = Raise e.
Proof.
  destruct (generate_semester_plan_try courses academic_calendar user_context)
    as [p|e] eqn:Htry.
  - rewrite (PlanFacts.generate_semester_plan_Ok _ _ _ _ Htry).
    destruct (generate_semester_plan_try_origin _ _ Htry) as (_ & Hnote & _).
    split.
    + intros Hdefault. rewrite Hdefault in Hnote. discriminate.
    + intros [e H]. discriminate.
  - rewrite (PlanFacts.generate_semester_plan_Raise _ _ _ _ Htry). split; eauto.
Qed.

End Service.

(** X9: [generate_semester_plan] returns the default plan exactly when the
    workload assessment of the selected courses raises, which it does when
    the text of the academic year before its first hyphen is empty
    ([IndexError]) or when one of its two quotients, the total of the credits
    by the credit limit or the total of the difficulty levels by the number
    of courses, is too large for a float ([OverflowError]).  With text before
    the hyphen and both totals below [2^1023] in magnitude the plan is not
    the default plan.  A plan other than the default plan carries no note
    and is for one of the three specialization paths. *)
Theorem default_plan_iff
    (courses : list Course.t)
    (academic_calendar : list (string * list (string * list (string * string))))
    (user_context : Ctx.t) :
  let plan := generate_semester_plan courses academic_calendar user_context in
  let completed := Ctx.get_completed_courses user_context in
  let specialization :=
    _determine_specialization (default EmptyString (Ctx.target_program user_context))
      completed in
  let selected :=
    _filter_courses
      (_get_recommended_courses courses specialization
         (Ctx.get_academic_year user_context) (Ctx.get_current_semester user_context)
         completed)
      completed (Ctx.get_available_credits user_context) in
  let segment := PyStr.before "-"%char (Ctx.get_academic_year user_context) in
  (plan = _get_default_plan user_context
   <-> exists e, _assess_workload selected user_context = Raise e)
  /\ ((exists e, _assess_workload selected user_context = Raise e)
      <-> segment = EmptyString
          \/ exists digit,
               PyStr.last segment = Some digit
               /\ ((exists e, truediv (sum_Z (map Course.get_credits selected))
                                      (specified_credit_limit digit) = Raise e)
                   \/ (exists e, truediv (sum_Z (map Course.get_difficulty_level selected))
                                         (Z.max (Z.of_nat (length selected)) 1)
                                 = Raise e)))
  /\ (forall e, _assess_workload selected user_context = Raise e ->
        (segment = EmptyString /\ e = mkExn IndexError "string index out of range")
        \/ (segment <> EmptyString
            /\ e = mkExn OverflowError "integer division result too large for a float"))
  /\ (segment <> EmptyString ->
      safe_total (sum_Z (map Course.get_credits selected)) ->
      safe_total (sum_Z (map Course.get_difficulty_level selected)) ->
      plan <> _get_default_plan user_context)
  /\ (plan <> _get_default_plan user_context <-> Plan.note plan = None)
  /\ (plan <> _get_default_plan user_context ->
      In (Plan.specialization plan)
         ["quantitative_finance"; "policy_analysis"; "sustainable_finance"]).
Proof.
  intros plan completed specialization selected segment.
  destruct (PlanFacts.generate_semester_plan_try_cases courses academic_calendar
              user_context) as [Hsome Hfail].
  cbv zeta in Hsome, Hfail. fold completed specialization selected in Hsome, Hfail.
  assert (Hdefault : plan = _get_default_plan user_context
                     <-> exists e, _assess_workload selected user_context = Raise e).
  { subst plan. rewrite generate_semester_plan_default_iff.
    destruct (_assess_workload selected user_context) as [level|e] eqn:Hlevel.
    - destruct (Hsome level eq_refl) as [p Hp]. rewrite Hp.
      split; intros [e H]; discriminate.
    - rewrite (Hfail e eq_refl). split; eauto. }
  split; [exact Hdefault|].
  split; [apply WorkloadFacts.assess_workload_fails_iff|].
  split; [|split; [|split]].
  - intros e Hraise.
    destruct (PyStr.last segment) as [digit|] eqn:Hlast.
    + right. split; [intros Hempty; rewrite Hempty in Hlast; discriminate|].
      rewrite (WorkloadFacts.assess_workload_unfold _ _ _ Hlast) in Hraise.
      assert (Hlimit : specified_credit_limit digit <> 0).
      { destruct (WorkloadFacts.specified_credit_limit_values digit) as [-> | ->];
          discriminate. }
      destruct (truediv _ (specified_credit_limit digit)) as [ratio|e1] eqn:Hratio;
        cbn [bind] in Hraise.
      * destruct (truediv _ (Z.max _ 1)) as [difficulty|e2] eqn:Hdiff;
          cbn [bind] in Hraise; [discriminate|].
        injection Hraise as <-.
        apply (truediv_Raise _ _ _ Hdiff). lia.
      * injection Hraise as <-. now apply (truediv_Raise _ _ _ Hratio).
    + left. apply WorkloadFacts.last_None in Hlast. split; [exact Hlast|].
      rewrite (WorkloadFacts.assess_workload_raises _ _ Hlast) in Hraise.
      now injection Hraise as <-.
  - intros Hfull Hcredits Hdifficulty Hplan.
    apply Hdefault in Hplan as [e Hraise].
    destruct (PyStr.last segment) as [digit|] eqn:Hlast.
    + destruct (WorkloadFacts.assess_workload_returns _ _ _ Hlast Hcredits Hdifficulty)
        as (ratio & difficulty & _ & _ & Hlevel).
      rewrite Hlevel in Hraise. discriminate.
    + now apply WorkloadFacts.last_None in Hlast.
  - subst plan.
    destruct (generate_semester_plan_try courses academic_calendar user_context)
      as [p|e] eqn:Htry.
    + rewrite (PlanFacts.generate_semester_plan_Ok _ _ _ _ Htry).
      destruct (generate_semester_plan_try_origin _ _ _ _ Htry) as (_ & Hnote & _).
      split; [intros _; exact Hnote|].
      intros _ Heq. rewrite Heq in Hnote. discriminate.
    + rewrite (PlanFacts.generate_semester_plan_Raise _ _ _ _ Htry).
      split; [intros H; now contradiction H | discriminate].
  - subst plan. intros Hplan.
    destruct (generate_semester_plan_try courses academic_calendar user_context)
      as [p|e] eqn:Htry.
    + rewrite (PlanFacts.generate_semester_plan_Ok _ _ _ _ Htry).
      destruct (generate_semester_plan_try_origin _ _ _ _ Htry) as (-> & _).
      apply SpecializationFacts.determine_specialization_range.
    + contradiction Hplan. now apply (PlanFacts.generate_semester_plan_Raise _ _ _ _ Htry).
Qed.

(** A selection whose credits are too many for a float: the academic year
    parses, the division raises [OverflowError], and the default plan, with
    courses that are not in the catalog, is what is returned. *)
Example oversized_selection_default_plan :
  PyStr.before "-"%char (Ctx.get_academic_year unlimited_profile) = "2025"
  /\ generate_semester_plan_try [oversized_course] [] unlimited_profile
     = Raise (mkExn OverflowError "integer division result too large for a float")
  /\ generate_semester_plan [oversized_course] [] unlimited_profile
     = _get_default_plan unlimited_profile.
Proof.
  assert (H : generate_semester_plan_try [oversized_course] [] unlimited_profile
              = Raise (mkExn OverflowError
                         "integer division result too large for a float"))
    by (vm_compute; reflexivity).
  split; [reflexivity|]. split; [exact H|].
  unfold generate_semester_plan. now rewrite H.
Qed.

(** X10: when the generated plan is not the default plan, every course of
    the plan is a catalog course that a code of the plan's specialization
    path resolves to, is not among the completed courses, has all its direct
    prerequisites completed, and is offered in every semester or in the
    current one; the plan's gap analysis is computed from these very
    courses. *)
Theorem generated_plan_courses_eligible
    (courses : list Course.t)
    (academic_calendar : list (string * list (string * list (string * string))))
    (user_context : Ctx.t) :
  generate_semester_plan courses academic_calendar user_context
  <> _get_default_plan user_context ->
  let plan := generate_semester_plan courses academic_calendar user_context in
  let completed := Ctx.get_completed_courses user_context in
  let path :=
    core_sequence_of (Plan.specialization plan) ++ electives_of (Plan.specialization plan) in
  let target :=
    if String.eqb (PyStr.lower (Ctx.get_current_semester user_context)) "fall"
    then 1 else 2 in
  (forall c, In c (Plan.courses plan) ->
     In c courses
     /\ (exists code, In code path
                      /\ CourseService.get_course_by_code courses code = Some c)
     /\ PyStr.mem (Course.code c) completed = false
     /\ CourseService.check_prerequisites_met courses (Course.code c) completed = true
     /\ (Course.get_semester c = 0 \/ Course.get_semester c = target))
  /\ Plan.gap_analysis plan
     = _identify_gaps (Plan.courses plan) (Plan.specialization plan) completed.
Proof.
  intros Hplan plan completed path target.
  destruct (generate_semester_plan_try courses academic_calendar user_context)
    as [p|e] eqn:Hp;
    [|contradiction Hplan; now apply (PlanFacts.generate_semester_plan_Raise _ _ _ _ Hp)].
  assert (Hplan' : plan = p) by now apply PlanFacts.generate_semester_plan_Ok.
  destruct (generate_semester_plan_try_origin _ _ _ _ Hp) as (Hspec & _ & _ & Hgaps).
  apply PlanFacts.generate_semester_plan_try_Ok in Hp as (Hc & _). cbv zeta in Hc.
  subst path. rewrite Hplan'. split; [|exact Hgaps].
  intros c Hin. rewrite Hc in Hin.
  pose proof (SelectionFacts.filter_courses_not_completed _ _ _ _ Hin) as Hnew.
  apply FilterFacts.filter_courses_incl in Hin.
  pose proof (PlanFacts.get_recommended_courses_In _ _ _ _ _ _ Hin) as Hcat.
  apply CandidateFacts.get_recommended_courses_iff in Hin as (Hcode & Hsem & Hpre).
  rewrite Hspec. repeat split; assumption.
Qed.

Lemma generated_plan_courses_eligible_witness :
  generate_semester_plan sample_catalog [] sample_profile
  <> _get_default_plan sample_profile
  /\ map Course.code
       (Plan.courses (generate_semester_plan sample_catalog [] sample_profile))
     = ["ECO205"; "FIN301"; "ECO305"]
  /\ forall c,
       In c (Plan.courses (generate_semester_plan sample_catalog [] sample_profile)) ->
       In c sample_catalog
       /\ PyStr.mem (Course.code c) (Ctx.get_completed_courses sample_profile) = false.
Proof.
  assert (Hplan : generate_semester_plan sample_catalog [] sample_profile
                  <> _get_default_plan sample_profile).
  { intros H. apply (f_equal Plan.note) in H. vm_compute in H. discriminate. }
  split; [exact Hplan|]. split; [reflexivity|].
  intros c Hc.
  destruct (proj1 (generated_plan_courses_eligible sample_catalog [] sample_profile Hplan)
              c Hc) as (Hcat & _ & Hnew & _).
  split; [exact Hcat | exact Hnew].
Defined.

End PlanOutcomeFacts.

(* ===================================================================== *)
(** * Further properties of the dispatcher *)
(* ===================================================================== *)

Module SubjectFacts.

Import Spec Terms Samples AcademicDispatcher PyStrFacts.

Lemma append_assoc (a b c : string) : (a +:+ b) +:+ c = a +:+ (b +:+ c).
Proof.
  induction a as [|x a IH]; [reflexivity|]. rewrite !append_cons. now rewrite IH.
Qed.

Lemma occurs_trans (a b q : string) : occurs a b -> occurs b q -> occurs a q.
Proof.
  intros (x & y & ->) (u & v & ->). exists (u +:+ x), (y +:+ v).
  now rewrite !append_assoc.
Qed.

Lemma sublist_map_filter {A B : Type} (f : A -> B) (p : A -> bool) (l : list A) :
  map f (List.filter p l) `sublist_of` map f l.
Proof.
  induction l as [|x l IH]; simpl; [constructor|].
  destruct (p x); simpl; [now apply sublist_skip | now apply sublist_cons].
Qed.

Lemma SUBJECT_KEYWORDS_NoDup : NoDup (map fst SUBJECT_KEYWORDS).
Proof.
  apply NoDup_ListNoDup. simpl.
  repeat (constructor; [simpl; intuition discriminate|]). constructor.
Qed.

(** X11: the subjects extracted from a query are a subsequence of eco,
    stat, fin, sustain, math, so at most five, in that order and without
    repetition; a subject is extracted exactly when one of its trigger words
    occurs in the query as a substring.  Since the trigger "eco" occurs
    inside "econometrics", a query about econometrics is filed under both
    eco and stat. *)
Theorem extract_subject_keywords_spec (query : string) :
  let subjects := _extract_subject_keywords query in
  subjects `sublist_of` ["eco"; "stat"; "fin"; "sustain"; "math"]
  /\ NoDup subjects
  /\ (length subjects <= 5)%nat
  /\ (forall s, In s subjects <->
        exists keywords k,
          In (s, keywords) SUBJECT_KEYWORDS /\ In k keywords /\ occurs k query)
  /\ (occurs "econometrics" query -> In "eco" subjects /\ In "stat" subjects).
Proof.
  intros subjects.
  assert (Hsub : subjects `sublist_of` ["eco"; "stat"; "fin"; "sustain"; "math"]).
  { apply (sublist_map_filter fst _ SUBJECT_KEYWORDS). }
  assert (Hin : forall s, In s subjects <->
            exists keywords k,
              In (s, keywords) SUBJECT_KEYWORDS /\ In k keywords /\ occurs k query).
  { intros s. subst subjects. unfold _extract_subject_keywords.
    rewrite in_map_iff. split.
    - intros ([s' keywords] & <- & Hentry). apply filter_In in Hentry as [Hentry Htrig].
      apply IntentFacts.triggered_spec in Htrig as (k & Hk & Hocc).
      exists keywords, k. auto.
    - intros (keywords & k & Hentry & Hk & Hocc). exists (s, keywords).
      split; [reflexivity|]. apply filter_In. split; [assumption|].
      apply IntentFacts.triggered_spec. eauto. }
  split; [exact Hsub|]. split; [|split; [|split; [exact Hin|]]].
  - eapply sublist_NoDup; [|exact Hsub]. apply SUBJECT_KEYWORDS_NoDup.
  - apply sublist_length in Hsub. exact Hsub.
  - intros Hocc. split; apply Hin.
    + exists ["eco"; "economics"; "micro"; "macro"; "economic"; "econ"], "eco".
      split; [now left|]. split; [now left|].
      apply (occurs_trans _ "econometrics"); [|assumption].
      now exists EmptyString, "nometrics".
    + eexists _, "econometrics".
      split; [right; left; reflexivity|]. split; [right; now left | assumption].
Qed.

End SubjectFacts.

Module HandlerFacts.

Import Spec Terms Samples AcademicDispatcher PyStrFacts.

#[local] Open Scope Z_scope.

(** X12: the workload assessment depends on nothing but how many completed
    courses the profile lists (repetitions included), each counted as 5
    credits: the level is beginner below 12 courses, intermediate from 12 to
    23, and advanced from 24 on. *)
Theorem workload_assessment_levels (user_context : Ctx.t) :
  let n := Z.of_nat (length (Ctx.get_completed_courses user_context)) in
  let resp := _handle_workload_assessment user_context in
  assoc "type" resp = Some (VStr "workload_assessment")
  /\ assoc "total_completed_credits" resp = Some (VInt (5 * n))
  /\ assoc "workload_level" resp
     = Some (VStr (if n <? 12 then "beginner"
                   else if n <? 24 then "intermediate" else "advanced"))
  /\ (forall user_context',
        length (Ctx.get_completed_courses user_context')
        = length (Ctx.get_completed_courses user_context) ->
        _handle_workload_assessment user_context' = resp).
Proof.
  intros n resp. subst resp. unfold _handle_workload_assessment. fold n.
  assert (H60 : (5 * n <? 60) = (n <? 12)).
  { destruct (Z.ltb_spec (5 * n) 60), (Z.ltb_spec n 12); try reflexivity; lia. }
  assert (H120 : (5 * n <? 120) = (n <? 24)).
  { destruct (Z.ltb_spec (5 * n) 120), (Z.ltb_spec n 24); try reflexivity; lia. }
  rewrite H60, H120.
  split; [|split; [|split]].
  - destruct (n <? 12); [|destruct (n <? 24)]; reflexivity.
  - destruct (n <? 12); [|destruct (n <? 24)]; reflexivity.
  - destruct (n <? 12); [|destruct (n <? 24)]; reflexivity.
  - intros user_context' Hlen. subst n. rewrite Hlen, H60, H120. reflexivity.
Qed.

Section Catalog.

Variable courses : list Course.t.

Lemma concat_take_length {A : Type} (n : nat) (f : string -> list A) (l : list string) :
  (length (concat (map (fun s => take n (f s)) l)) <= n * length l)%nat.
Proof.
  induction l as [|s l IH]; simpl; [lia|].
  rewrite length_app, length_take. lia.
Qed.

(** X13: the prerequisite check looks at the first two search hits of each
    subject.  It reports all prerequisites satisfied exactly when every
    direct prerequisite of every such course is among the completed
    courses, which is exactly when its list of missing prerequisites is
    empty; each entry of that list names a course it looked at together
    with the prerequisites of that course which are not completed, at least
    one. *)
Theorem prerequisite_check_spec (subjects : list string) (user_context : Ctx.t) :
  let completed := Ctx.get_completed_courses user_context in
  let relevant :=
    concat (map (fun subject => take 2 (CourseService.search_by_keyword courses subject))
                subjects) in
  let resp := _handle_prerequisite_check courses subjects user_context in
  (length relevant <= 2 * length subjects)%nat
  /\ (assoc "all_prereqs_satisfied" resp = Some (VBool true)
      <-> forall c, In c relevant ->
            forall p, In p (default [] (Course.prerequisites c)) -> In p completed)
  /\ (assoc "all_prereqs_satisfied" resp = Some (VBool true)
      <-> assoc "missing_prerequisites" resp = Some (VList []))
  /\ (exists entries,
        assoc "missing_prerequisites" resp = Some (VList entries)
        /\ (length entries <= length relevant)%nat
        /\ forall entry, In entry entries ->
             exists c missing,
               In c relevant
               /\ entry = VDict [ ("course", VStr (Course.code c));
                                  ("missing_prerequisites", VStrs missing) ]
               /\ missing <> []
               /\ missing = List.filter (fun p => negb (PyStr.mem p completed))
                                        (default [] (Course.prerequisites c))).
Proof.
  intros completed relevant resp. subst resp.
  unfold _handle_prerequisite_check. fold completed. fold relevant.
  set (entry_of := fun course : Course.t => _).
  set (entries := omap entry_of relevant).
  cbn [assoc String.eqb Ascii.eqb Bool.eqb].
  assert (Hentry : forall c, entry_of c = None <->
            forall p, In p (default [] (Course.prerequisites c)) -> In p completed).
  { intros c. subst entry_of. cbv beta zeta.
    destruct (List.filter _ (default [] (Course.prerequisites c))) as [|m ms] eqn:Hm.
    - split; [|reflexivity]. intros _ p Hp.
      destruct (PyStr.mem p completed) eqn:Hmem; [now apply mem_In|].
      assert (Hin : In p (List.filter (fun p => negb (PyStr.mem p completed))
                            (default [] (Course.prerequisites c)))).
      { apply filter_In. split; [assumption|]. now rewrite Hmem. }
      rewrite Hm in Hin. destruct Hin.
    - split; [discriminate|]. intros Hall. exfalso.
      assert (Hin : In m (m :: ms)) by now left.
      rewrite <- Hm in Hin. apply filter_In in Hin as [Hin Hneg].
      apply Hall, mem_In in Hin. rewrite Hin in Hneg. discriminate. }
  assert (Hnil : entries = [] <-> forall c, In c relevant -> entry_of c = None).
  { subst entries. clear Hentry. induction relevant as [|c l IH].
    - split; [intros _ c [] | reflexivity].
    - change (omap entry_of (c :: l))
        with (match entry_of c with
              | Some y => y :: omap entry_of l
              | None => omap entry_of l
              end).
      destruct (entry_of c) eqn:Hc.
      + split; [discriminate|]. intros H. specialize (H c (or_introl eq_refl)). congruence.
      + rewrite IH. split.
        * intros H x [<- | Hx]; auto.
        * intros H x Hx. apply H. now right. }
  split; [apply concat_take_length|]. split; [|split].
  - split.
    + intros H c Hc. apply Hentry. apply Hnil; [|assumption].
      destruct entries; [reflexivity | discriminate].
    + intros H. replace entries with (@nil value); [reflexivity|].
      symmetry. apply Hnil. intros c Hc. apply Hentry. now apply H.
  - destruct entries; split; try reflexivity; discriminate.
  - exists entries. split; [reflexivity|]. split; [apply PlanFacts.omap_length_le|].
    intros entry Hin. apply PlanFacts.omap_In in Hin as (c & Hc & He).
    subst entry_of. cbv beta zeta in He.
    destruct (List.filter _ (default [] (Course.prerequisites c))) as [|m ms] eqn:Hm;
      [discriminate|].
    injection He as <-. exists c, (m :: ms).
    split; [assumption|]. split; [reflexivity|]. split; [discriminate|].
    now rewrite <- Hm.
Qed.

End Catalog.

End HandlerFacts.

(* ===================================================================== *)
(** * Properties of the remaining handlers and of the endpoint *)
(* ===================================================================== *)

Module AIAnalysisFacts.

Import Spec Terms Samples AIAnalysis PyStrFacts.

Lemma mapM_Ok {A B : Type} (f : A -> result B) (l : list A) :
  (forall x, In x l -> exists y, f x = Ok y) ->
  exists ys, mapM f l = Ok ys /\ Forall2 (fun x y => f x = Ok y) l ys.
Proof.
  induction l as [|x l IH]; intros H; simpl.
  - exists []. split; [reflexivity | constructor].
  - destruct (H x (or_introl eq_refl)) as [y Hy].
    destruct IH as (ys & Hys & Hall); [intros z Hz; apply H; now right|].
    exists (y :: ys). rewrite Hy, Hys. split; [reflexivity | now constructor].
Qed.

Lemma mapM_Raise {A B : Type} (f : A -> result B) (l : list A) (x : A) (e : exn) :
  In x l -> f x = Raise e -> exists e', mapM f l = Raise e'.
Proof.
  induction l as [|a l IH]; intros Hin Hx; [destruct Hin|]. simpl.
  destruct (f a) as [y|e0] eqn:Ha; cbn [bind]; [|eauto].
  destruct Hin as [<- | Hin]; [congruence|].
  destruct (IH Hin Hx) as [e' ->]. cbn [bind]. eauto.
Qed.

Lemma course_summary_Ok (c : Course.t) :
  Course.credits c <> None -> exists summary, course_summary c = Ok summary.
Proof.
  unfold course_summary. destruct (Course.credits c); [eauto | congruence].
Qed.

Lemma course_summary_Raise (c : Course.t) :
  Course.credits c = None -> course_summary c = Raise (mkExn KeyError "'credits'").
Proof. unfold course_summary. now intros ->. Qed.

(** X14: [generate_course_explanation] always answers with a text.  In
    mock mode, and whenever one of the courses has no credits field (the
    prompt cannot be built, so the text generator is not even called), the
    answer is the template text; otherwise the prompt is built and the
    answer is the generator's reply to it, or the template text when the
    exchange fails. *)
Theorem generate_course_explanation_cases
    (settings : Settings.t) (post : string -> result string)
    (subjects : list string) (courses : list Course.t) (user_profile : Ctx.t)
    (original_query : string) :
  let template := _mock_course_explanation subjects courses user_profile original_query in
  let answer :=
    generate_course_explanation settings post subjects courses user_profile original_query in
  (AIService.use_mock settings = true -> answer = template)
  /\ ((exists c, In c courses /\ Course.credits c = None) ->
      answer = template
      /\ forall post',
           generate_course_explanation settings post' subjects courses user_profile
             original_query = template)
  /\ (AIService.use_mock settings = false ->
      (forall c, In c courses -> Course.credits c <> None) ->
      exists prompt,
        _build_course_prompt subjects courses user_profile original_query = Ok prompt
        /\ answer = match post prompt with
                    | Ok text => text
                    | Raise _ => template
                    end).
Proof.
  intros template answer. subst answer. unfold generate_course_explanation.
  split; [now intros ->|]. split.
  - intros (c & Hc & Hnone).
    assert (Hgen : forall post',
              (if AIService.use_mock settings then template
               else try_except
                      (let* prompt :=
                         _build_course_prompt subjects courses user_profile original_query in
                       AIService._call_deepseek_api settings post' prompt)
                      (fun _ => template)) = template).
    { intros post'. destruct (AIService.use_mock settings); [reflexivity|].
      unfold _build_course_prompt.
      destruct (mapM_Raise course_summary courses c _ Hc (course_summary_Raise c Hnone))
        as [e ->].
      reflexivity. }
    split; [apply Hgen | exact Hgen].
  - intros Hlive Hcredits. rewrite Hlive.
    destruct (mapM_Ok course_summary courses) as (summaries & Hs & _).
    { intros c Hc. apply course_summary_Ok. now apply Hcredits. }
    unfold _build_course_prompt. rewrite Hs. cbn [bind].
    eexists. split; [reflexivity|].
    unfold AIService._call_deepseek_api.
    unfold AIService.use_mock in Hlive. apply orb_false_iff in Hlive as [_ Hkey].
    rewrite Hkey. cbn [try_except bind].
    now destruct (post _).
Qed.

End AIAnalysisFacts.

Module ExplanationFacts.

Import Spec Terms Samples Handlers PyStrFacts.

Lemma search_by_keyword_In (courses : list Course.t) (keyword : string) (c : Course.t) :
  In c (CourseService.search_by_keyword courses keyword) -> In c courses.
Proof.
  unfold CourseService.search_by_keyword.
  rewrite SearchFacts.build_keyword_index_lookup.
  destruct (assoc (PyStr.lower keyword) CourseService.subject_keywords) as [keywords|].
  - destruct (List.filter (CourseService.tagged keywords) courses) as [|b bs] eqn:Hb.
    + intros H. apply StableSortFacts.In_take in H.
      apply (Permutation_in _ (PlanFacts.sort_desc_perm _ _)) in H.
      now apply filter_In in H.
    + rewrite <- Hb. intros H. now apply filter_In in H.
  - intros H. apply StableSortFacts.In_take in H.
    apply (Permutation_in _ (PlanFacts.sort_desc_perm _ _)) in H.
    now apply filter_In in H.
Qed.

(** The loop keeps one course per code, none of a code already seen. *)
Lemma unique_courses_spec (seen : gset string) (l : list Course.t) :
  NoDup (map Course.code (unique_courses seen l))
  /\ (forall c, In c (unique_courses seen l) -> In c l /\ Course.code c ∉ seen)
  /\ (forall c, In c l -> Course.code c ∉ seen ->
        In (Course.code c) (map Course.code (unique_courses seen l))).
Proof.
  revert seen. induction l as [|x l IH]; intros seen; simpl.
  - split; [constructor|]. split; [intros c [] | intros c []].
  - destruct (bool_decide_reflect (Course.code x ∈ seen)) as [Hseen | Hnew].
    + destruct (IH seen) as (Hnd & Hin & Hall). split; [assumption|]. split.
      * intros c Hc. destruct (Hin c Hc). auto.
      * intros c [<- | Hc] Hnot; [contradiction | auto].
    + destruct (IH ({[Course.code x]} ∪ seen)) as (Hnd & Hin & Hall).
      split; [|split].
      * simpl. apply NoDup_cons. split; [|assumption].
        intros Hx. apply list_elem_of_In, in_map_iff in Hx as (c & Hcode & Hc).
        destruct (Hin c Hc) as [_ Hnotin]. apply Hnotin. rewrite Hcode.
        apply elem_of_union. left. now apply elem_of_singleton.
      * intros c [<- | Hc]; [auto|].
        destruct (Hin c Hc) as [Hl Hnotin]. split; [now right|].
        intros Hs. apply Hnotin. apply elem_of_union. now right.
      * intros c [<- | Hc] Hnot; [now left|]. simpl.
        destruct (decide (Course.code c = Course.code x)) as [Heq | Hneq];
          [left; congruence|].
        right. apply Hall; [assumption|].
        intros Hs. apply elem_of_union in Hs as [Hs | Hs]; [|contradiction].
        now apply elem_of_singleton in Hs.
Qed.

Lemma unique_courses_sublist (seen : gset string) (l : list Course.t) :
  unique_courses seen l `sublist_of` l.
Proof.
  revert seen. induction l as [|x l IH]; intros seen; simpl; [constructor|].
  destruct (bool_decide _); [apply sublist_cons | apply sublist_skip]; apply IH.
Qed.

Section Dispatcher.

Variable settings : Settings.t.
Variable post : string -> result string.
Variable courses : list Course.t.

Lemma relevant_courses_In (subjects : list string) (c : Course.t) :
  In c (relevant_courses courses subjects) ->
  exists subject,
    In subject subjects
    /\ In c (take 3 (CourseService.search_by_keyword courses subject)).
Proof.
  unfold relevant_courses. intros H. apply StableSortFacts.In_take in H.
  apply unique_courses_spec in H as [H _].
  apply in_concat in H as (hits & Hhits & Hc).
  apply in_map_iff in Hhits as (subject & <- & Hs). eauto.
Qed.

Lemma matched_course_Ok (c : Course.t) :
  Course.credits c <> None ->
  exists entry, matched_course c = Ok entry
                /\ getitem entry "code" = Some (VStr (Course.code c)).
Proof.
  unfold matched_course. destruct (Course.credits c); [|congruence].
  intros _. eexists. split; reflexivity.
Qed.

Lemma matched_course_Raise (c : Course.t) :
  Course.credits c = None -> matched_course c = Raise (mkExn KeyError "'credits'").
Proof. unfold matched_course. now intros ->. Qed.

(** The response of the [try] block, when every course has its credits. *)
Lemma handle_course_explanation_Ok (subjects : list string) (user_context : Ctx.t)
    (original_query : string) :
  (forall c, In c (relevant_courses courses subjects) -> Course.credits c <> None) ->
  exists entries,
    Forall2 (fun c entry => getitem entry "code" = Some (VStr (Course.code c)))
            (relevant_courses courses subjects) entries
    /\ _handle_course_explanation settings post courses subjects user_context original_query
       = [ ("type", VStr "course_explanation");
           ("subjects", VStrs subjects);
           ("matched_courses", VList entries);
           ("explanation",
             VStr (AIAnalysis.generate_course_explanation settings post subjects
                     (relevant_courses courses subjects) user_context original_query));
           ("relevance_score",
             VFloat (Py.round2
                       (0.85 + 0.05 * float_of_Z (Z.of_nat (length subjects)))%float));
           ("academic_year", VStr (Ctx.get_academic_year user_context));
           ("target_program",
             VStr (default "graduate studies" (Ctx.target_program user_context))) ].
Proof.
  intros Hcredits.
  destruct (AIAnalysisFacts.mapM_Ok matched_course (relevant_courses courses subjects))
    as (entries & Hentries & Hall).
  { intros c Hc. destruct (matched_course_Ok c (Hcredits c Hc)) as (entry & He & _). eauto. }
  exists entries. split.
  - clear Hentries. induction Hall as [|c entry l es Hc Hall IH]; constructor.
    + destruct (matched_course_Ok c) as (entry' & He & Hcode).
      * apply Hcredits. now left.
      * congruence.
    + apply IH. intros x Hx. apply Hcredits. now right.
  - unfold _handle_course_explanation. cbv zeta. rewrite Hentries. reflexivity.
Qed.

(** The response of the [except] block, when a course has no credits. *)
Lemma handle_course_explanation_Raise (subjects : list string) (user_context : Ctx.t)
    (original_query : string) :
  (exists c, In c (relevant_courses courses subjects) /\ Course.credits c = None) ->
  _handle_course_explanation settings post courses subjects user_context original_query
  = [ ("type", VStr "course_explanation");
      ("subjects", VStrs subjects);
      ("explanation",
        VStr (PyStr.join " "
                (map (fun subject =>
                        default ("Courses in " +:+ subject
                                 +:+ " provide valuable analytical training for economics students.")
                                (assoc subject SUBJECT_EXPLANATIONS))
                     subjects)));
      ("note",
        VStr "This is a simplified explanation due to system limitations. Full AI analysis would provide more personalized insights.");
      ("fallback_mode", VBool true) ].
Proof.
  intros (c & Hc & Hnone).
  destruct (AIAnalysisFacts.mapM_Raise matched_course _ c _ Hc (matched_course_Raise c Hnone))
    as [e He].
  unfold _handle_course_explanation. cbv zeta. rewrite He. reflexivity.
Qed.

Lemma credits_cases (l : list Course.t) :
  (forall c, In c l -> Course.credits c <> None)
  \/ (exists c, In c l /\ Course.credits c = None).
Proof.
  induction l as [|x l [IH | (c & Hc & Hnone)]].
  - left. intros c [].
  - destruct (Course.credits x) eqn:Hx.
    + left. intros c [<- | Hc]; [congruence | auto].
    + right. exists x. split; [now left | assumption].
  - right. exists c. split; [now right | assumption].
Qed.

End Dispatcher.

(** X15: a course explanation is about at most five courses with pairwise
    different codes, each of them a catalog course among the first three
    search hits of one of the subjects; when several hits share a code, the
    first one is kept. *)
Theorem relevant_courses_spec (courses : list Course.t) (subjects : list string) :
  let hits :=
    concat (map (fun subject => take 3 (CourseService.search_by_keyword courses subject))
                subjects) in
  let relevant := relevant_courses courses subjects in
  (length relevant <= 5)%nat
  /\ NoDup (map Course.code relevant)
  /\ relevant `sublist_of` hits
  /\ (forall c, In c relevant ->
        In c courses
        /\ exists subject,
             In subject subjects
             /\ In c (take 3 (CourseService.search_by_keyword courses subject)))
  /\ ((length hits <= 5)%nat ->
      forall c, In c hits -> In (Course.code c) (map Course.code relevant)).
Proof.
  intros hits relevant.
  assert (Hrel : relevant = take 5 (unique_courses ∅ hits)) by reflexivity.
  destruct (unique_courses_spec ∅ hits) as (Hnd & Hin & Hall).
  split; [|split; [|split; [|split]]].
  - rewrite Hrel, length_take. lia.
  - rewrite Hrel, <- firstn_map. eapply sublist_NoDup; [exact Hnd | apply sublist_take].
  - rewrite Hrel. etransitivity; [apply sublist_take | apply unique_courses_sublist].
  - intros c Hc.
    destruct (relevant_courses_In courses subjects c Hc) as (subject & Hs & Htop).
    split; [|eauto].
    apply StableSortFacts.In_take in Htop. now apply search_by_keyword_In in Htop.
  - intros Hfew c Hc. rewrite Hrel, take_ge.
    + apply Hall; [assumption | apply not_elem_of_empty].
    + etransitivity; [|exact Hfew].
      apply sublist_length, unique_courses_sublist.
Qed.

(** X16: the course-explanation handler answers in one of two shapes.
    When every course it is about has a credits field, the response has the
    seven keys of a full explanation, one matched course per course in the
    same order, and the explanation of the text service.  When one of them
    has no credits field, the response is the fallback: five keys, the
    canned paragraph of each subject (a generic sentence for a subject
    without one, such as math), a note, and fallback_mode set; that response
    does not depend on the configuration or on the text generator.  The
    fallback marker is set in exactly that case. *)
Theorem course_explanation_fallback
    (settings : Settings.t) (post : string -> result string) (courses : list Course.t)
    (subjects : list string) (user_context : Ctx.t) (original_query : string) :
  let relevant := relevant_courses courses subjects in
  let resp :=
    _handle_course_explanation settings post courses subjects user_context original_query in
  ((forall c, In c relevant -> Course.credits c <> None) ->
   map fst resp
   = [ "type"; "subjects"; "matched_courses"; "explanation"; "relevance_score";
       "academic_year"; "target_program" ]
   /\ (exists entries,
         assoc "matched_courses" resp = Some (VList entries)
         /\ Forall2 (fun c entry => getitem entry "code" = Some (VStr (Course.code c)))
                    relevant entries)
   /\ assoc "explanation" resp
      = Some (VStr (AIAnalysis.generate_course_explanation settings post subjects relevant
                      user_context original_query)))
  /\ ((exists c, In c relevant /\ Course.credits c = None) ->
      map fst resp = ["type"; "subjects"; "explanation"; "note"; "fallback_mode"]
      /\ assoc "explanation" resp
         = Some (VStr (PyStr.join " "
                         (map (fun subject =>
                                 default ("Courses in " +:+ subject
                                          +:+ " provide valuable analytical training for economics students.")
                                         (assoc subject SUBJECT_EXPLANATIONS))
                              subjects)))
      /\ forall settings' post',
           _handle_course_explanation settings' post' courses subjects user_context
             original_query = resp)
  /\ (assoc "fallback_mode" resp = Some (VBool true)
      <-> exists c, In c relevant /\ Course.credits c = None)
  /\ assoc "type" resp = Some (VStr "course_explanation").
Proof.
  intros relevant resp.
  split; [|split; [|split]].
  - intros Hcredits.
    destruct (handle_course_explanation_Ok settings post courses subjects user_context
                original_query Hcredits) as (entries & Hall & Hresp).
    subst resp. rewrite Hresp. split; [reflexivity|]. split; [|reflexivity].
    exists entries. split; [reflexivity | exact Hall].
  - intros Hnone. subst resp.
    rewrite (handle_course_explanation_Raise settings post courses subjects user_context
               original_query Hnone).
    split; [reflexivity|]. split; [reflexivity|].
    intros settings' post'.
    now rewrite (handle_course_explanation_Raise settings' post' courses subjects
                   user_context original_query Hnone).
  - destruct (credits_cases relevant) as [Hcredits | Hnone].
    + destruct (handle_course_explanation_Ok settings post courses subjects user_context
                  original_query Hcredits) as (entries & _ & Hresp).
      subst resp. rewrite Hresp. split; [discriminate|].
      intros (c & Hc & Hcn). now apply Hcredits in Hc.
    + subst resp.
      rewrite (handle_course_explanation_Raise settings post courses subjects user_context
                 original_query Hnone).
      split; [auto | reflexivity].
  - destruct (credits_cases relevant) as [Hcredits | Hnone].
    + destruct (handle_course_explanation_Ok settings post courses subjects user_context
                  original_query Hcredits) as (entries & _ & Hresp).
      subst resp. now rewrite Hresp.
    + subst resp.
      now rewrite (handle_course_explanation_Raise settings post courses subjects
                     user_context original_query Hnone).
Qed.

(** X17: for the subjects extracted from a query, a full course explanation
    reports the relevance score 0.9, 0.95, 1.0, 1.05 or 1.1 for one, two,
    three, four or five subjects: the score is above 1 exactly when four or
    five subjects were extracted. *)
Theorem course_explanation_relevance_score
    (settings : Settings.t) (post : string -> result string) (courses : list Course.t)
    (query : string) (user_context : Ctx.t) (original_query : string) :
  let subjects := AcademicDispatcher._extract_subject_keywords query in
  subjects <> [] ->
  (forall c, In c (relevant_courses courses subjects) -> Course.credits c <> None) ->
  exists score,
    assoc "relevance_score"
      (_handle_course_explanation settings post courses subjects user_context original_query)
    = Some (VFloat score)
    /\ nth_error relevance_scores (length subjects - 1) = Some score
    /\ ((1 <? score)%float = true <-> (4 <= length subjects)%nat).
Proof.
  intros subjects Hsome Hcredits.
  destruct (handle_course_explanation_Ok settings post courses subjects user_context
              original_query Hcredits) as (entries & _ & Hresp).
  rewrite Hresp. eexists. split; [reflexivity|].
  assert (Hlen : (length subjects <= 5)%nat).
  { apply (sublist_length _ (map fst AcademicDispatcher.SUBJECT_KEYWORDS)).
    apply SubjectFacts.sublist_map_filter. }
  destruct subjects as [|s1 [|s2 [|s3 [|s4 [|s5 [|s6 rest]]]]]];
    [congruence | | | | | | simpl in Hlen; lia];
    (split; [vm_compute; reflexivity|]); simpl length;
    (split; [vm_compute; try discriminate; try reflexivity; intros; lia
            | intros; try lia; vm_compute; reflexivity]).
Qed.

Lemma course_explanation_relevance_score_witness :
  AcademicDispatcher._extract_subject_keywords
    "explain the economics, statistics, finance and maths courses" <> []
  /\ exists score,
       assoc "relevance_score"
         (_handle_course_explanation live_settings timing_out sample_catalog
            (AcademicDispatcher._extract_subject_keywords
               "explain the economics, statistics, finance and maths courses")
            sample_profile "explain the economics, statistics, finance and maths courses")
       = Some (VFloat score)
       /\ nth_error relevance_scores
            (length (AcademicDispatcher._extract_subject_keywords
                       "explain the economics, statistics, finance and maths courses") - 1)
          = Some score
       /\ ((1 <? score)%float = true
           <-> (4 <= length (AcademicDispatcher._extract_subject_keywords
                               "explain the economics, statistics, finance and maths courses"))%nat).
Proof.
  assert (Hsome : AcademicDispatcher._extract_subject_keywords
                    "explain the economics, statistics, finance and maths courses" <> [])
    by (vm_compute; discriminate).
  assert (Hcredits : forall c,
            In c (relevant_courses sample_catalog
                    (AcademicDispatcher._extract_subject_keywords
                       "explain the economics, statistics, finance and maths courses")) ->
            Course.credits c <> None).
  { intros c Hc.
    destruct (relevant_courses_In sample_catalog _ c Hc) as (subject & _ & Htop).
    apply StableSortFacts.In_take, search_by_keyword_In in Htop. simpl in Htop.
    repeat (destruct Htop as [<- | Htop]; [discriminate|]). destruct Htop. }
  split; [exact Hsome|].
  apply (course_explanation_relevance_score live_settings timing_out sample_catalog
           "explain the economics, statistics, finance and maths courses" sample_profile
           "explain the economics, statistics, finance and maths courses" Hsome Hcredits).
Defined.

End ExplanationFacts.

Module CareerFacts.

Import Spec Terms Samples Handlers PyStrFacts.

Lemma mock_career_alignment_complete (subjects : list string)
    (career_goal academic_background original_query : string) (key : string) :
  In key analysis_keys ->
  getitem (AIAnalysis._mock_career_alignment subjects career_goal academic_background
             original_query) key <> None.
Proof.
  unfold AIAnalysis._mock_career_alignment, analysis_keys. intros Hkey. simpl in Hkey.
  destruct (PyStr.contains "HKU MFWM" career_goal);
    repeat (destruct Hkey as [<- | Hkey]; [discriminate|]); destruct Hkey.
Qed.

Section Dispatcher.

Variable settings : Settings.t.
Variable post : string -> result string.
Variable loads : string -> option value.

(** The analysis is the template, unless the service is live and the
    generator's reply parsed. *)
Lemma analyze_career_alignment_cases (subjects : list string)
    (career_goal academic_background original_query : string) :
  let analysis :=
    AIAnalysis.analyze_career_alignment settings post loads subjects career_goal
      academic_background original_query in
  analysis = AIAnalysis._mock_career_alignment subjects career_goal academic_background
               original_query
  \/ (AIService.use_mock settings = false
      /\ exists text,
           post (AIAnalysis._build_career_prompt subjects career_goal academic_background
                   original_query) = Ok text
           /\ loads text = Some analysis).
Proof.
  unfold AIAnalysis.analyze_career_alignment.
  destruct (AIService.use_mock settings) eqn:Hmock; [now left|].
  unfold AIService._call_deepseek_api.
  destruct (String.eqb _ _); [now left|]. cbv zeta.
  destruct (post _) as [text|e] eqn:Hpost; cbn [bind try_except]; [|now left].
  destruct (loads text) as [analysis|] eqn:Hloads; cbn [try_except]; [|now left].
  right. split; [reflexivity|]. exists text. auto.
Qed.

Lemma complete_or_not (analysis : value) :
  (exists gap pathway alignment_score key_modules industry_outlook,
     getitem analysis "gap" = Some gap
     /\ getitem analysis "pathway" = Some pathway
     /\ getitem analysis "alignment_score" = Some alignment_score
     /\ getitem analysis "key_modules" = Some key_modules
     /\ getitem analysis "industry_outlook" = Some industry_outlook)
  \/ (exists key, In key analysis_keys /\ getitem analysis key = None).
Proof.
  unfold analysis_keys.
  destruct (getitem analysis "gap") eqn:H1;
    [|right; exists "gap"; simpl; tauto].
  destruct (getitem analysis "pathway") eqn:H2;
    [|right; exists "pathway"; simpl; tauto].
  destruct (getitem analysis "alignment_score") eqn:H3;
    [|right; exists "alignment_score"; simpl; tauto].
  destruct (getitem analysis "key_modules") eqn:H4;
    [|right; exists "key_modules"; simpl; tauto].
  destruct (getitem analysis "industry_outlook") eqn:H5;
    [|right; exists "industry_outlook"; simpl; tauto].
  left. repeat eexists.
Qed.

Lemma handle_career_alignment_shape (subjects : list string) (user_context : Ctx.t)
    (original_query : string) :
  let career_goal := default "graduate studies" (Ctx.target_program user_context) in
  let analysis :=
    AIAnalysis.analyze_career_alignment settings post loads subjects career_goal
      (Ctx.get_major user_context) original_query in
  let resp := _handle_career_alignment settings post loads subjects user_context
                original_query in
  ((forall key, In key analysis_keys -> getitem analysis key <> None)
   /\ exists gap pathway alignment_score key_modules industry_outlook,
        getitem analysis "gap" = Some gap
        /\ getitem analysis "pathway" = Some pathway
        /\ getitem analysis "alignment_score" = Some alignment_score
        /\ getitem analysis "key_modules" = Some key_modules
        /\ getitem analysis "industry_outlook" = Some industry_outlook
        /\ resp = [ ("type", VStr "career_alignment");
                    ("career_goal", VStr career_goal);
                    ("relevant_subjects", VStrs subjects);
                    ("competency_gap", gap);
                    ("recommended_pathway", pathway);
                    ("hku_alignment_score", alignment_score);
                    ("key_modules", key_modules);
                    ("industry_outlook", industry_outlook) ])
  \/ ((exists key, In key analysis_keys /\ getitem analysis key = None)
      /\ resp = [ ("type", VStr "career_alignment");
                  ("career_goal", VStr career_goal);
                  ("message",
                    VStr ("Based on XJTLU Economics curriculum, courses in "
                          +:+ PyStr.join ", " subjects +:+ " provide strong foundation for "
                          +:+ career_goal +:+ "."));
                  ("note",
                    VStr "For personalized career advice, consider booking an appointment with XJTLU Career Hub.");
                  ("fallback_mode", VBool true) ]).
Proof.
  intros career_goal analysis resp. subst resp.
  unfold _handle_career_alignment. fold career_goal. fold analysis.
  destruct (complete_or_not analysis)
    as [(gap & pathway & score & modules & outlook & H1 & H2 & H3 & H4 & H5)
       | (key & Hkey & Hnone)].
  - left. split.
    + intros key Hkey. unfold analysis_keys in Hkey. simpl in Hkey.
      repeat (destruct Hkey as [<- | Hkey]; [congruence|]). destruct Hkey.
    + exists gap, pathway, score, modules, outlook.
      rewrite H1, H2, H3, H4, H5. repeat split.
  - right. split; [eauto|].
    unfold analysis_keys in Hkey. simpl in Hkey.
    destruct (getitem analysis "gap") eqn:H1; cbn [mbind option_bind];
      [|reflexivity].
    destruct (getitem analysis "pathway") eqn:H2; cbn [mbind option_bind];
      [|reflexivity].
    destruct (getitem analysis "alignment_score") eqn:H3; cbn [mbind option_bind];
      [|reflexivity].
    destruct (getitem analysis "key_modules") eqn:H4; cbn [mbind option_bind];
      [|reflexivity].
    destruct (getitem analysis "industry_outlook") eqn:H5; cbn [mbind option_bind];
      [|reflexivity].
    exfalso.
    repeat (destruct Hkey as [<- | Hkey]; [congruence|]). destruct Hkey.
Qed.

End Dispatcher.

(** X18: the career handler always answers with type career_alignment and
    the career goal.  It answers in fallback mode exactly when the analysis
    it received lacks one of the five keys gap, pathway, alignment_score,
    key_modules, industry_outlook (or is no dictionary at all), and that can
    only be a reply of the text generator that parsed as JSON: the template
    analysis is complete.  So in mock mode the answer has the eight keys of
    a full analysis, with the alignment score 0.88 when the goal contains
    "HKU MFWM" (in this very spelling) and 0.75 otherwise. *)
Theorem career_alignment_cases
    (settings : Settings.t) (post : string -> result string)
    (loads : string -> option value)
    (subjects : list string) (user_context : Ctx.t) (original_query : string) :
  let career_goal := default "graduate studies" (Ctx.target_program user_context) in
  let analysis :=
    AIAnalysis.analyze_career_alignment settings post loads subjects career_goal
      (Ctx.get_major user_context) original_query in
  let resp := _handle_career_alignment settings post loads subjects user_context
                original_query in
  assoc "type" resp = Some (VStr "career_alignment")
  /\ assoc "career_goal" resp = Some (VStr career_goal)
  /\ (assoc "fallback_mode" resp = Some (VBool true)
      <-> exists key, In key analysis_keys /\ getitem analysis key = None)
  /\ (assoc "fallback_mode" resp = Some (VBool true) ->
      AIService.use_mock settings = false
      /\ exists text,
           post (AIAnalysis._build_career_prompt subjects career_goal
                   (Ctx.get_major user_context) original_query) = Ok text
           /\ loads text = Some analysis)
  /\ (assoc "fallback_mode" resp <> Some (VBool true) ->
      map fst resp
      = [ "type"; "career_goal"; "relevant_subjects"; "competency_gap";
          "recommended_pathway"; "hku_alignment_score"; "key_modules"; "industry_outlook" ]
      /\ assoc "competency_gap" resp = getitem analysis "gap"
      /\ assoc "recommended_pathway" resp = getitem analysis "pathway"
      /\ assoc "hku_alignment_score" resp = getitem analysis "alignment_score"
      /\ assoc "key_modules" resp = getitem analysis "key_modules"
      /\ assoc "industry_outlook" resp = getitem analysis "industry_outlook")
  /\ (AIService.use_mock settings = true ->
      assoc "fallback_mode" resp = None
      /\ assoc "hku_alignment_score" resp
         = Some (VFloat (if PyStr.contains "HKU MFWM" career_goal then 0.88 else 0.75))).
Proof.
  intros career_goal analysis resp.
  pose proof (handle_career_alignment_shape settings post loads subjects user_context
                original_query) as Hshape.
  cbv zeta in Hshape. fold career_goal in Hshape. fold analysis in Hshape.
  fold resp in Hshape.
  pose proof (analyze_career_alignment_cases settings post loads subjects career_goal
                (Ctx.get_major user_context) original_query) as Hcases.
  cbv zeta in Hcases. fold analysis in Hcases.
  destruct Hshape
    as [(Hcomplete & gap & pathway & score & modules & outlook
         & H1 & H2 & H3 & H4 & H5 & Hresp)
       | (Hmissing & Hresp)];
    rewrite Hresp.
  - split; [reflexivity|]. split; [reflexivity|]. split; [|split; [|split]].
    + split; [discriminate|]. intros (key & Hkey & Hnone). now apply Hcomplete in Hkey.
    + discriminate.
    + intros _. rewrite H1, H2, H3, H4, H5. repeat split.
    + intros Hmock. split; [reflexivity|].
      cbn [assoc String.eqb Ascii.eqb Bool.eqb]. rewrite <- H3.
      subst analysis. unfold AIAnalysis.analyze_career_alignment. rewrite Hmock.
      unfold AIAnalysis._mock_career_alignment.
      now destruct (PyStr.contains "HKU MFWM" career_goal).
  - split; [reflexivity|]. split; [reflexivity|]. split; [|split; [|split]].
    + split; [auto | reflexivity].
    + intros _. destruct Hcases as [Hmock | Hlive]; [|exact Hlive].
      exfalso. destruct Hmissing as (key & Hkey & Hnone). rewrite Hmock in Hnone.
      now apply mock_career_alignment_complete in Hnone.
    + intros Hnot. exfalso. now apply Hnot.
    + intros Hmock. exfalso.
      destruct Hcases as [Htemplate | [Hlive _]]; [|congruence].
      destruct Hmissing as (key & Hkey & Hnone). rewrite Htemplate in Hnone.
      now apply mock_career_alignment_complete in Hnone.
Qed.

End CareerFacts.

Module RoutingFacts.

Import Spec Terms Samples Handlers PyStrFacts.

Lemma assoc_mem {A : Type} (k : string) (d : list (string * A)) (v : A) :
  assoc k d = Some v -> PyStr.mem k (map fst d) = true.
Proof.
  induction d as [|[k' v'] d IH]; simpl; [discriminate|].
  unfold PyStr.mem in *. simpl.
  destruct (String.eqb k k'); [reflexivity | exact IH].
Qed.

Section Dispatcher.

Variable settings : Settings.t.
Variable post : string -> result string.
Variable loads : string -> option value.
Variable courses : list Course.t.
Variable academic_calendar : list (string * list (string * list (string * string))).

Lemma handle_course_explanation_type (subjects : list string) (user_context : Ctx.t)
    (original_query : string) :
  assoc "type" (_handle_course_explanation settings post courses subjects user_context
                  original_query)
  = Some (VStr "course_explanation").
Proof.
  destruct (ExplanationFacts.credits_cases (relevant_courses courses subjects))
    as [Hcredits | Hnone].
  - destruct (ExplanationFacts.handle_course_explanation_Ok settings post courses subjects
                user_context original_query Hcredits) as (entries & _ & ->).
    reflexivity.
  - now rewrite (ExplanationFacts.handle_course_explanation_Raise settings post courses
                   subjects user_context original_query Hnone).
Qed.

Lemma handle_career_alignment_type (subjects : list string) (user_context : Ctx.t)
    (original_query : string) :
  assoc "type" (_handle_career_alignment settings post loads subjects user_context
                  original_query)
  = Some (VStr "career_alignment").
Proof.
  destruct (CareerFacts.handle_career_alignment_shape settings post loads subjects
              user_context original_query)
    as [(_ & gap & pathway & score & modules & outlook & _ & _ & _ & _ & _ & ->)
       | (_ & ->)];
    reflexivity.
Qed.

Lemma handle_workload_assessment_type (user_context : Ctx.t) :
  assoc "type" (AcademicDispatcher._handle_workload_assessment user_context)
  = Some (VStr "workload_assessment").
Proof.
  unfold AcademicDispatcher._handle_workload_assessment.
  destruct (_ <? 60)%Z; [|destruct (_ <? 120)%Z]; reflexivity.
Qed.

(** The type of the response, from the intent and the subjects. *)
Lemma dispatch_type (query : string) (user_context : Ctx.t) :
  let normalized_query := PyStr.strip (PyStr.lower query) in
  assoc "type" (dispatch settings post loads courses academic_calendar query user_context)
  = Some (VStr (response_type
                  (AcademicDispatcher._detect_intent normalized_query)
                  (AcademicDispatcher._extract_subject_keywords normalized_query))).
Proof.
  intros normalized_query. unfold dispatch, AcademicDispatcher.dispatch. cbv zeta.
  fold normalized_query.
  pose proof (IntentFacts.first_triggered_range AcademicDispatcher.INTENT_KEYWORDS
                normalized_query) as Hrange.
  fold (AcademicDispatcher._detect_intent normalized_query) in Hrange.
  destruct (AcademicDispatcher._extract_subject_keywords normalized_query) as [|s subjects];
    simpl in Hrange;
    repeat (destruct Hrange as [<- | Hrange];
            [cbn [String.eqb Ascii.eqb Bool.eqb andb negb AcademicDispatcher.is_nil
                  try_except response_type];
             first [ apply handle_course_explanation_type
                   | apply handle_career_alignment_type
                   | apply handle_workload_assessment_type
                   | reflexivity ]|]);
    destruct Hrange.
Qed.

End Dispatcher.

(** X19: with its own handlers in place, the dispatcher never answers with
    an error response.  The type of the response is decided by the detected
    intent and by whether a subject was extracted: course_explanation and
    prerequisite_check need a subject and are answered as general_response
    without one; semester_planning, career_alignment and
    workload_assessment are answered whatever the subjects are; every
    other query gets general_response. *)
Theorem dispatch_response_type
    (settings : Settings.t) (post : string -> result string)
    (loads : string -> option value) (courses : list Course.t)
    (academic_calendar : list (string * list (string * list (string * string))))
    (query : string) (user_context : Ctx.t) :
  let normalized_query := PyStr.strip (PyStr.lower query) in
  let intent := AcademicDispatcher._detect_intent normalized_query in
  let subjects := AcademicDispatcher._extract_subject_keywords normalized_query in
  let resp := dispatch settings post loads courses academic_calendar query user_context in
  exists type,
    assoc "type" resp = Some (VStr type)
    /\ In type [ "course_explanation"; "semester_plan"; "career_alignment";
                 "prerequisite_check"; "workload_assessment"; "general_response" ]
    /\ type <> "error"
    /\ (type = "course_explanation" <-> intent = "course_explanation" /\ subjects <> [])
    /\ (type = "semester_plan" <-> intent = "semester_planning")
    /\ (type = "career_alignment" <-> intent = "career_alignment")
    /\ (type = "prerequisite_check" <-> intent = "prerequisite_check" /\ subjects <> [])
    /\ (type = "workload_assessment" <-> intent = "workload_assessment")
    /\ (type = "general_response"
        <-> intent = "general_query"
            \/ (subjects = []
                /\ (intent = "course_explanation" \/ intent = "prerequisite_check"))).
Proof.
  intros normalized_query intent subjects resp.
  exists (response_type intent subjects).
  split; [apply dispatch_type|].
  pose proof (IntentFacts.first_triggered_range AcademicDispatcher.INTENT_KEYWORDS
                normalized_query) as Hrange.
  fold (AcademicDispatcher._detect_intent normalized_query) in Hrange. fold intent in Hrange.
  clearbody intent subjects. clear resp. simpl in Hrange.
  destruct subjects as [|s subjects];
    repeat (destruct Hrange as [<- | Hrange];
            [cbn [response_type String.eqb Ascii.eqb Bool.eqb];
             repeat split; simpl; intros;
             repeat match goal with
                    | H : _ /\ _ |- _ => destruct H
                    | H : _ \/ _ |- _ => destruct H
                    end;
             try congruence; try discriminate; auto; tauto|]);
    destruct Hrange.
Qed.

(** X20: the endpoint [ask_academic_question] returns the dispatcher's
    response for every request: the response always has a type, so the
    endpoint never answers with status 400 or 500. *)
Theorem ask_academic_question_returns
    (settings : Settings.t) (post : string -> result string)
    (loads : string -> option value) (courses : list Course.t)
    (academic_calendar : list (string * list (string * list (string * string))))
    (request : Endpoints.QueryRequest) :
  Endpoints.ask_academic_question settings post loads courses academic_calendar request
  = Endpoints.Return
      (dispatch settings post loads courses academic_calendar (Endpoints.query request)
         (Endpoints.user_context (Endpoints.user_profile request)))
  /\ forall status_code detail,
       Endpoints.ask_academic_question settings post loads courses academic_calendar request
       <> Endpoints.HTTPException status_code detail.
Proof.
  assert (H : Endpoints.ask_academic_question settings post loads courses academic_calendar
                request
              = Endpoints.Return
                  (dispatch settings post loads courses academic_calendar
                     (Endpoints.query request)
                     (Endpoints.user_context (Endpoints.user_profile request)))).
  { unfold Endpoints.ask_academic_question. cbv zeta.
    rewrite (assoc_mem _ _ _ (dispatch_type settings post loads courses academic_calendar
                                (Endpoints.query request)
                                (Endpoints.user_context (Endpoints.user_profile request)))).
    reflexivity. }
  split; [exact H|]. intros status_code detail. rewrite H. discriminate.
Qed.

(** X21: the dispatcher's answer depends on the query only through its
    lower-cased and stripped form: two queries that differ in letter case or
    in surrounding white space get the same response. *)
Theorem dispatch_normalizes_query
    (settings : Settings.t) (post : string -> result string)
    (loads : string -> option value) (courses : list Course.t)
    (academic_calendar : list (string * list (string * list (string * string))))
    (query query' : string) (user_context : Ctx.t) :
  PyStr.strip (PyStr.lower query) = PyStr.strip (PyStr.lower query') ->
  dispatch settings post loads courses academic_calendar query user_context
  = dispatch settings post loads courses academic_calendar query' user_context.
Proof.
  intros Hsame. unfold dispatch, AcademicDispatcher.dispatch. cbv zeta. rewrite Hsame.
  repeat match goal with
         | |- context [if ?b && ?c then _ else _] => destruct (b && c)
         | |- context [if String.eqb ?a ?b then Ok _ else _] => destruct (String.eqb a b)
         end;
    reflexivity.
Qed.

Lemma dispatch_normalizes_query_witness :
  PyStr.strip (PyStr.lower "  Plan my SEMESTER ") = PyStr.strip (PyStr.lower "plan my semester")
  /\ dispatch live_settings timing_out (fun _ => None) sample_catalog []
       "  Plan my SEMESTER " sample_profile
     = dispatch live_settings timing_out (fun _ => None) sample_catalog []
         "plan my semester" sample_profile.
Proof.
  assert (Hsame : PyStr.strip (PyStr.lower "  Plan my SEMESTER ")
                  = PyStr.strip (PyStr.lower "plan my semester")) by reflexivity.
  split; [exact Hsame|].
  apply (dispatch_normalizes_query live_settings timing_out (fun _ => None) sample_catalog []
           "  Plan my SEMESTER " "plan my semester" sample_profile Hsame).
Defined.

End RoutingFacts.

(* ===================================================================== *)
(** * Properties of the planning agent *)
(* ===================================================================== *)

Module PlanningAgentFacts.

Import Spec Terms Samples PlanningAgent PyStrFacts.

#[local] Open Scope Z_scope.

Lemma requirements_ok_fold (grades reqs : list (string * Z)) (ok : bool) :
  fold_left
    (fun ok '(prereq, min_grade) =>
       if default 0 (assoc prereq grades) <? min_grade then false else ok)
    reqs ok
  = ok && forallb (fun req => snd req <=? default 0 (assoc (fst req) grades)) reqs.
Proof.
  revert ok. induction reqs as [|[prereq min_grade] reqs IH]; intros ok; simpl.
  - now rewrite andb_true_r.
  - rewrite IH.
    destruct (Z.ltb_spec (default 0 (assoc prereq grades)) min_grade),
             (Z.leb_spec min_grade (default 0 (assoc prereq grades))); try lia;
      destruct ok; reflexivity.
Qed.

Lemma requirements_ok_spec (grades reqs : list (string * Z)) :
  requirements_ok grades reqs = true
  <-> forall prereq min_grade,
        In (prereq, min_grade) reqs -> min_grade <= default 0 (assoc prereq grades).
Proof.
  unfold requirements_ok. rewrite requirements_ok_fold. simpl. rewrite forallb_forall.
  split.
  - intros H prereq min_grade Hin. apply Z.leb_le. exact (H (prereq, min_grade) Hin).
  - intros H [prereq min_grade] Hin. apply Z.leb_le. now apply H.
Qed.

Lemma estimate_workload_bounds (courses : list string) :
  3 * Z.of_nat (length courses) <= _estimate_workload courses
  <= 5 * Z.of_nat (length courses).
Proof.
  unfold _estimate_workload, sum_Z. induction courses as [|c l IH]; [simpl; lia|].
  cbn [map foldr length]. rewrite Nat2Z.inj_succ.
  assert (3 <= default 3 (assoc c weights) <= 5).
  { unfold weights. simpl.
    destruct (String.eqb c "ECO401"); [simpl; lia|].
    destruct (String.eqb c "FIN308"); simpl; lia. }
  lia.
Qed.

(** X22: [_check_eligibility] lists, in the order of the rules, exactly the
    courses all of whose prerequisite grades reach the required minimum, a
    prerequisite without a grade counting as 0; a course without
    prerequisites is always listed, and a better grade never removes a
    course from the list. *)
Theorem check_eligibility_spec (grades : list (string * Z))
    (rules : list (string * list (string * Z))) :
  let eligible := _check_eligibility grades rules in
  eligible `sublist_of` map fst rules
  /\ (forall course, In course eligible <->
        exists reqs, In (course, reqs) rules
                     /\ forall prereq min_grade, In (prereq, min_grade) reqs ->
                          min_grade <= default 0 (assoc prereq grades))
  /\ (forall course, In (course, []) rules -> In course eligible)
  /\ (forall grades',
        (forall prereq, default 0 (assoc prereq grades) <= default 0 (assoc prereq grades')) ->
        forall course, In course eligible -> In course (_check_eligibility grades' rules)).
Proof.
  intros eligible.
  assert (Hin : forall g course, In course (_check_eligibility g rules) <->
            exists reqs, In (course, reqs) rules
                         /\ forall prereq min_grade, In (prereq, min_grade) reqs ->
                              min_grade <= default 0 (assoc prereq g)).
  { intros g course. unfold _check_eligibility. rewrite in_map_iff. split.
    - intros ([c reqs] & <- & H). apply filter_In in H as [H Hok].
      exists reqs. split; [exact H|]. now apply requirements_ok_spec.
    - intros (reqs & H & Hok). exists (course, reqs). split; [reflexivity|].
      apply filter_In. split; [exact H|]. now apply requirements_ok_spec. }
  split; [apply SubjectFacts.sublist_map_filter|].
  split; [apply Hin|]. split.
  - intros course Hrule. apply Hin. exists []. split; [exact Hrule|]. intros ? ? [].
  - intros grades' Hbetter course Hc. apply Hin. apply Hin in Hc as (reqs & Hrule & Hok).
    exists reqs. split; [exact Hrule|].
    intros prereq min_grade Hreq. specialize (Hok _ _ Hreq). specialize (Hbetter prereq). lia.
Qed.

(** X23: the advice of the planning agent has a workload score between 3
    and 5 per recommended course, and its risk level is High exactly when
    the score is above 8: always with three or more recommended courses,
    never with fewer than two.  Without an academic state, or without
    rules in it, nothing is recommended, the score is 0 and the risk is
    Moderate. *)
Theorem handle_risk_level (task : option (list (string * entry))) :
  let advice := handle task in
  let n := Z.of_nat (length (recommended_courses advice)) in
  3 * n <= workload_score advice <= 5 * n
  /\ (risk_level advice = "High" <-> 8 < workload_score advice)
  /\ (risk_level advice = "Moderate" <-> workload_score advice <= 8)
  /\ (3 <= n -> risk_level advice = "High")
  /\ (n < 2 -> risk_level advice = "Moderate")
  /\ ((task = None
       \/ (forall state, task = Some state -> assoc "EBridgeAgent" state = None)
       \/ (forall state e, task = Some state -> assoc "EBridgeAgent" state = Some e ->
             enrollment_rules e = None)) ->
      advice = mkAdvice [] 0 "Moderate").
Proof.
  intros advice n.
  assert (Hbounds : 3 * n <= workload_score advice <= 5 * n)
    by apply estimate_workload_bounds.
  assert (Hrisk : risk_level advice
                  = if workload_score advice >? 8 then "High" else "Moderate")
    by reflexivity.
  assert (Hnone : (task = None
                   \/ (forall state, task = Some state -> assoc "EBridgeAgent" state = None)
                   \/ (forall state e, task = Some state ->
                         assoc "EBridgeAgent" state = Some e ->
                         enrollment_rules e = None)) ->
                  advice = mkAdvice [] 0 "Moderate").
  { intros Hnone. subst advice. unfold handle. cbv zeta.
    destruct Hnone as [-> | [Hnone | Hnone]]; [reflexivity | |].
    - destruct task as [state|]; [|reflexivity].
      simpl. now rewrite (Hnone state eq_refl).
    - destruct task as [state|]; [|reflexivity]. simpl.
      destruct (assoc "EBridgeAgent" state) as [e|] eqn:He; [|reflexivity].
      simpl. now rewrite (Hnone state e eq_refl He). }
  split; [exact Hbounds|].
  repeat (split; [|try exact Hnone]); clear Hnone; rewrite ?Hrisk;
    clearbody n; clearbody advice;
    destruct (Z.gtb_spec (workload_score advice) 8) as [Hhigh | Hlow];
    try reflexivity; try discriminate; intros; try lia; exfalso; lia.
Qed.

(** On the grades and rules of the EBridge agent both rule courses are
    eligible, which makes a workload of 9 and a High risk. *)
Example handle_ebridge :
  handle (Some [("EBridgeAgent", EBridgeAgent.handle)])
  = mkAdvice ["ECO401"; "FIN308"] 9 "High".
Proof. reflexivity. Qed.

End PlanningAgentFacts.

(* ===================================================================== *)
(** * The dispatcher's subjects in the course index *)
(* ===================================================================== *)

Module SubjectSearchFacts.

Import Spec Terms Samples CourseService PyStrFacts.

(** The two tiers of the search, for a keyword that is a subject name. *)
Lemma subject_search (courses : list Course.t) (subject : string)
    (keywords : list string) :
  assoc subject subject_keywords = Some keywords ->
  PyStr.lower subject = subject ->
  (List.filter (tagged keywords) courses <> [] ->
   search_by_keyword courses subject = List.filter (tagged keywords) courses)
  /\ (List.filter (tagged keywords) courses = [] ->
      search_by_keyword courses subject
      = take 10 (sort_desc (relevance_gt subject)
                   (List.filter (fuzzy_match subject) courses))).
Proof.
  intros Hkeywords Hlower. split.
  - intros Hsome. apply SearchFacts.search_by_keyword_indexed; [|exact Hsome].
    now rewrite Hlower.
  - intros Hnone. unfold search_by_keyword.
    rewrite SearchFacts.build_keyword_index_lookup, Hlower, Hkeywords, Hnone.
    reflexivity.
Qed.

(** X24: every subject the dispatcher extracts from a query is a key of the
    course index's subject table, already in lower case.  So the search the
    handlers run for it answers with all the catalog courses tagged for the
    subject, in catalog order, whenever there is one; only when no course is
    tagged for it does the search fall through to the substring match of
    names, descriptions and tags, capped at 10. *)
Theorem extracted_subject_search (courses : list Course.t) (query subject : string) :
  In subject (AcademicDispatcher._extract_subject_keywords query) ->
  exists keywords,
    assoc subject subject_keywords = Some keywords
    /\ PyStr.lower subject = subject
    /\ (List.filter (tagged keywords) courses <> [] ->
        search_by_keyword courses subject = List.filter (tagged keywords) courses)
    /\ (List.filter (tagged keywords) courses = [] ->
        search_by_keyword courses subject
        = take 10 (sort_desc (relevance_gt subject)
                     (List.filter (fuzzy_match subject) courses))).
Proof.
  intros Hin.
  assert (Hname : In subject (map fst AcademicDispatcher.SUBJECT_KEYWORDS)).
  { unfold AcademicDispatcher._extract_subject_keywords in Hin.
    apply in_map_iff in Hin as (entry & <- & Hentry).
    apply filter_In in Hentry as [Hentry _]. now apply in_map. }
  simpl in Hname.
  repeat (destruct Hname as [<- | Hname];
          [eexists; split; [reflexivity|]; split; [reflexivity|];
           apply subject_search; reflexivity|]).
  destruct Hname.
Qed.

Lemma extracted_subject_search_witness :
  In "fin" (AcademicDispatcher._extract_subject_keywords "explain the finance courses")
  /\ map Course.code (search_by_keyword sample_catalog "fin") = ["FIN301"; "ECO305"].
Proof.
  assert (Hin : In "fin" (AcademicDispatcher._extract_subject_keywords
                            "explain the finance courses"))
    by (vm_compute; tauto).
  split; [exact Hin|].
  destruct (extracted_subject_search sample_catalog "explain the finance courses" "fin" Hin)
    as (keywords & Hk & _ & Hsome & _).
  injection Hk as <-. rewrite Hsome; [reflexivity | discriminate].
Defined.

End SubjectSearchFacts.
